(** * bosh/platform/net: the Ubuntu network manager

    A shallow embedding of [go_agent/src/bosh/platform/net/ubuntu_net_manager.go]
    and the properties of its two convergence operations, [SetupDhcp] and
    [SetupManualNetworking], of the version probe and of the gratuitous-ARP
    loop.

    Layout:
    - [GoStrings], [GoPath]: the pieces of Go's [strings] and [path/filepath]
      the manager calls;
    - [GoTemplate]: the fragment of [text/template] the three configuration
      templates are written in (lexer, parser, executor);
    - [GoRegexp]: the fragment of [regexp] the version signature is written in;
    - [Settings], [System]: the collaborators ([bosh/settings], [bosh/system],
      [bosh/errors], [bosh/logger]) as data and interfaces;
    - [UbuntuNetManager]: the manager itself, over any implementation of the
      interfaces, with every call on a collaborator recorded in a trace;
    - [Fakes]: an in-memory file system and a scripted command runner;
    - the theorems. *)

From Stdlib Require Import ZArith Ascii String.
From Stdlib Require DecimalString.
From stdpp Require Import base option list strings gmap sorting.

Set Warnings "-register-all".
Local Open Scope Z_scope.

(** ** Go's [strings] package *)

Module GoStrings.

Definition nl : string := String "010"%char "".
Definition tab : string := String "009"%char "".
Definition dquote : string := String "034"%char "".

(** [strings.Join(elems, sep)] *)
Definition Join (elems : list string) (sep : string) : string :=
  String.concat sep elems.

(** A source text given line by line: the lines joined by newlines. *)
Definition lines (ls : list string) : string := Join ls nl.

(** [strings.Trim(s, cutset)]: [s] without the leading and trailing
    characters that occur in [cutset]. *)
Fixpoint inCutset (c : ascii) (cutset : string) : bool :=
  match cutset with
  | EmptyString => false
  | String d cutset' => if Ascii.eqb c d then true else inCutset c cutset'
  end.

Fixpoint TrimLeft (s cutset : string) : string :=
  match s with
  | EmptyString => EmptyString
  | String c s' => if inCutset c cutset then TrimLeft s' cutset else s
  end.

Definition TrimRight (s cutset : string) : string :=
  String.rev (TrimLeft (String.rev s) cutset).

Definition Trim (s cutset : string) : string :=
  TrimRight (TrimLeft s cutset) cutset.

(** [strings.HasPrefix(s, prefix)] *)
Definition HasPrefix (s pre : string) : bool := String.prefix pre s.

(** [strings.Split(s, sep)] for a one-character separator. *)
Fixpoint splitGo (sep : ascii) (s : string) (cur : string) : list string :=
  match s with
  | EmptyString => [String.rev cur]
  | String c s' =>
      if Ascii.eqb c sep
      then String.rev cur :: splitGo sep s' EmptyString
      else splitGo sep s' (String c cur)
  end.

Definition Split (s : string) (sep : ascii) : list string :=
  splitGo sep s EmptyString.

End GoStrings.

(** ** Go's [path/filepath] package (Unix) *)

Module GoPath.
Import GoStrings.

(** One step of [Clean]'s scan, on the stack of the elements kept so far
    (innermost first). *)
Definition cleanStep (rooted : bool) (out : list string) (elem : string)
  : list string :=
  if decide (elem = "" ∨ elem = ".") then out
  else if decide (elem = "..") then
    match out with
    | top :: out' => if decide (top = "..") then elem :: out else out'
    | [] => if rooted then [] else [elem]
    end
  else elem :: out.

(** [filepath.Clean(path)]: no repeated separator, no [.] element, no inner
    [..] element, no [..] at the root; the empty result is [.]. *)
Definition Clean (path : string) : string :=
  let rooted := HasPrefix path "/" in
  let out := fold_left (cleanStep rooted) (Split path "/") [] in
  let body := Join (rev out) "/" in
  if rooted then "/" +:+ body
  else if decide (body = "") then "." else body.

(** [filepath.Join(elem...)]: the non-empty elements joined by a separator
    and cleaned; [""] when every element is empty. *)
Definition Join (elems : list string) : string :=
  match filter (λ e, e ≠ "") elems with
  | [] => ""
  | es => Clean (GoStrings.Join es "/")
  end.

(** [filepath.Base(path)]: the last element of [path], trailing separators
    removed first; [.] for the empty path and [/] for a path of separators
    only. *)
Definition Base (path : string) : string :=
  if decide (path = "") then "."
  else
    match filter (λ e, e ≠ "") (Split path "/") with
    | [] => "/"
    | es => List.last es ""
    end.

End GoPath.


(** ** Go's [text/template] package

    The fragment the manager's templates use: literal text, the actions
    [{{ . }}] and [{{ .Field }}], and the blocks [{{ range pipeline }}] and
    [{{ if pipeline }}] closed by [{{ end }}], the pipeline being [.] or
    [.Field]. No template of the manager has an [else] branch, a trim marker,
    a variable or a function call; [Parse] refuses them. *)

Module GoTemplate.

(** The data a template runs on, as [reflect] shows it to the executor. *)
Inductive Value : Type :=
| VString (s : string)
| VBool (b : bool)
| VSlice (elems : list Value)
| VStruct (fields : list (string * Value)).

Inductive Arg : Type :=
| Dot
| Field (name : string).

Inductive Node : Type :=
| TextNode (text : string)
| ActionNode (arg : Arg)
| RangeNode (arg : Arg) (body : list Node)
| IfNode (arg : Arg) (body : list Node).

Definition Template : Type := list Node.

(** *** Lexing: text up to the left delimiter, an action up to the right
    one. *)

Inductive item : Type :=
| itemText (text : string)
| itemAction (words : list string).

Definition textItem (acc : string) (rest : option (list item))
  : option (list item) :=
  if decide (acc = "") then rest
  else items ← rest; Some (itemText (String.rev acc) :: items).

Fixpoint lex (inAction : bool) (acc : string) (input : string)
  : option (list item) :=
  match input with
  | EmptyString =>
      if inAction then None (* unclosed action *)
      else textItem acc (Some [])
  | String c input' =>
      match input' with
      | String d input'' =>
          if negb inAction && Ascii.eqb c "{" && Ascii.eqb d "{"
          then textItem acc (lex true "" input'')
          else if inAction && Ascii.eqb c "}" && Ascii.eqb d "}"
          then items ← lex false "" input'';
               Some (itemAction (String.words (String.rev acc)) :: items)
          else lex inAction (String c acc) input'
      | EmptyString => lex inAction (String c acc) input'
      end
  end.

(** *** Parsing: a stack of the blocks that are open, innermost first. *)

Definition isFieldChar (c : ascii) : bool :=
  let n := N_of_ascii c in
  ((65 <=? n) && (n <=? 90) || (97 <=? n) && (n <=? 122)
   || (48 <=? n) && (n <=? 57) || (n =? 95))%N.

Fixpoint allFieldChars (s : string) : bool :=
  match s with
  | EmptyString => true
  | String c s' => isFieldChar c && allFieldChars s'
  end.

Definition parseArg (word : string) : option Arg :=
  match word with
  | String "." EmptyString => Some Dot
  | String "." name => if allFieldChars name then Some (Field name) else None
  | _ => None
  end.

Inductive opener : Type :=
| openRange (arg : Arg)
| openIf (arg : Arg).

Definition close (o : opener) (body : list Node) : Node :=
  match o with
  | openRange a => RangeNode a body
  | openIf a => IfNode a body
  end.

(** A parse state: the nodes of the innermost list, last first, and for
    every open block its opener and the nodes that came before it. *)
Definition frames : Type := list Node * list (opener * list Node).

Definition parseItem (st : option frames) (it : item) : option frames :=
  '(cur, open) ← st;
  match it with
  | itemText text => Some (TextNode text :: cur, open)
  | itemAction ["end"] =>
      match open with
      | (o, outer) :: open' => Some (close o (rev cur) :: outer, open')
      | [] => None (* unexpected end *)
      end
  | itemAction ["range"; w] => a ← parseArg w; Some ([], (openRange a, cur) :: open)
  | itemAction ["if"; w] => a ← parseArg w; Some ([], (openIf a, cur) :: open)
  | itemAction [w] => a ← parseArg w; Some (ActionNode a :: cur, open)
  | itemAction _ => None
  end.

(** [template.New(name).Parse(text)] *)
Definition Parse (name text : string) : option Template :=
  items ← lex false "" text;
  '(cur, open) ← fold_left parseItem items (Some ([], []));
  match open with
  | [] => Some (rev cur)
  | _ :: _ => None (* unexpected end of input *)
  end.

(** [template.Must(t, err)] panics on a parse error. The manager applies it
    to its three constant templates only, which all parse: see
    [Parse_ubuntuDHCPConfigTemplate] and its siblings. *)
Definition Must (t : option Template) : Template := default [] t.

(** *** Execution *)

Fixpoint fieldByName (fields : list (string * Value)) (name : string)
  : option Value :=
  match fields with
  | [] => None
  | (n, v) :: fields' =>
      if decide (n = name) then Some v else fieldByName fields' name
  end.

Definition evalArg (dot : Value) (a : Arg) : option Value :=
  match a with
  | Dot => Some dot
  | Field name =>
      match dot with
      | VStruct fields => fieldByName fields name
      | _ => None (* can't evaluate field *)
      end
  end.

(** What [fmt.Fprint] writes for a value. *)
Fixpoint printValue (v : Value) : string :=
  match v with
  | VString s => s
  | VBool b => if b then "true" else "false"
  | VSlice elems => "[" +:+ GoStrings.Join (map printValue elems) " " +:+ "]"
  | VStruct fields =>
      "{" +:+ GoStrings.Join (map (λ f, printValue (snd f)) fields) " " +:+ "}"
  end.

(** The truth of a pipeline value: the zero value of its type is false. *)
Definition isTrue (v : Value) : bool :=
  match v with
  | VString s => negb (String.eqb s "")
  | VBool b => b
  | VSlice elems => negb (Nat.eqb (length elems) 0)
  | VStruct _ => true
  end.

Fixpoint execNode (n : Node) (dot : Value) {struct n} : option string :=
  let execList :=
    fix execList (ns : list Node) (dot : Value) {struct ns} : option string :=
      match ns with
      | [] => Some ""
      | n' :: ns' =>
          out ← execNode n' dot;
          rest ← execList ns' dot;
          Some (out +:+ rest)
      end in
  match n with
  | TextNode text => Some text
  | ActionNode a => printValue <$> evalArg dot a
  | IfNode a body =>
      v ← evalArg dot a;
      if isTrue v then execList body dot else Some ""
  | RangeNode a body =>
      v ← evalArg dot a;
      match v with
      | VSlice elems =>
          (fix each (es : list Value) : option string :=
             match es with
             | [] => Some ""
             | e :: es' =>
                 out ← execList body e;
                 rest ← each es';
                 Some (out +:+ rest)
             end) elems
      | _ => None (* range can't iterate over the value *)
      end
  end.

Fixpoint execList (ns : list Node) (dot : Value) : option string :=
  match ns with
  | [] => Some ""
  | n :: ns' =>
      out ← execNode n dot;
      rest ← execList ns' dot;
      Some (out +:+ rest)
  end.

(** The iteration of a [range] block over the elements of a slice. *)
Definition execRange (body : list Node) : list Value → option string :=
  fix each (es : list Value) : option string :=
    match es with
    | [] => Some ""
    | e :: es' =>
        out ← execList body e;
        rest ← each es';
        Some (out +:+ rest)
    end.

(** [t.Execute(buffer, data)]: the text written to the buffer, or [None]
    for an execution error. *)
Definition Execute (t : Template) (data : Value) : option string :=
  execList t data.

End GoTemplate.

(** ** Go's [regexp] package

    The fragment the version signature is written in: a sequence of literal
    characters, [\c] for a punctuation character taken literally, and [.] for
    any character but a newline. *)

Module GoRegexp.

Inductive atom : Type :=
| Lit (c : ascii)
| AnyCharNotNL.

Definition Regexp : Type := list atom.

Definition isMeta (c : ascii) : bool :=
  GoStrings.inCutset c "\.+*?()|[]{}^$".

Fixpoint parse (pattern : string) : option Regexp :=
  match pattern with
  | EmptyString => Some []
  | String c rest =>
      if Ascii.eqb c "\" then
        match rest with
        | String d rest' =>
            if isMeta d then re ← parse rest'; Some (Lit d :: re) else None
        | EmptyString => None (* trailing backslash *)
        end
      else if Ascii.eqb c "." then re ← parse rest; Some (AnyCharNotNL :: re)
      else if isMeta c then None
      else re ← parse rest; Some (Lit c :: re)
  end.

(** [regexp.MustCompile(pattern)] panics when the pattern does not parse;
    the manager's one pattern does, see [parse_ifupVersion07]. *)
Definition MustCompile (pattern : string) : Regexp :=
  default [] (parse pattern).

(** The expression of a literal text. *)
Fixpoint literal (s : string) : Regexp :=
  match s with
  | EmptyString => []
  | String c s' => Lit c :: literal s'
  end.

Definition matchAtom (a : atom) (c : ascii) : bool :=
  match a with
  | Lit d => Ascii.eqb c d
  | AnyCharNotNL => negb (Ascii.eqb c "010")
  end.

(** The expression matches a prefix of [s]. *)
Fixpoint matchHere (re : Regexp) (s : string) : bool :=
  match re, s with
  | [], _ => true
  | a :: re', String c s' => matchAtom a c && matchHere re' s'
  | _ :: _, EmptyString => false
  end.

(** [re.MatchString(s)]: [s] contains a match, at any offset. *)
Fixpoint MatchString (re : Regexp) (s : string) : bool :=
  matchHere re s ||
  match s with
  | EmptyString => false
  | String _ s' => MatchString re s'
  end.

End GoRegexp.

(** ** [bosh/errors] *)

Module Errors.

Inductive error : Type :=
| New (msg : string)
| Wrapped (msg : string) (cause : error).

(** [bosherr.WrapError(err, msg)] *)
Definition WrapError (cause : error) (msg : string) : error :=
  Wrapped msg cause.

#[global] Instance error_eq_dec : EqDecision error.
Proof. solve_decision. Defined.

End Errors.

(** ** [bosh/settings] *)

Module Settings.

(** Modelled from the spec: the declaration of [boshsettings.Network], the
    NetworkSpec of the data model, with the fields the manager and its
    templates read. [Default] lists the categories (such as dns and
    gateway) the network is the designated one for. *)
Record Network : Type := mkNetwork {
  Type_ : string;
  IP : string;
  Netmask : string;
  Gateway : string;
  Default : list string;
  DNS : list string;
  Mac : string;
}.

(** Modelled from the spec: the declaration of [boshsettings.Networks], an
    ordered collection of named networks. *)
Definition Networks : Type := list (string * Network).

(** [networks.DefaultNetworkFor(category)], declared in [bosh/settings]:
    the designated network for a category and whether there is one. *)
Class NetworksMethods : Type := {
  DefaultNetworkFor : Networks → string → Network * bool;
}.

End Settings.

(** ** [bosh/system] and the clock *)

Module System.
Import Errors.

(** [time.Duration], in nanoseconds. *)
Definition Duration : Type := Z.
Definition Millisecond : Duration := 1000000.

(** [boshsys.FileSystem], over the state [S] of the machine. The three
    queries leave the machine as it is; the two writes return the machine
    after the call. A Go result [(v, err)] is a pair whose error is
    [None] for [nil]. *)
Class FileSystem (S : Type) : Type := {
  Glob : string → S → list string * option error;
  ReadFileString : string → S → string * option error;
  FileExists : string → S → bool;
  ConvergeFileContents : string → string → S → bool * option error * S;
  WriteFile : string → string → S → option error * S;
}.

(** [boshsys.CmdRunner]: [RunCommand] returns stdout, stderr, the exit
    status and the error. *)
Class CmdRunner (S : Type) : Type := {
  RunCommand : string → list string → S → string * string * Z * option error * S;
  CommandExists : string → S → bool;
}.

(** What the machine becomes while a goroutine sleeps in [time.Sleep]. *)
Class Clock (S : Type) : Type := {
  Sleep : Duration → S → S;
}.

(** [boshsys.CalculateNetworkAndBroadcast(ip, netmask)] *)
Class NetworkCalculator : Type := {
  CalculateNetworkAndBroadcast : string → string → string * string * option error;
}.

End System.

(** ** [bosh/platform/net]: the manager *)

Module UbuntuNetManager.
Import Errors System GoTemplate.
Export Settings.

Definition ubuntuNetManagerLogTag : string := "ubuntuNetManager".

Definition ifupVersion07Regex : GoRegexp.Regexp :=
  GoRegexp.MustCompile "ifup version 0\.7".

(** The manager's own field; its [cmdRunner], [fs] and [logger] are the
    interfaces the code below is written over. *)
Record ubuntuNetManager : Type := {
  arpWaitInterval : Duration;
}.

(** [customNetwork] is declared elsewhere in the package; its fields are
    the ones the interfaces template reads, in the order of the struct
    literal in [writeNetworkInterfaces]. *)
Record customNetwork : Type := mkCustomNetwork {
  Network : Settings.Network;
  Interface : string;
  NetworkIP : string;
  Broadcast : string;
  HasDefaultGateway : bool;
}.

Record dnsConfigArg : Type := {
  DNSServers : list string;
}.

(** The values the templates see; the fields of the embedded [Network] are
    promoted to [customNetwork]. *)
Definition networkFields (n : Settings.Network) : list (string * Value) :=
  [ ("Type", VString (Type_ n)); ("IP", VString (IP n));
    ("Netmask", VString (Netmask n)); ("Gateway", VString (Gateway n));
    ("Default", VSlice (VString <$> Default n));
    ("DNS", VSlice (VString <$> DNS n)); ("Mac", VString (Mac n)) ].

Definition customNetworkValue (c : customNetwork) : Value :=
  VStruct ([ ("Interface", VString (Interface c));
             ("NetworkIP", VString (NetworkIP c));
             ("Broadcast", VString (Broadcast c));
             ("HasDefaultGateway", VBool (HasDefaultGateway c)) ]
           ++ networkFields (Network c)).

Definition dnsConfigArgValue (a : dnsConfigArg) : Value :=
  VStruct [ ("DNSServers", VSlice (VString <$> DNSServers a)) ].

(** A channel of errors, by name; [None] is the [nil] channel. *)
Definition Chan : Type := nat.

(** What a call does to the world around the manager, in the order it does
    it: the writes and commands with what they returned, the log lines, the
    sleeps, the goroutines it starts and the values it sends. *)
Inductive Event : Type :=
| EvConvergeFileContents (path content : string) (changed : bool) (err : option error)
| EvWriteFile (path content : string) (err : option error)
| EvRunCommand (cmdName : string) (args : list string) (stdout : string) (err : option error)
| EvLogInfo (tag format : string) (arg : error)
| EvSleep (d : Duration)
| EvGoGratuitiousArp (networks : list customNetwork) (errCh : option Chan)
| EvSend (ch : Chan) (v : option error).

(** *** The templates *)

Definition ubuntuDHCPConfigTemplate : string :=
  GoStrings.lines [
    "# Generated by bosh-agent";
    "";
    "option rfc3442-classless-static-routes code 121 = array of unsigned integer 8;";
    "";
    "send host-name " +:+ GoStrings.dquote +:+ "<hostname>" +:+ GoStrings.dquote +:+ ";";
    "";
    "request subnet-mask, broadcast-address, time-offset, routers,";
    GoStrings.tab +:+ "domain-name, domain-name-servers, domain-search, host-name,";
    GoStrings.tab +:+ "netbios-name-servers, netbios-scope, interface-mtu,";
    GoStrings.tab +:+ "rfc3442-classless-static-routes, ntp-servers;";
    "";
    "prepend domain-name-servers {{ . }};";
    "" ].

Definition ubuntuNetworkInterfacesTemplate : string :=
  GoStrings.lines [
    "# Generated by bosh-agent";
    "auto lo";
    "iface lo inet loopback";
    "{{ range . }}";
    "auto {{ .Interface }}";
    "iface {{ .Interface }} inet static";
    "    address {{ .IP }}";
    "    network {{ .NetworkIP }}";
    "    netmask {{ .Netmask }}";
    "    broadcast {{ .Broadcast }}";
    "{{ if .HasDefaultGateway }}    gateway {{ .Gateway }}{{ end }}{{ end }}" ].

Definition ubuntuResolvConfTemplate : string :=
  GoStrings.lines [
    "# Generated by bosh-agent";
    "{{ range .DNSServers }}nameserver {{ . }}";
    "{{ end }}" ].

Section Manager.

Context {S : Type}.
Context `{!FileSystem S, !CmdRunner S, !Clock S}.
Context `{!NetworkCalculator, !NetworksMethods}.

(** *** Calls on the collaborators

    A computation takes the machine and returns its result, the machine
    it leaves and the events it caused. *)

Definition M (A : Type) : Type := S → A * S * list Event.

#[export] Instance M_ret : MRet M := λ A a s, (a, s, []).

#[export] Instance M_bind : MBind M := λ A B k m s,
  let '(a, s1, t1) := m s in
  let '(b, s2, t2) := k a s1 in
  (b, s2, t1 ++ t2).

Definition fs_Glob (pattern : string) : M (list string * option error) :=
  λ s, (Glob pattern s, s, []).

Definition fs_ReadFileString (path : string) : M (string * option error) :=
  λ s, (ReadFileString path s, s, []).

Definition fs_FileExists (path : string) : M bool :=
  λ s, (FileExists path s, s, []).

Definition fs_ConvergeFileContents (path content : string)
  : M (bool * option error) :=
  λ s, let '(changed, err, s') := ConvergeFileContents path content s in
       (changed, err, s', [EvConvergeFileContents path content changed err]).

Definition fs_WriteFile (path content : string) : M (option error) :=
  λ s, let '(err, s') := WriteFile path content s in
       (err, s', [EvWriteFile path content err]).

Definition cmdRunner_RunCommand (cmdName : string) (args : list string)
  : M (string * string * Z * option error) :=
  λ s, let '(stdout, stderr, status, err, s') := RunCommand cmdName args s in
       (stdout, stderr, status, err, s', [EvRunCommand cmdName args stdout err]).

Definition cmdRunner_CommandExists (cmdName : string) : M bool :=
  λ s, (CommandExists cmdName s, s, []).

Definition logger_Info (tag format : string) (arg : error) : M unit :=
  λ s, (tt, s, [EvLogInfo tag format arg]).

Definition time_Sleep (d : Duration) : M unit :=
  λ s, (tt, Sleep d s, [EvSleep d]).

(** [go net.gratuitiousArp(networks, errCh)]: the goroutine is started,
    the caller goes on. *)
Definition go_gratuitiousArp (networks : list customNetwork)
  (errCh : option Chan) : M unit :=
  λ s, (tt, s, [EvGoGratuitiousArp networks errCh]).

(** [ch <- v] *)
Definition chan_send (ch : Chan) (v : option error) : M unit :=
  λ s, (tt, s, [EvSend ch v]).

(** [if err != nil { net.logger.Info(tag, format, err) }] *)
Definition logIgnored (format : string) (err : option error) : M unit :=
  match err with
  | Some e => logger_Info ubuntuNetManagerLogTag format e
  | None => mret tt
  end.

Variable net : ubuntuNetManager.

(** *** [getDNSServers] *)

(** [for i := len(dns) - 1; i >= 0; i-- { dnsServers = append(dnsServers, dns[i]) }],
    with [n] for [i + 1]. *)
Fixpoint getDNSServers_loop (dns : list string) (n : nat)
  (dnsServers : list string) : list string :=
  match n with
  | O => dnsServers
  | Datatypes.S i =>
      getDNSServers_loop dns i (dnsServers ++ [default "" (dns !! i)])
  end.

Definition getDNSServers (networks : Networks) : list string :=
  let dnsServers := [] in
  let '(dnsNetwork, found) := DefaultNetworkFor networks "dns" in
  if found
  then getDNSServers_loop (DNS dnsNetwork) (length (DNS dnsNetwork)) dnsServers
  else dnsServers.

(** *** [dhclientConfigFile] and [restartNetworkArguments] *)

Definition dhclientConfigFile : M string :=
  exists_ ← cmdRunner_CommandExists "dhclient3";
  if exists_ : bool then mret "/etc/dhcp3/dhclient.conf"
  else mret "/etc/dhcp/dhclient.conf".

Definition restartNetworkArguments : M (list string) :=
  '(stdout, _, _, err) ← cmdRunner_RunCommand "ifup" ["--version"];
  logIgnored "Ignoring ifup version failure: %#v" err;;
  if GoRegexp.MatchString ifupVersion07Regex stdout
  then mret ["-a"; "--no-loopback"]
  else mret ["-a"; "--exclude=lo"].

(** *** [SetupDhcp] *)

Definition SetupDhcp (networks : Networks) : M (option error) :=
  let dnsServers := getDNSServers networks in
  let dnsServersList := GoStrings.Join dnsServers ", " in
  let t := Must (Parse "dhcp-config" ubuntuDHCPConfigTemplate) in
  match Execute t (VString dnsServersList) with
  | None => mret (Some (WrapError (New "template") "Generating config from template"))
  | Some buffer =>
      dhclientConfigFile ← dhclientConfigFile;
      '(written, err) ← fs_ConvergeFileContents dhclientConfigFile buffer;
      match err with
      | Some e => mret (Some (WrapError e ("Writing to " +:+ dhclientConfigFile)))
      | None =>
          (if written : bool then
             args ← restartNetworkArguments;
             '(_, _, _, err) ← cmdRunner_RunCommand "ifdown" args;
             logIgnored "Ignoring ifdown failure: %#v" err;;
             '(_, _, _, err) ← cmdRunner_RunCommand "ifup" args;
             logIgnored "Ignoring ifup failure: %#v" err
           else mret tt);;
          mret None
      end
  end.

(** *** [detectMacAddresses] *)

Fixpoint detectMacAddresses_loop (filePaths : list string)
  (addresses : gmap string string) : M (gmap string string * option error) :=
  match filePaths with
  | [] => mret (addresses, None)
  | filePath :: filePaths' =>
      '(macAddress, err) ← fs_ReadFileString (GoPath.Join [filePath; "address"]);
      match err with
      | Some e => mret (addresses, Some (WrapError e "Reading mac address from file"))
      | None =>
          let macAddress := GoStrings.Trim macAddress GoStrings.nl in
          let interfaceName := GoPath.Base filePath in
          detectMacAddresses_loop filePaths' (<[macAddress := interfaceName]> addresses)
      end
  end.

Definition detectMacAddresses : M (gmap string string * option error) :=
  let addresses : gmap string string := ∅ in
  '(filePaths, err) ← fs_Glob "/sys/class/net/*";
  match err with
  | Some e => mret (addresses, Some (WrapError e "Getting file list from /sys/class/net"))
  | None => detectMacAddresses_loop filePaths addresses
  end.

(** *** [writeNetworkInterfaces] *)

(** The loop over the networks. A Go map yields [""] for a key it does
    not hold. *)
Fixpoint writeNetworkInterfaces_loop (macAddresses : gmap string string)
  (networks : Networks) (modifiedNetworks : list customNetwork)
  : list customNetwork * option error :=
  match networks with
  | [] => (modifiedNetworks, None)
  | (_, aNet) :: networks' =>
      let '(network, broadcast, err) :=
        CalculateNetworkAndBroadcast (IP aNet) (Netmask aNet) in
      match err with
      | Some e => (modifiedNetworks, Some (WrapError e "Calculating network and broadcast"))
      | None =>
          let newNet := {|
            Network := aNet;
            Interface := default "" (macAddresses !! Mac aNet);
            NetworkIP := network;
            Broadcast := broadcast;
            HasDefaultGateway := true;
          |} in
          writeNetworkInterfaces_loop macAddresses networks'
            (modifiedNetworks ++ [newNet])
      end
  end.

Definition writeNetworkInterfaces (networks : Networks)
  : M (list customNetwork * bool * option error) :=
  let modifiedNetworks : list customNetwork := [] in
  '(macAddresses, err) ← detectMacAddresses;
  match err with
  | Some e => mret (modifiedNetworks, false, Some (WrapError e "Detecting mac addresses"))
  | None =>
      let '(modifiedNetworks, err) :=
        writeNetworkInterfaces_loop macAddresses networks modifiedNetworks in
      match err with
      | Some e => mret (modifiedNetworks, false, Some e)
      | None =>
          let t := Must (Parse "network-interfaces" ubuntuNetworkInterfacesTemplate) in
          match Execute t (VSlice (customNetworkValue <$> modifiedNetworks)) with
          | None =>
              mret (modifiedNetworks, false,
                    Some (WrapError (New "template") "Generating config from template"))
          | Some buffer =>
              '(written, err) ← fs_ConvergeFileContents "/etc/network/interfaces" buffer;
              match err with
              | Some e =>
                  mret (modifiedNetworks, false,
                        Some (WrapError e "Writing to /etc/network/interfaces"))
              | None => mret (modifiedNetworks, written, None)
              end
          end
      end
  end.

(** *** [writeResolvConf] *)

Definition writeResolvConf (networks : Networks) : M (option error) :=
  let t := Must (Parse "resolv-conf" ubuntuResolvConfTemplate) in
  let dnsServers := getDNSServers networks in
  let dnsServersArg := {| DNSServers := dnsServers |} in
  match Execute t (dnsConfigArgValue dnsServersArg) with
  | None => mret (Some (WrapError (New "template") "Generating config from template"))
  | Some buffer =>
      err ← fs_WriteFile "/etc/resolv.conf" buffer;
      match err with
      | Some e => mret (Some (WrapError e "Writing to /etc/resolv.conf"))
      | None => mret None
      end
  end.

(** *** [restartNetworkingInterfaces] *)

Fixpoint restartNetworkingInterfaces (networks : list customNetwork) : M unit :=
  match networks with
  | [] => mret tt
  | network :: networks' =>
      '(_, _, _, err) ← cmdRunner_RunCommand "service"
        ["network-interface"; "stop"; "INTERFACE=" +:+ Interface network];
      logIgnored "Ignoring network stop failure: %#v" err;;
      '(_, _, _, err) ← cmdRunner_RunCommand "service"
        ["network-interface"; "start"; "INTERFACE=" +:+ Interface network];
      logIgnored "Ignoring network start failure: %#v" err;;
      restartNetworkingInterfaces networks'
  end.

(** *** [SetupManualNetworking] *)

Definition SetupManualNetworking (networks : Networks) (errCh : option Chan)
  : M (option error) :=
  '(modifiedNetworks, written, err) ← writeNetworkInterfaces networks;
  match err with
  | Some e => mret (Some (WrapError e "Writing network interfaces"))
  | None =>
      (if written : bool then restartNetworkingInterfaces modifiedNetworks
       else mret tt);;
      err ← writeResolvConf networks;
      match err with
      | Some e => mret (Some (WrapError e "Writing resolv.conf"))
      | None =>
          go_gratuitiousArp modifiedNetworks errCh;;
          mret None
      end
  end.

(** *** [GetDefaultNetwork] *)

Definition GetDefaultNetwork : Settings.Network * option error :=
  (mkNetwork "" "" "" "" [] [] "", None).

(** *** [gratuitiousArp]

    The wait for an interface's device entry has no bound in the source.
    [fuel] bounds the number of polls of one wait; a wait that outlasts
    it makes the run [None]. *)

Definition P (A : Type) : Type := S → option (A * S * list Event).

#[export] Instance P_ret : MRet P := λ A a s, Some (a, s, []).

#[export] Instance P_bind : MBind P := λ A B k m s,
  match m s with
  | None => None
  | Some (a, s1, t1) =>
      match k a s1 with
      | None => None
      | Some (b, s2, t2) => Some (b, s2, t1 ++ t2)
      end
  end.

Definition lift {A : Type} (m : M A) : P A := λ s, Some (m s).

Definition diverge {A : Type} : P A := λ _, None.

(** [for !net.fs.FileExists(path) { time.Sleep(100 * time.Millisecond) }] *)
Fixpoint waitForFile (fuel : nat) (path : string) : P unit :=
  match fuel with
  | O => diverge
  | Datatypes.S fuel' =>
      exists_ ← lift (fs_FileExists path);
      if exists_ : bool then mret tt
      else lift (time_Sleep (100 * Millisecond));; waitForFile fuel' path
  end.

(** The body of the inner loop, for one network. *)
Definition announce (fuel : nat) (network : customNetwork) : P unit :=
  waitForFile fuel (GoPath.Join ["/sys/class/net"; Interface network]);;
  '(_, _, _, err) ← lift (cmdRunner_RunCommand "arping"
    ["-c"; "1"; "-U"; "-I"; Interface network; IP (Network network)]);
  lift (logIgnored "Ignoring arping failure: %#v" err);;
  lift (time_Sleep (arpWaitInterval net)).

(** [for _, network := range networks { ... }] *)
Fixpoint gratuitiousArp_round (fuel : nat) (networks : list customNetwork)
  : P unit :=
  match networks with
  | [] => mret tt
  | network :: networks' =>
      announce fuel network;; gratuitiousArp_round fuel networks'
  end.

(** [for i := 0; i < 6; i++ { ... }], with [rounds] for [6 - i]. *)
Fixpoint gratuitiousArp_rounds (fuel : nat) (rounds : nat)
  (networks : list customNetwork) : P unit :=
  match rounds with
  | O => mret tt
  | Datatypes.S rounds' =>
      gratuitiousArp_round fuel networks;;
      gratuitiousArp_rounds fuel rounds' networks
  end.

Definition gratuitiousArp (fuel : nat) (networks : list customNetwork)
  (errCh : option Chan) : P unit :=
  gratuitiousArp_rounds fuel 6 networks;;
  match errCh with
  | Some ch => lift (chan_send ch None)
  | None => mret tt
  end.

(** *** [gratuitiousArp], with the events of a run that has not ended

    The same loops, run for at most [fuel] polls per wait. A run still
    waiting after them is [None], with the machine and the events so
    far. *)

Definition T (A : Type) : Type := S → option A * S * list Event.

#[export] Instance T_ret : MRet T := λ A a s, (Some a, s, []).

#[export] Instance T_bind : MBind T := λ A B k m s,
  match m s with
  | (None, s1, t1) => (None, s1, t1)
  | (Some a, s1, t1) => let '(b, s2, t2) := k a s1 in (b, s2, t1 ++ t2)
  end.

Definition liftT {A : Type} (m : M A) : T A :=
  λ s, let '(a, s1, t) := m s in (Some a, s1, t).

Definition waiting {A : Type} : T A := λ s, (None, s, []).

(** [for !net.fs.FileExists(path) { time.Sleep(100 * time.Millisecond) }] *)
Fixpoint waitForFile_upto (fuel : nat) (path : string) : T unit :=
  match fuel with
  | O => waiting
  | Datatypes.S fuel' =>
      exists_ ← liftT (fs_FileExists path);
      if exists_ : bool then mret tt
      else liftT (time_Sleep (100 * Millisecond));; waitForFile_upto fuel' path
  end.

Definition announce_upto (fuel : nat) (network : customNetwork) : T unit :=
  waitForFile_upto fuel (GoPath.Join ["/sys/class/net"; Interface network]);;
  '(_, _, _, err) ← liftT (cmdRunner_RunCommand "arping"
    ["-c"; "1"; "-U"; "-I"; Interface network; IP (Network network)]);
  liftT (logIgnored "Ignoring arping failure: %#v" err);;
  liftT (time_Sleep (arpWaitInterval net)).

Fixpoint gratuitiousArp_round_upto (fuel : nat) (networks : list customNetwork)
  : T unit :=
  match networks with
  | [] => mret tt
  | network :: networks' =>
      announce_upto fuel network;; gratuitiousArp_round_upto fuel networks'
  end.

Fixpoint gratuitiousArp_rounds_upto (fuel : nat) (rounds : nat)
  (networks : list customNetwork) : T unit :=
  match rounds with
  | O => mret tt
  | Datatypes.S rounds' =>
      gratuitiousArp_round_upto fuel networks;;
      gratuitiousArp_rounds_upto fuel rounds' networks
  end.

Definition gratuitiousArp_upto (fuel : nat) (networks : list customNetwork)
  (errCh : option Chan) : T unit :=
  gratuitiousArp_rounds_upto fuel 6 networks;;
  match errCh with
  | Some ch => liftT (chan_send ch None)
  | None => mret tt
  end.

End Manager.

End UbuntuNetManager.

(** ** Collaborators in memory

    The file system, the command runner, the clock, the subnet arithmetic and
    the settings are not part of the manager. These are implementations to
    run it on: a map from paths to contents with glob results registered per
    pattern, command results registered per command line. *)

Module Fakes.
Import Errors System Settings.

(** *** Subnet arithmetic *)

Definition digitValue (c : ascii) : option Z :=
  let n := Z.of_N (N_of_ascii c) in
  if (48 <=? n) && (n <=? 57) then Some (n - 48) else None.

Fixpoint parseDecimal (s : string) (acc : Z) : option Z :=
  match s with
  | EmptyString => Some acc
  | String c s' => d ← digitValue c; parseDecimal s' (10 * acc + d)
  end.

Definition parseOctet (s : string) : option Z :=
  if decide (s = "") then None
  else n ← parseDecimal s 0; if n <=? 255 then Some n else None.

(** A dotted quad as a 32-bit number. *)
Definition parseIPv4 (s : string) : option Z :=
  match GoStrings.Split s "." with
  | [a; b; c; d] =>
      a ← parseOctet a; b ← parseOctet b; c ← parseOctet c; d ← parseOctet d;
      Some (Z.lor (Z.shiftl a 24) (Z.lor (Z.shiftl b 16) (Z.lor (Z.shiftl c 8) d)))
  | _ => None
  end.

Definition showDecimal (n : Z) : string :=
  DecimalString.NilZero.string_of_uint (N.to_uint (Z.to_N n)).

Definition octet (ip : Z) (i : Z) : Z := Z.land (Z.shiftr ip (8 * i)) 255.

Definition showIPv4 (ip : Z) : string :=
  GoStrings.Join (showDecimal <$> [octet ip 3; octet ip 2; octet ip 1; octet ip 0]) ".".

(** Modelled from the spec: [boshsys.CalculateNetworkAndBroadcast], the
    subnet arithmetic: the bitwise AND of the 32-bit address with the mask
    and its bitwise OR with the complement of the mask, an error on
    malformed input. *)
Definition calculateNetworkAndBroadcast (ip netmask : string)
  : string * string * option error :=
  match parseIPv4 ip, parseIPv4 netmask with
  | Some a, Some m =>
      (showIPv4 (Z.land a m), showIPv4 (Z.lor a (Z.lxor m 4294967295)), None)
  | _, _ => ("", "", Some (New "Invalid IP or netmask"))
  end.

#[export] Instance fakeNetworkCalculator : NetworkCalculator := {|
  CalculateNetworkAndBroadcast := calculateNetworkAndBroadcast;
|}.

(** *** Settings *)

Definition zeroNetwork : Network := mkNetwork "" "" "" "" [] [] "".

(** Modelled from the spec: [Networks.DefaultNetworkFor], the network
    designated for the category, the first one should several be; the zero
    network and [false] when none is. *)
Fixpoint defaultNetworkFor (networks : Networks) (category : string)
  : Network * bool :=
  match networks with
  | [] => (zeroNetwork, false)
  | (_, n) :: networks' =>
      if bool_decide (category ∈ Default n) then (n, true)
      else defaultNetworkFor networks' category
  end.

#[export] Instance fakeNetworksMethods : NetworksMethods := {|
  DefaultNetworkFor := defaultNetworkFor;
|}.

(** *** The machine *)

Record Machine : Type := mkMachine {
  (** the files on disk, by path *)
  files : gmap string string;
  (** what [Glob] returns, by pattern *)
  globs : gmap string (list string);
  (** the error [Glob] returns, if any *)
  globErr : option error;
  (** the error every write returns, if any *)
  writeErr : option error;
  (** stdout and error of the commands, by command line *)
  cmdResults : gmap string (string * option error);
  (** the commands [CommandExists] finds *)
  availableCmds : list string;
  (** the commands run so far, last first *)
  runCommands : list (list string);
  (** device entries on their way: the path and the time until it exists *)
  arriving : list (string * Duration);
}.

Definition setFiles (fs : gmap string string) (m : Machine) : Machine :=
  mkMachine fs (globs m) (globErr m) (writeErr m) (cmdResults m)
    (availableCmds m) (runCommands m) (arriving m).

(** Modelled from the spec: [FileSystem.Glob], the paths that match a
    pattern, or an error; here the paths registered for the pattern. *)
Definition fakeGlob (pattern : string) (m : Machine)
  : list string * option error :=
  match globErr m with
  | Some e => ([], Some e)
  | None => (default [] (globs m !! pattern), None)
  end.

(** Modelled from the spec: [FileSystem.ReadFileString], the content of a
    file, or an error when there is none. *)
Definition fakeReadFileString (path : string) (m : Machine)
  : string * option error :=
  match files m !! path with
  | Some content => (content, None)
  | None => ("", Some (New "File not found"))
  end.

(** Modelled from the spec: [FileSystem.FileExists]. *)
Definition fakeFileExists (path : string) (m : Machine) : bool :=
  bool_decide (is_Some (files m !! path)).

(** Modelled from the spec: [FileSystem.WriteFile], the plain write: the
    file holds the content afterwards, unless the write fails. *)
Definition fakeWriteFile (path content : string) (m : Machine)
  : option error * Machine :=
  match writeErr m with
  | Some e => (Some e, m)
  | None => (None, setFiles (<[path := content]> (files m)) m)
  end.

(** Modelled from the spec: [FileSystem.ConvergeFileContents], the
    convergent write: the new content is compared with the content on disk,
    a file that does not exist counting as empty; the file is written only
    when they differ, and the result tells whether a write occurred. *)
Definition fakeConvergeFileContents (path content : string) (m : Machine)
  : bool * option error * Machine :=
  if decide (default "" (files m !! path) = content) then (false, None, m)
  else
    match fakeWriteFile path content m with
    | (Some e, m') => (false, Some e, m')
    | (None, m') => (true, None, m')
    end.

#[export] Instance fakeFileSystem : FileSystem Machine := {|
  Glob := fakeGlob;
  ReadFileString := fakeReadFileString;
  FileExists := fakeFileExists;
  ConvergeFileContents := fakeConvergeFileContents;
  WriteFile := fakeWriteFile;
|}.

(** Modelled from the spec: [CmdRunner.RunCommand], the run of an external
    command: stdout, stderr, exit status and error, here the ones
    registered for the command line. The command is recorded and the disk
    is left as it is. *)
Definition fakeRunCommand (cmdName : string) (args : list string) (m : Machine)
  : string * string * Z * option error * Machine :=
  let m' := mkMachine (files m) (globs m) (globErr m) (writeErr m)
              (cmdResults m) (availableCmds m)
              ((cmdName :: args) :: runCommands m) (arriving m) in
  match cmdResults m !! GoStrings.Join (cmdName :: args) " " with
  | Some (stdout, Some e) => (stdout, "", -1, Some e, m')
  | Some (stdout, None) => (stdout, "", 0, None, m')
  | None => ("", "", 0, None, m')
  end.

(** Modelled from the spec: [CmdRunner.CommandExists]. *)
Definition fakeCommandExists (cmdName : string) (m : Machine) : bool :=
  bool_decide (cmdName ∈ availableCmds m).

#[export] Instance fakeCmdRunner : CmdRunner Machine := {|
  RunCommand := fakeRunCommand;
  CommandExists := fakeCommandExists;
|}.

(** While the goroutine sleeps for [d], the entries due within [d] come to
    exist and the others come closer by [d]. *)
Fixpoint arrive (d : Duration) (pending : list (string * Duration))
  (fs : gmap string string) : gmap string string * list (string * Duration) :=
  match pending with
  | [] => (fs, [])
  | (path, due) :: pending' =>
      let '(fs', rest) := arrive d pending' fs in
      if due <=? d then (<[path := ""]> fs', rest)
      else (fs', (path, due - d) :: rest)
  end.

Definition fakeSleep (d : Duration) (m : Machine) : Machine :=
  let '(fs, pending) := arrive d (arriving m) (files m) in
  mkMachine fs (globs m) (globErr m) (writeErr m) (cmdResults m)
    (availableCmds m) (runCommands m) pending.

#[export] Instance fakeClock : Clock Machine := {|
  Sleep := fakeSleep;
|}.

End Fakes.

(** ** What a trace shows, and the texts the templates stand for *)

Module Observations.
Import Errors System UbuntuNetManager.

Definition isWrite (e : Event) : bool :=
  match e with
  | EvConvergeFileContents _ _ _ _ | EvWriteFile _ _ _ => true
  | _ => false
  end.

(** The file writes of a trace, convergent or plain. *)
Definition writes (t : list Event) : list Event := List.filter isWrite t.

Definition commandLine (e : Event) : option (list string) :=
  match e with
  | EvRunCommand cmdName args _ _ => Some (cmdName :: args)
  | _ => None
  end.

(** The command lines a trace runs, in order. *)
Definition commands (t : list Event) : list (list string) := omap commandLine t.

Definition sent (e : Event) : option (Chan * option error) :=
  match e with
  | EvSend ch v => Some (ch, v)
  | _ => None
  end.

(** The values a trace sends, with their channels, in order. *)
Definition sends (t : list Event) : list (Chan * option error) := omap sent t.

(** An event of a best-effort command: the command or the log line for
    its failure. *)
Definition isCommandOrLog (e : Event) : bool :=
  match e with
  | EvRunCommand _ _ _ _ | EvLogInfo _ _ _ => true
  | _ => false
  end.

(** The log line of a best-effort command, written when it failed. *)
Definition logEvents (format : string) (err : option error) : list Event :=
  match err with
  | Some e => [EvLogInfo ubuntuNetManagerLogTag format e]
  | None => []
  end.

(** The resolved network of a network specification, for a map from MAC
    addresses to interface names. *)
Definition resolve `{!NetworkCalculator} (macAddresses : gmap string string)
  (aNet : Settings.Network) : customNetwork :=
  let '(network, broadcast, _) :=
    CalculateNetworkAndBroadcast (IP aNet) (Netmask aNet) in
  {| Network := aNet;
     Interface := default "" (macAddresses !! Mac aNet);
     NetworkIP := network;
     Broadcast := broadcast;
     HasDefaultGateway := true |}.

(** The subnet arithmetic fails on the network. *)
Definition badSubnet `{!NetworkCalculator} (aNet : Settings.Network) : Prop :=
  is_Some (CalculateNetworkAndBroadcast (IP aNet) (Netmask aNet)).2.


(** The steps of the static setup, in the order the source takes them: the
    convergence of the interfaces file, the bounce, the resolver
    configuration, the start of the announcer. *)
Definition phase (e : Event) : nat :=
  match e with
  | EvConvergeFileContents _ _ _ _ => 1
  | EvRunCommand _ _ _ _ | EvLogInfo _ _ _ => 2
  | EvWriteFile _ _ _ => 3
  | EvGoGratuitiousArp _ _ => 4
  | EvSleep _ | EvSend _ _ => 5
  end.

(** [s] contains [sub]. *)
Definition contains (s sub : string) : Prop :=
  ∃ pre post, s = pre +:+ sub +:+ post.

(** The text of the resolver configuration for a list of servers. *)
Definition resolvConf (servers : list string) : string :=
  "# Generated by bosh-agent" +:+ GoStrings.nl +:+
  String.concat "" ((λ server, "nameserver " +:+ server +:+ GoStrings.nl) <$> servers).

(** The line of the gateway, without a newline after it. *)
Definition gatewayLine (c : customNetwork) : string :=
  if HasDefaultGateway c then "    gateway " +:+ Gateway (Network c) else "".

(** The stanza of one network in the interfaces file. *)
Definition stanza (c : customNetwork) : string :=
  GoStrings.nl +:+
  "auto " +:+ Interface c +:+ GoStrings.nl +:+
  "iface " +:+ Interface c +:+ " inet static" +:+ GoStrings.nl +:+
  "    address " +:+ IP (Network c) +:+ GoStrings.nl +:+
  "    network " +:+ NetworkIP c +:+ GoStrings.nl +:+
  "    netmask " +:+ Netmask (Network c) +:+ GoStrings.nl +:+
  "    broadcast " +:+ Broadcast c +:+ GoStrings.nl +:+
  gatewayLine c.

Definition loopbackStanza : string :=
  "# Generated by bosh-agent" +:+ GoStrings.nl +:+
  "auto lo" +:+ GoStrings.nl +:+
  "iface lo inet loopback" +:+ GoStrings.nl.

(** The body of the interfaces template's [range] block. *)
Definition stanzaBody : list GoTemplate.Node :=
  [ GoTemplate.TextNode (GoStrings.nl +:+ "auto "); GoTemplate.ActionNode (GoTemplate.Field "Interface");
    GoTemplate.TextNode (GoStrings.nl +:+ "iface "); GoTemplate.ActionNode (GoTemplate.Field "Interface");
    GoTemplate.TextNode (" inet static" +:+ GoStrings.nl +:+ "    address ");
    GoTemplate.ActionNode (GoTemplate.Field "IP");
    GoTemplate.TextNode (GoStrings.nl +:+ "    network "); GoTemplate.ActionNode (GoTemplate.Field "NetworkIP");
    GoTemplate.TextNode (GoStrings.nl +:+ "    netmask "); GoTemplate.ActionNode (GoTemplate.Field "Netmask");
    GoTemplate.TextNode (GoStrings.nl +:+ "    broadcast "); GoTemplate.ActionNode (GoTemplate.Field "Broadcast");
    GoTemplate.TextNode GoStrings.nl;
    GoTemplate.IfNode (GoTemplate.Field "HasDefaultGateway")
      [GoTemplate.TextNode "    gateway "; GoTemplate.ActionNode (GoTemplate.Field "Gateway")] ].

(** The text of the interfaces file for a list of resolved networks. *)
Definition interfacesFile (networks : list customNetwork) : string :=
  loopbackStanza +:+ String.concat "" (stanza <$> networks).

(** The text of the DHCP client configuration, up to the servers. *)
Definition dhcpPreamble : string :=
  GoStrings.lines [
    "# Generated by bosh-agent";
    "";
    "option rfc3442-classless-static-routes code 121 = array of unsigned integer 8;";
    "";
    "send host-name " +:+ GoStrings.dquote +:+ "<hostname>" +:+ GoStrings.dquote +:+ ";";
    "";
    "request subnet-mask, broadcast-address, time-offset, routers,";
    GoStrings.tab +:+ "domain-name, domain-name-servers, domain-search, host-name,";
    GoStrings.tab +:+ "netbios-name-servers, netbios-scope, interface-mtu,";
    GoStrings.tab +:+ "rfc3442-classless-static-routes, ntp-servers;";
    "";
    "prepend domain-name-servers " ].

Definition dhcpConfig (servers : list string) : string :=
  dhcpPreamble +:+ GoStrings.Join servers ", " +:+ ";" +:+ GoStrings.nl.

(** The command lines of the per-interface bounce and of one announcement. *)
Definition serviceCommand (action : string) (c : customNetwork) : list string :=
  ["service"; "network-interface"; action; "INTERFACE=" +:+ Interface c].

Definition bounceCommands (networks : list customNetwork) : list (list string) :=
  networks ≫= λ c, [serviceCommand "stop" c; serviceCommand "start" c].

(** The device entry of the interface of a resolved network. *)
Definition devicePath (c : customNetwork) : string :=
  GoPath.Join ["/sys/class/net"; Interface c].

Definition arpingCommand (c : customNetwork) : list string :=
  ["arping"; "-c"; "1"; "-U"; "-I"; Interface c; IP (Network c)].

(** A run of a part of the announcer that ends within [fuel] polls per
    wait, on a machine where [Inv] holds, with these commands and nothing
    sent. *)
Definition ends {S : Type} (Inv : S → Prop) (run : nat → P unit) (s : S)
  (cmds : list (list string)) : Prop :=
  ∃ fuel s' t,
    (∀ fuel', (fuel ≤ fuel')%nat → run fuel' s = Some (tt, s', t)) ∧
    Inv s' ∧ commands t = cmds ∧ sends t = [].

(** The result of a run, if it has ended. *)
Definition finished {S A : Type} (r : option A * S * list Event)
  : option (A * S * list Event) :=
  match r with
  | (Some a, s, t) => Some (a, s, t)
  | (None, _, _) => None
  end.

(** What the manager reads and writes on the in-memory machine: the files,
    the glob results and the errors to return. *)
Definition disk (m : Fakes.Machine)
  : gmap string string * gmap string (list string) * option error * option error :=
  (Fakes.files m, Fakes.globs m, Fakes.globErr m, Fakes.writeErr m).

(** The device entries of the networks exist on the in-memory machine or
    are on their way. *)
Definition onTheirWay (networks : list customNetwork) (m : Fakes.Machine) : Prop :=
  ∀ c, c ∈ networks →
    is_Some (Fakes.files m !! devicePath c) ∨
    ∃ due, (devicePath c, due) ∈ Fakes.arriving m.

(** The device entry at [path] is not on the in-memory machine and not on
    its way. *)
Definition neverArrives (path : string) (m : Fakes.Machine) : Prop :=
  Fakes.files m !! path = None ∧ path ∉ (Fakes.arriving m).*1.

End Observations.

(** ** A machine with one device, and networks to set up on it *)

Module Examples.
Import System UbuntuNetManager Fakes.

Definition manager : ubuntuNetManager := {| arpWaitInterval := 10 * Millisecond |}.

(** A machine whose one device, eth0, has the address 22:00:0a:1f:ac:2a. *)
Definition machine : Machine := {|
  files := list_to_map [
    ("/sys/class/net/eth0", "");
    ("/sys/class/net/eth0/address", "22:00:0a:1f:ac:2a" +:+ GoStrings.nl) ];
  globs := list_to_map [ ("/sys/class/net/*", ["/sys/class/net/eth0"]) ];
  globErr := None;
  writeErr := None;
  cmdResults := ∅;
  availableCmds := [];
  runCommands := [];
  arriving := [];
|}.

(** The same machine with a device registry that cannot be listed. *)
Definition unlistable : Machine := {|
  files := files machine;
  globs := globs machine;
  globErr := Some (Errors.New "glob failed");
  writeErr := None;
  cmdResults := ∅;
  availableCmds := [];
  runCommands := [];
  arriving := [];
|}.

(** The same machine with a second device, eth1, that appears after a
    quarter of a second. *)
Definition hotplug : Machine := {|
  files := files machine;
  globs := globs machine;
  globErr := None;
  writeErr := None;
  cmdResults := ∅;
  availableCmds := [];
  runCommands := [];
  arriving := [("/sys/class/net/eth1", 250 * Millisecond)];
|}.

(** A network on eth0, designated for dns, with three servers. *)
Definition bosh : Settings.Network := {|
  Type_ := "manual";
  IP := "192.168.195.6";
  Netmask := "255.255.255.0";
  Gateway := "192.168.195.1";
  Default := ["dns"; "gateway"];
  DNS := ["10.80.130.1"; "10.80.130.2"; "10.80.130.3"];
  Mac := "22:00:0a:1f:ac:2a";
|}.

(** A network whose MAC address no device of the machine has. *)
Definition stray : Settings.Network := {|
  Type_ := "manual";
  IP := "10.0.0.7";
  Netmask := "255.255.0.0";
  Gateway := "10.0.0.1";
  Default := [];
  DNS := [];
  Mac := "aa:bb:cc:dd:ee:ff";
|}.

(** A network on eth0 without a gateway. *)
Definition private : Settings.Network := {|
  Type_ := "manual";
  IP := "172.16.4.9";
  Netmask := "255.255.255.0";
  Gateway := "";
  Default := [];
  DNS := [];
  Mac := "22:00:0a:1f:ac:2a";
|}.

(** The devices of the machine, by MAC address. *)
Definition devices : gmap string string := {[ "22:00:0a:1f:ac:2a" := "eth0" ]}.

Definition onEth0 : customNetwork :=
  mkCustomNetwork bosh "eth0" "192.168.195.0" "192.168.195.255" true.

Definition onEth1 : customNetwork :=
  mkCustomNetwork stray "eth1" "10.0.0.0" "10.0.255.255" true.

End Examples.

(** ** More of what a trace and a machine show *)

Module Diagnostics.
Import Errors System UbuntuNetManager Observations Fakes.

Definition commandError (e : Event) : option error :=
  match e with
  | EvRunCommand _ _ _ err => err
  | _ => None
  end.

(** The errors the commands of a trace returned, in order. *)
Definition failed (t : list Event) : list error := omap commandError t.

Definition logArg (e : Event) : option error :=
  match e with
  | EvLogInfo _ _ arg => Some arg
  | _ => None
  end.

(** The errors a trace logged, in order. *)
Definition logged (t : list Event) : list error := omap logArg t.

Definition goroutine (e : Event) : option (list customNetwork * option Chan) :=
  match e with
  | EvGoGratuitiousArp networks errCh => Some (networks, errCh)
  | _ => None
  end.

(** The announcers a trace starts, with their arguments. *)
Definition started (t : list Event) : list (list customNetwork * option Chan) :=
  omap goroutine t.

(** A part of a run of the announcer: it ran these commands, sent nothing,
    wrote no file, started no goroutine and logged the errors of its
    commands. *)
Definition announces (t : list Event) (cmds : list (list string)) : Prop :=
  commands t = cmds ∧ sends t = [] ∧ writes t = [] ∧ started t = [] ∧
  logged t = failed t.

(** What [detectMacAddresses] reads for a device: its address file. *)
Definition addressFile {S : Type} `{!FileSystem S} (s : S) (filePath : string)
  : string * option error :=
  ReadFileString (GoPath.Join [filePath; "address"]) s.

(** The MAC address it files the device under. *)
Definition macOf {S : Type} `{!FileSystem S} (s : S) (filePath : string) : string :=
  GoStrings.Trim (addressFile s filePath).1 GoStrings.nl.

(** A network whose address is no dotted quad. *)
Definition malformed : Settings.Network := {|
  Type_ := "manual";
  IP := "192.168.195";
  Netmask := "255.255.255.0";
  Gateway := "192.168.195.1";
  Default := [];
  DNS := [];
  Mac := "22:00:0a:1f:ac:2a";
|}.

(** The machine of the examples with an entry for the device registry
    itself. *)
Definition withRegistry : Machine := {|
  files := <["/sys/class/net" := ""]> (files Examples.machine);
  globs := globs Examples.machine;
  globErr := None;
  writeErr := None;
  cmdResults := ∅;
  availableCmds := [];
  runCommands := [];
  arriving := [];
|}.

(** The machine of the examples on which no file can be written. *)
Definition readOnly : Machine := {|
  files := files Examples.machine;
  globs := globs Examples.machine;
  globErr := None;
  writeErr := Some (New "read-only file system");
  cmdResults := ∅;
  availableCmds := [];
  runCommands := [];
  arriving := [];
|}.

(** The machine of the examples with a failing [ifdown]. *)
Definition flaky : Machine := {|
  files := files Examples.machine;
  globs := globs Examples.machine;
  globErr := None;
  writeErr := None;
  cmdResults := {[ "ifdown -a --exclude=lo" := ("", Some (New "exit status 1")) ]};
  availableCmds := [];
  runCommands := [];
  arriving := [];
|}.

(** The read-only machine on which the interfaces file already is as the
    network of the examples wants it. *)
Definition settled : Machine := {|
  files := <["/etc/network/interfaces" := interfacesFile [Examples.onEth0]]>
             (files Examples.machine);
  globs := globs Examples.machine;
  globErr := None;
  writeErr := Some (New "read-only file system");
  cmdResults := ∅;
  availableCmds := [];
  runCommands := [];
  arriving := [];
|}.

(** The machine of the examples with a second listed device, eth1, that
    has no address file. *)
Definition addressless : Machine := {|
  files := files Examples.machine;
  globs := list_to_map
    [ ("/sys/class/net/*", ["/sys/class/net/eth0"; "/sys/class/net/eth1"]) ];
  globErr := None;
  writeErr := None;
  cmdResults := ∅;
  availableCmds := [];
  runCommands := [];
  arriving := [];
|}.

(** The resolved network of a network whose MAC address no device has. *)
Definition unresolved : customNetwork :=
  mkCustomNetwork Examples.stray "" "10.0.0.0" "10.0.255.255" true.

End Diagnostics.

(** * Properties *)

(** ** Strings *)

Module StringFacts.

Lemma string_app_nil_r (s : string) : s +:+ "" = s.
Proof.
  induction s as [|c s IH]; [done|].
  change (String c (s +:+ "") = String c s). by rewrite IH.
Qed.

Lemma string_app_assoc (s1 s2 s3 : string) : (s1 +:+ s2) +:+ s3 = s1 +:+ (s2 +:+ s3).
Proof.
  induction s1 as [|c s1 IH]; [done|].
  change (String c ((s1 +:+ s2) +:+ s3) = String c (s1 +:+ (s2 +:+ s3))).
  by rewrite IH.
Qed.

Lemma string_app_cons (c : ascii) (s1 s2 : string) :
  String c s1 +:+ s2 = String c (s1 +:+ s2).
Proof. done. Qed.



End StringFacts.

(** ** The templates *)

Module TemplateFacts.
Import GoTemplate UbuntuNetManager Observations StringFacts.

(** The executor's equations for the two blocks. *)
Lemma execNode_if (a : Arg) (body : list Node) (dot : Value) :
  execNode (IfNode a body) dot =
  (v ← evalArg dot a; if isTrue v then execList body dot else Some "").
Proof. reflexivity. Qed.

Lemma execNode_range (a : Arg) (body : list Node) (dot : Value) :
  execNode (RangeNode a body) dot =
  (v ← evalArg dot a;
   match v with VSlice elems => execRange body elems | _ => None end).
Proof. reflexivity. Qed.

Lemma execList_cons (n : Node) (ns : list Node) (dot : Value) :
  execList (n :: ns) dot =
  (out ← execNode n dot; rest ← execList ns dot; Some (out +:+ rest)).
Proof. reflexivity. Qed.

Lemma execRange_cons (body : list Node) (e : Value) (es : list Value) :
  execRange body (e :: es) =
  (out ← execList body e; rest ← execRange body es; Some (out +:+ rest)).
Proof. reflexivity. Qed.

Lemma Must_Some (t : Template) : Must (Some t) = t.
Proof. reflexivity. Qed.

(** The three templates parse, to these trees. *)
Lemma Parse_ubuntuDHCPConfigTemplate :
  Parse "dhcp-config" ubuntuDHCPConfigTemplate =
  Some [TextNode dhcpPreamble; ActionNode Dot; TextNode (";" +:+ GoStrings.nl)].
Proof. vm_compute. reflexivity. Qed.

Lemma Parse_ubuntuNetworkInterfacesTemplate :
  Parse "network-interfaces" ubuntuNetworkInterfacesTemplate =
  Some [TextNode loopbackStanza; RangeNode Dot stanzaBody].
Proof. vm_compute. reflexivity. Qed.

Lemma Parse_ubuntuResolvConfTemplate :
  Parse "resolv-conf" ubuntuResolvConfTemplate =
  Some [ TextNode ("# Generated by bosh-agent" +:+ GoStrings.nl);
         RangeNode (Field "DNSServers")
           [TextNode "nameserver "; ActionNode Dot; TextNode GoStrings.nl] ].
Proof. vm_compute. reflexivity. Qed.

(** What they render. *)
Lemma Execute_dhcp (dnsServersList : string) :
  Execute (Must (Parse "dhcp-config" ubuntuDHCPConfigTemplate))
    (VString dnsServersList) =
  Some (dhcpPreamble +:+ dnsServersList +:+ ";" +:+ GoStrings.nl).
Proof.
  rewrite Parse_ubuntuDHCPConfigTemplate. cbn.
  by rewrite string_app_nil_r.
Qed.

Lemma execList_stanzaBody (c : customNetwork) :
  execList stanzaBody (customNetworkValue c) = Some (stanza c).
Proof.
  destruct c as [n i ip b g].
  unfold stanza, gatewayLine; destruct g;
    cbv -[String.append GoStrings.nl IP Netmask Gateway];
    by rewrite ?string_app_assoc, ?string_app_nil_r.
Qed.

Lemma execRange_stanzaBody (networks : list customNetwork) :
  execRange stanzaBody (customNetworkValue <$> networks) =
  Some (String.concat "" (stanza <$> networks)).
Proof.
  induction networks as [|c networks IH]; [done|].
  rewrite fmap_cons, execRange_cons, execList_stanzaBody, IH. simpl.
  destruct networks; simpl; [by rewrite string_app_nil_r|done].
Qed.

Lemma Execute_interfaces (networks : list customNetwork) :
  Execute (Must (Parse "network-interfaces" ubuntuNetworkInterfacesTemplate))
    (VSlice (customNetworkValue <$> networks)) =
  Some (interfacesFile networks).
Proof.
  rewrite Parse_ubuntuNetworkInterfacesTemplate, Must_Some.
  unfold Execute. rewrite !execList_cons, execNode_range. simpl evalArg.
  change (Some (VSlice (customNetworkValue <$> networks)) ≫= ?k)
    with (k (VSlice (customNetworkValue <$> networks))).
  cbv beta iota. rewrite execRange_stanzaBody. simpl.
  by rewrite string_app_nil_r.
Qed.

Lemma execRange_nameserver (servers : list string) :
  execRange [TextNode "nameserver "; ActionNode Dot; TextNode GoStrings.nl]
    (VString <$> servers) =
  Some (String.concat "" ((λ server, "nameserver " +:+ server +:+ GoStrings.nl) <$> servers)).
Proof.
  induction servers as [|d servers IH]; [done|].
  rewrite fmap_cons, execRange_cons, IH. cbn -[String.concat]. rewrite string_app_nil_r.
  f_equal. cbn. destruct servers; cbn; by rewrite ?string_app_nil_r, ?string_app_assoc.
Qed.

Lemma Execute_resolvConf (servers : list string) :
  Execute (Must (Parse "resolv-conf" ubuntuResolvConfTemplate))
    (dnsConfigArgValue {| DNSServers := servers |}) =
  Some (resolvConf servers).
Proof.
  rewrite Parse_ubuntuResolvConfTemplate, Must_Some.
  unfold Execute. rewrite !execList_cons, execNode_range.
  unfold dnsConfigArgValue, DNSServers. simpl evalArg.
  change (Some (VSlice (VString <$> servers)) ≫= ?k)
    with (k (VSlice (VString <$> servers))).
  cbv beta iota. rewrite execRange_nameserver. simpl.
  rewrite string_app_nil_r. unfold resolvConf. by rewrite string_app_assoc.
Qed.

End TemplateFacts.

(** ** The version signature *)

Module RegexpFacts.
Import GoRegexp UbuntuNetManager Observations StringFacts.

Lemma parse_ifupVersion07 :
  parse "ifup version 0\.7" = Some (literal "ifup version 0.7").
Proof. vm_compute. reflexivity. Qed.

Lemma ifupVersion07Regex_literal :
  ifupVersion07Regex = literal "ifup version 0.7".
Proof. unfold ifupVersion07Regex, MustCompile. by rewrite parse_ifupVersion07. Qed.

Lemma matchHere_literal (lit s : string) :
  matchHere (literal lit) s = true ↔ ∃ post, s = lit +:+ post.
Proof.
  revert s. induction lit as [|c lit IH]; intros s; simpl.
  - split; [intros _; by exists s | done].
  - destruct s as [|d s]; simpl.
    + split; [done | intros [post Hpost]; discriminate Hpost].
    + rewrite andb_true_iff, Ascii.eqb_eq, IH. split.
      * intros [-> [post ->]]. by exists post.
      * intros [post Hpost]. rewrite string_app_cons in Hpost.
        injection Hpost as -> ->. eauto.
Qed.

(** An expression of literal characters matches the strings that contain
    the text. *)
Lemma MatchString_literal (lit s : string) :
  MatchString (literal lit) s = true ↔ contains s lit.
Proof.
  unfold contains. induction s as [|d s IH].
  - simpl. rewrite orb_false_r, matchHere_literal. split.
    + intros [post ->]. by exists "", post.
    + intros [pre [post Hs]]. destruct pre; [by exists post | discriminate Hs].
  - change (MatchString (literal lit) (String d s))
      with (matchHere (literal lit) (String d s) || MatchString (literal lit) s).
    rewrite orb_true_iff, matchHere_literal, IH. split.
    + intros [[post ->] | [pre [post ->]]].
      * by exists "", post.
      * by exists (String d pre), post.
    + intros [[|c pre] [post Hs]].
      * left. by exists post.
      * rewrite string_app_cons in Hs. injection Hs as -> ->. right. eauto.
Qed.

Lemma MatchString_ifupVersion07 (stdout : string) :
  MatchString ifupVersion07Regex stdout = true ↔
  contains stdout "ifup version 0.7".
Proof. rewrite ifupVersion07Regex_literal. apply MatchString_literal. Qed.

End RegexpFacts.

(** ** The manager, over any collaborators *)

Module ManagerFacts.
Import Errors System GoTemplate UbuntuNetManager Observations.
Import StringFacts TemplateFacts RegexpFacts.

(** Membership in a list written out: one case for each element that is
    written out, one for each part that is not. *)
Ltac members H :=
  repeat first
    [ apply elem_of_nil in H; destruct H
    | apply elem_of_cons in H as [H|H]
    | apply elem_of_app in H as [H|H] ].

(** *** Traces of best-effort commands *)

Lemma writes_app (t1 t2 : list Event) : writes (t1 ++ t2) = writes t1 ++ writes t2.
Proof. apply List.filter_app. Qed.

Lemma sends_app (t1 t2 : list Event) : sends t1 ++ sends t2 = sends (t1 ++ t2).
Proof. unfold sends. by rewrite omap_app. Qed.

Lemma commands_app (t1 t2 : list Event) :
  commands (t1 ++ t2) = commands t1 ++ commands t2.
Proof. unfold commands. by rewrite omap_app. Qed.

Lemma commandOrLog_trace (t : list Event) :
  forallb isCommandOrLog t = true →
  writes t = [] ∧ sends t = [] ∧ Forall (λ e, phase e = 2%nat) t.
Proof.
  induction t as [|e t IH]; [done|]. simpl.
  intros [He Ht]%andb_true_iff. destruct (IH Ht) as (Hw & Hs & Hp).
  destruct e; try discriminate He; simpl; by repeat split; try constructor.
Qed.

Section Runs.

Context {S : Type}.
Context `{!FileSystem S, !CmdRunner S, !Clock S}.
Context `{!NetworkCalculator, !NetworksMethods}.

(** A computation run step by step. *)
Lemma run_bind {A B : Type} (m : M A) (k : A → M B) (s : S) :
  (m ≫= k) s =
  let '(a, s1, t1) := m s in
  let '(b, s2, t2) := k a s1 in
  (b, s2, t1 ++ t2).
Proof. reflexivity. Qed.

Lemma run_ret {A : Type} (a : A) (s : S) : (mret a : M A) s = (a, s, []).
Proof. reflexivity. Qed.

Lemma logIgnored_run (format : string) (err : option error) (s : S) :
  logIgnored format err s = (tt, s, logEvents format err).
Proof. by destruct err. Qed.

(** *** [getDNSServers] *)

Lemma getDNSServers_loop_rev (dns : list string) (n : nat) (acc : list string) :
  (n ≤ length dns)%nat →
  getDNSServers_loop dns n acc = acc ++ rev (take n dns).
Proof.
  revert acc. induction n as [|i IH]; intros acc Hn; simpl.
  - by rewrite app_nil_r.
  - rewrite IH by lia.
    destruct (lookup_lt_is_Some_2 dns i ltac:(lia)) as [d Hd].
    rewrite Hd. simpl.
    rewrite (take_S_r dns i d Hd), rev_app_distr. simpl.
    by rewrite <- app_assoc.
Qed.

(** The servers of the designated network, last first; none without a
    designated network. *)
Lemma getDNSServers_rev (networks : Networks) :
  getDNSServers networks =
  let '(dnsNetwork, found) := DefaultNetworkFor networks "dns" in
  if found then rev (DNS dnsNetwork) else [].
Proof.
  unfold getDNSServers. destruct (DefaultNetworkFor networks "dns") as [n [|]]; [|done].
  rewrite getDNSServers_loop_rev by done. by rewrite firstn_all.
Qed.

(** *** [restartNetworkArguments] and [dhclientConfigFile] *)

Lemma restartNetworkArguments_run (s : S) :
  restartNetworkArguments s =
  let '(stdout, _, _, err, s1) := RunCommand "ifup" ["--version"] s in
  (if GoRegexp.MatchString ifupVersion07Regex stdout
   then ["-a"; "--no-loopback"] else ["-a"; "--exclude=lo"],
   s1,
   EvRunCommand "ifup" ["--version"] stdout err
     :: logEvents "Ignoring ifup version failure: %#v" err).
Proof.
  unfold restartNetworkArguments. rewrite run_bind.
  unfold cmdRunner_RunCommand.
  destruct (RunCommand "ifup" ["--version"] s) as [[[[stdout stderr] status] err] s1].
  rewrite run_bind, logIgnored_run.
  destruct (GoRegexp.MatchString ifupVersion07Regex stdout);
    rewrite run_ret; simpl; by rewrite app_nil_r.
Qed.

Lemma dhclientConfigFile_run (s : S) :
  dhclientConfigFile s =
  (if CommandExists "dhclient3" s
   then "/etc/dhcp3/dhclient.conf" else "/etc/dhcp/dhclient.conf", s, []).
Proof.
  unfold dhclientConfigFile. rewrite run_bind. unfold cmdRunner_CommandExists.
  by destruct (CommandExists "dhclient3" s).
Qed.

(** *** [SetupDhcp] *)

Lemma SetupDhcp_run (networks : Networks) (s : S) :
  SetupDhcp networks s =
  let path := if CommandExists "dhclient3" s
              then "/etc/dhcp3/dhclient.conf" else "/etc/dhcp/dhclient.conf" in
  let content := dhcpConfig (getDNSServers networks) in
  let '(written, cerr, s1) := ConvergeFileContents path content s in
  let converge := EvConvergeFileContents path content written cerr in
  match cerr with
  | Some e => (Some (WrapError e ("Writing to " +:+ path)), s1, [converge])
  | None =>
      if written then
        let '(args, s2, probe) := restartNetworkArguments s1 in
        let '(down, _, _, downErr, s3) := RunCommand "ifdown" args s2 in
        let '(up, _, _, upErr, s4) := RunCommand "ifup" args s3 in
        (None, s4,
         converge :: probe
           ++ EvRunCommand "ifdown" args down downErr
              :: logEvents "Ignoring ifdown failure: %#v" downErr
           ++ EvRunCommand "ifup" args up upErr
              :: logEvents "Ignoring ifup failure: %#v" upErr)
      else (None, s1, [converge])
  end.
Proof.
  unfold SetupDhcp. rewrite Execute_dhcp.
  rewrite run_bind, dhclientConfigFile_run.
  set (path := if CommandExists "dhclient3" s then _ else _).
  rewrite run_bind. unfold fs_ConvergeFileContents, dhcpConfig. simpl.
  destruct (ConvergeFileContents path _ s) as [[written [e|]] s1]; [done|].
  rewrite run_bind. destruct written; [|done].
  rewrite run_bind.
  destruct (restartNetworkArguments s1) as [[args s2] probe].
  rewrite run_bind. unfold cmdRunner_RunCommand.
  destruct (RunCommand "ifdown" args s2) as [[[[down ?] ?] downErr] s3].
  rewrite run_bind, logIgnored_run, run_bind.
  destruct (RunCommand "ifup" args s3) as [[[[up ?] ?] upErr] s4].
  rewrite logIgnored_run, run_ret. simpl.
  by rewrite ?app_nil_r, <- ?app_assoc.
Qed.

(** *** [detectMacAddresses] only reads *)

Lemma detectMacAddresses_loop_reads (filePaths : list string)
  (addresses : gmap string string) (s : S) :
  ∃ r, detectMacAddresses_loop filePaths addresses s = (r, s, []).
Proof.
  revert addresses. induction filePaths as [|filePath filePaths IH];
    intros addresses; simpl.
  - by eexists.
  - rewrite run_bind. unfold fs_ReadFileString.
    destruct (ReadFileString _ s) as [macAddress [e|]].
    + by eexists.
    + destruct (IH (<[GoStrings.Trim macAddress GoStrings.nl := GoPath.Base filePath]> addresses))
        as [r ->]. by eexists.
Qed.

Lemma detectMacAddresses_reads (s : S) :
  detectMacAddresses s = ((detectMacAddresses s).1.1, s, []).
Proof.
  unfold detectMacAddresses. rewrite run_bind. unfold fs_Glob.
  destruct (Glob "/sys/class/net/*" s) as [filePaths [e|]]; [done|].
  by destruct (detectMacAddresses_loop_reads filePaths ∅ s) as [r ->].
Qed.

(** *** [writeNetworkInterfaces] *)

Lemma writeNetworkInterfaces_loop_spec (macAddresses : gmap string string)
  (networks : Networks) (acc : list customNetwork) :
  match writeNetworkInterfaces_loop macAddresses networks acc with
  | (modifiedNetworks, None) =>
      modifiedNetworks = acc ++ (resolve macAddresses <$> networks.*2) ∧
      Forall (λ aNet, ¬ badSubnet aNet) networks.*2
  | (_, Some _) => Exists badSubnet networks.*2
  end.
Proof.
  revert acc. induction networks as [|[name aNet] networks IH]; intros acc; simpl.
  - by rewrite app_nil_r.
  - destruct (CalculateNetworkAndBroadcast (IP aNet) (Netmask aNet))
      as [[network broadcast] [e|]] eqn:Hcalc.
    + apply Exists_cons_hd. unfold badSubnet. by rewrite Hcalc.
    + specialize (IH (acc ++ [mkCustomNetwork aNet
        (default "" (macAddresses !! Mac aNet)) network broadcast true])).
      destruct (writeNetworkInterfaces_loop _ _ _) as [mods [e|]].
      * by apply Exists_cons_tl.
      * destruct IH as [-> Hok]. split.
        -- rewrite <- app_assoc. simpl. unfold resolve at 2. by rewrite Hcalc.
        -- constructor; [|done]. unfold badSubnet. rewrite Hcalc.
           by intros [? ?].
Qed.

Lemma writeNetworkInterfaces_run (networks : Networks) (s : S) :
  writeNetworkInterfaces networks s =
  match (detectMacAddresses s).1.1 with
  | (_, Some e) => ([], false, Some (WrapError e "Detecting mac addresses"), s, [])
  | (macAddresses, None) =>
      match writeNetworkInterfaces_loop macAddresses networks [] with
      | (modifiedNetworks, Some e) => (modifiedNetworks, false, Some e, s, [])
      | (modifiedNetworks, None) =>
          let content := interfacesFile modifiedNetworks in
          let '(written, cerr, s1) :=
            ConvergeFileContents "/etc/network/interfaces" content s in
          (modifiedNetworks,
           match cerr with Some _ => false | None => written end,
           (λ e, WrapError e "Writing to /etc/network/interfaces") <$> cerr,
           s1,
           [EvConvergeFileContents "/etc/network/interfaces" content written cerr])
      end
  end.
Proof.
  unfold writeNetworkInterfaces. rewrite run_bind.
  pose proof (detectMacAddresses_reads s) as Hreads.
  destruct (detectMacAddresses s).1.1 as [macAddresses [e|]];
    rewrite Hreads; [done|].
  destruct (writeNetworkInterfaces_loop macAddresses networks [])
    as [modifiedNetworks [e|]]; [done|].
  rewrite Execute_interfaces, run_bind. unfold fs_ConvergeFileContents.
  by destruct (ConvergeFileContents _ _ s) as [[written [e|]] s1].
Qed.

(** *** [writeResolvConf] *)

Lemma writeResolvConf_run (networks : Networks) (s : S) :
  writeResolvConf networks s =
  let content := resolvConf (getDNSServers networks) in
  let '(err, s1) := WriteFile "/etc/resolv.conf" content s in
  ((λ e, WrapError e "Writing to /etc/resolv.conf") <$> err, s1,
   [EvWriteFile "/etc/resolv.conf" content err]).
Proof.
  unfold writeResolvConf. rewrite Execute_resolvConf, run_bind.
  unfold fs_WriteFile. by destruct (WriteFile _ _ s) as [[e|] s1].
Qed.

(** *** [restartNetworkingInterfaces] *)

Lemma restartNetworkingInterfaces_trace (networks : list customNetwork) (s : S) :
  let t := (restartNetworkingInterfaces networks s).2 in
  commands t = bounceCommands networks ∧ forallb isCommandOrLog t = true.
Proof.
  revert s. induction networks as [|c networks IH]; intros s; [done|].
  simpl restartNetworkingInterfaces. rewrite run_bind.
  unfold cmdRunner_RunCommand.
  destruct (RunCommand "service" _ s) as [[[[out1 ?] ?] err1] m1].
  rewrite run_bind, logIgnored_run, run_bind.
  destruct (RunCommand "service" _ m1) as [[[[out2 ?] ?] err2] m2].
  rewrite run_bind, logIgnored_run.
  specialize (IH m2).
  destruct (restartNetworkingInterfaces networks m2) as [[[] m3] t3].
  simpl in IH. destruct IH as [IHc IHf]. simpl snd.
  unfold commands in *. split.
  - destruct err1, err2; simpl; do 2 f_equal; exact IHc.
  - destruct err1, err2; simpl; exact IHf.
Qed.

(** *** [SetupManualNetworking] *)

Lemma SetupManualNetworking_run (networks : Networks) (errCh : option Chan) (s : S) :
  SetupManualNetworking networks errCh s =
  let '(modifiedNetworks, written, err, s1, t1) := writeNetworkInterfaces networks s in
  match err with
  | Some e => (Some (WrapError e "Writing network interfaces"), s1, t1)
  | None =>
      let '(_, s2, t2) :=
        if written then restartNetworkingInterfaces modifiedNetworks s1
        else (tt, s1, []) in
      let '(rerr, s3, t3) := writeResolvConf networks s2 in
      match rerr with
      | Some e => (Some (WrapError e "Writing resolv.conf"), s3, t1 ++ t2 ++ t3)
      | None =>
          (None, s3, t1 ++ t2 ++ t3 ++ [EvGoGratuitiousArp modifiedNetworks errCh])
      end
  end.
Proof.
  unfold SetupManualNetworking. rewrite run_bind.
  destruct (writeNetworkInterfaces networks s)
    as [[[[modifiedNetworks written] [e|]] s1] t1].
  { rewrite run_ret. by rewrite app_nil_r. }
  rewrite run_bind.
  assert ((if written then restartNetworkingInterfaces modifiedNetworks
           else mret tt) s1 =
          (if written then restartNetworkingInterfaces modifiedNetworks s1
           else (tt, s1, []))) as -> by by destruct written.
  destruct (if written then _ else _) as [[[] s2] t2].
  rewrite run_bind.
  destruct (writeResolvConf networks s2) as [[[e|] s3] t3].
  - rewrite run_ret. by rewrite app_nil_r.
  - rewrite run_bind. unfold go_gratuitiousArp. rewrite run_ret. simpl.
    by rewrite ?app_nil_r.
Qed.

(** [SetupManualNetworking] on the collaborators' results, step by
    step. *)
Lemma SetupManualNetworking_spec (networks : Networks) (errCh : option Chan) (s : S) :
  SetupManualNetworking networks errCh s =
  match (detectMacAddresses s).1.1 with
  | (_, Some e) =>
      (Some (WrapError (WrapError e "Detecting mac addresses")
               "Writing network interfaces"), s, [])
  | (macAddresses, None) =>
      match writeNetworkInterfaces_loop macAddresses networks [] with
      | (_, Some e) => (Some (WrapError e "Writing network interfaces"), s, [])
      | (modifiedNetworks, None) =>
          let ifaces := interfacesFile modifiedNetworks in
          let '(changed, cerr, s1) :=
            ConvergeFileContents "/etc/network/interfaces" ifaces s in
          let converge :=
            EvConvergeFileContents "/etc/network/interfaces" ifaces changed cerr in
          match cerr with
          | Some e =>
              (Some (WrapError (WrapError e "Writing to /etc/network/interfaces")
                       "Writing network interfaces"), s1, [converge])
          | None =>
              let '(_, s2, restarts) :=
                if changed then restartNetworkingInterfaces modifiedNetworks s1
                else (tt, s1, []) in
              let resolv := resolvConf (getDNSServers networks) in
              let '(rerr, s3) := WriteFile "/etc/resolv.conf" resolv s2 in
              match rerr with
              | Some e =>
                  (Some (WrapError (WrapError e "Writing to /etc/resolv.conf")
                           "Writing resolv.conf"), s3,
                   converge :: restarts
                     ++ [EvWriteFile "/etc/resolv.conf" resolv rerr])
              | None =>
                  (None, s3,
                   converge :: restarts
                     ++ [EvWriteFile "/etc/resolv.conf" resolv rerr;
                         EvGoGratuitiousArp modifiedNetworks errCh])
              end
          end
      end
  end.
Proof.
  rewrite SetupManualNetworking_run, writeNetworkInterfaces_run.
  destruct (detectMacAddresses s).1.1 as [macAddresses [e|]]; [done|].
  destruct (writeNetworkInterfaces_loop macAddresses networks [])
    as [modifiedNetworks [e|]]; [done|].
  cbv zeta.
  destruct (ConvergeFileContents _ _ s) as [[changed [e|]] m1]; [done|].
  simpl.
  destruct (if changed then _ else _) as [[[] m2] restarts].
  rewrite writeResolvConf_run. cbv zeta.
  by destruct (WriteFile _ _ m2) as [[e|] m3].
Qed.

End Runs.

End ManagerFacts.

(** ** The two convergence operations, over any collaborators *)

Section Convergence.

Import Errors System GoTemplate UbuntuNetManager Observations.
Import StringFacts TemplateFacts RegexpFacts ManagerFacts.

Context {S : Type}.
Context `{!FileSystem S, !CmdRunner S, !Clock S}.
Context `{!NetworkCalculator, !NetworksMethods}.

(** C3: the arguments of the full-stack bounce are [-a --no-loopback] when
    the output of [ifup --version] matches the version-0.7 signature, and
    [-a --exclude=lo] otherwise; the signature matches the outputs that
    contain the text [ifup version 0.7]. Whether the probe failed plays no
    part. *)
Theorem restartNetworkArguments_by_version (s : S) :
  let stdout := (RunCommand "ifup" ["--version"] s).1.1.1.1 in
  (restartNetworkArguments s).1.1 =
    (if GoRegexp.MatchString ifupVersion07Regex stdout
     then ["-a"; "--no-loopback"] else ["-a"; "--exclude=lo"]) ∧
  (GoRegexp.MatchString ifupVersion07Regex stdout = true ↔
   contains stdout "ifup version 0.7").
Proof.
  split; [|apply MatchString_ifupVersion07].
  rewrite restartNetworkArguments_run.
  by destruct (RunCommand "ifup" ["--version"] s) as [[[[stdout ?] ?] err] s1].
Qed.

(** C7: [SetupDhcp] converge-writes the DHCP client configuration first.
    When that write fails the call returns its error and does nothing
    more. When it succeeds the call returns no error, whatever the commands
    return: it runs the version probe, [ifdown] and [ifup] when the write
    reported a change, and nothing when it reported none. *)
Theorem SetupDhcp_bounce_gated (networks : Networks) (s : S) :
  let path := if CommandExists "dhclient3" s
              then "/etc/dhcp3/dhclient.conf" else "/etc/dhcp/dhclient.conf" in
  let content := dhcpConfig (getDNSServers networks) in
  let '(changed, cerr, _) := ConvergeFileContents path content s in
  let '(err, _, t) := SetupDhcp networks s in
  ∃ rest,
    t = EvConvergeFileContents path content changed cerr :: rest ∧
    forallb isCommandOrLog rest = true ∧
    match cerr with
    | Some e => err = Some (WrapError e ("Writing to " +:+ path)) ∧ rest = []
    | None =>
        err = None ∧
        if changed then
          ∃ args, (args = ["-a"; "--no-loopback"] ∨ args = ["-a"; "--exclude=lo"]) ∧
                  commands rest = [["ifup"; "--version"]; "ifdown" :: args; "ifup" :: args]
        else rest = []
    end.
Proof.
  intros path content. rewrite SetupDhcp_run. cbv zeta. fold path. fold content.
  destruct (ConvergeFileContents path content s) as [[changed [e|]] m1].
  { by exists []. }
  destruct changed; [|by exists []].
  rewrite restartNetworkArguments_run.
  destruct (RunCommand "ifup" ["--version"] m1) as [[[[stdout ?] ?] perr] m2].
  set (args := if GoRegexp.MatchString ifupVersion07Regex stdout then _ else _).
  destruct (RunCommand "ifdown" args m2) as [[[[down ?] ?] downErr] m3].
  destruct (RunCommand "ifup" args m3) as [[[[up ?] ?] upErr] m4].
  eexists. split; [reflexivity|]. split.
  - by destruct perr, downErr, upErr.
  - split; [done|]. exists args. split.
    + subst args. destruct (GoRegexp.MatchString _ _); auto.
    + by destruct perr, downErr, upErr.
Qed.

(** The bounce of the static setup: the per-interface restarts when the
    convergence of the interfaces file reported a change, nothing
    otherwise. *)
Lemma bounce_trace (changed : bool) (modifiedNetworks : list customNetwork) (s : S) :
  let t := (if changed then restartNetworkingInterfaces modifiedNetworks s
            else (tt, s, [])).2 in
  commands t = (if changed then bounceCommands modifiedNetworks else []) ∧
  forallb isCommandOrLog t = true.
Proof. destruct changed; [apply restartNetworkingInterfaces_trace | done]. Qed.

(** The one write of the DHCP setup is convergent. *)
Lemma SetupDhcp_writes (networks : Networks) (s : S) :
  ∃ path content changed err,
    writes (SetupDhcp networks s).2 =
    [EvConvergeFileContents path content changed err].
Proof.
  rewrite SetupDhcp_run. cbv zeta.
  destruct (ConvergeFileContents _ _ s) as [[changed [e|]] m1];
    [by do 4 eexists|].
  destruct changed; [|by do 4 eexists].
  rewrite restartNetworkArguments_run.
  destruct (RunCommand "ifup" ["--version"] m1) as [[[[stdout ?] ?] perr] m2].
  destruct (RunCommand "ifdown" _ m2) as [[[[down ?] ?] downErr] m3].
  destruct (RunCommand "ifup" _ m3) as [[[[up ?] ?] upErr] m4].
  do 4 eexists. by destruct perr, downErr, upErr.
Qed.

(** C8: a static setup whose interfaces step succeeded writes two files,
    in this order: the interfaces file through the convergent write and
    [/etc/resolv.conf] through the plain write, whether or not the
    convergent write reported a change. No static setup writes the
    interfaces file plainly or the resolver configuration convergently, and
    the DHCP setup writes the DHCP client configuration, and nothing else,
    through the convergent write. *)
Theorem resolvConf_written_unconditionally (networks : Networks)
  (errCh : option Chan) (s : S) :
  let t := (SetupManualNetworking networks errCh s).2 in
  (∀ modifiedNetworks written s1 t1,
     writeNetworkInterfaces networks s = (modifiedNetworks, written, None, s1, t1) →
     ∃ ifaces rerr,
       writes t =
       [ EvConvergeFileContents "/etc/network/interfaces" ifaces written None;
         EvWriteFile "/etc/resolv.conf" (resolvConf (getDNSServers networks)) rerr ]) ∧
  (∀ path content err,
     EvWriteFile path content err ∈ t → path = "/etc/resolv.conf") ∧
  (∀ path content changed err,
     EvConvergeFileContents path content changed err ∈ t →
     path = "/etc/network/interfaces") ∧
  (∃ path content changed err,
     writes (SetupDhcp networks s).2 =
     [EvConvergeFileContents path content changed err]).
Proof.
  intros t. subst t.
  rewrite SetupManualNetworking_spec, writeNetworkInterfaces_run.
  pose proof (SetupDhcp_writes networks s) as Hdhcp'.
  destruct (detectMacAddresses s).1.1 as [macAddresses [e|]].
  { repeat split; [done| | |done]; intros * He; by members He. }
  destruct (writeNetworkInterfaces_loop macAddresses networks [])
    as [modifiedNetworks [e|]].
  { repeat split; [done| | |done]; intros * He; by members He. }
  cbv zeta.
  destruct (ConvergeFileContents _ _ s) as [[changed [e|]] m1].
  { repeat split; [done| | |done]; simpl; intros * He; members He;
      by simplify_eq. }
  pose proof (bounce_trace changed modifiedNetworks m1) as [_ Hb].
  destruct (if changed then _ else _) as [[[] m2] restarts].
  simpl in Hb. apply commandOrLog_trace in Hb as (Hw & _ & Hp).
  assert (∀ e, e ∈ restarts → isWrite e = false) as Hnw.
  { intros e He. rewrite Forall_forall in Hp. specialize (Hp e He). by destruct e. }
  destruct (WriteFile _ _ m2) as [rerr m3].
  assert (∀ evs, writes (EvConvergeFileContents "/etc/network/interfaces"
                   (interfacesFile modifiedNetworks) changed None :: restarts ++ evs)
                 = EvConvergeFileContents "/etc/network/interfaces"
                     (interfacesFile modifiedNetworks) changed None :: writes evs) as Hws.
  { intros evs. change (writes (?e :: ?l)) with (e :: writes l).
    by rewrite writes_app, Hw. }
  destruct rerr as [e|]; simpl snd.
  all: repeat split; [| | |done].
  all: try (intros mods written ? ? [= <- <- <- <-]; rewrite Hws; by do 2 eexists).
  all: intros * He; members He; try (by simplify_eq); by specialize (Hnw _ He).
Qed.

(** C9: the events of a static setup come in the order of its steps: the
    convergence of the interfaces file, then the restarts, then the write
    of the resolver configuration, then the start of the announcer. A
    setup that succeeds takes every step once, with the restarts of the
    resolved networks when the convergence reported a change and none
    otherwise, and ends with the start of the announcer; the caller itself
    announces nothing, sleeps never and sends nothing. *)
Theorem SetupManualNetworking_order (networks : Networks)
  (errCh : option Chan) (s : S) :
  let r := SetupManualNetworking networks errCh s in
  StronglySorted (λ e1 e2, phase e1 ≤ phase e2)%nat r.2 ∧
  Forall (λ e, phase e ≤ 4)%nat r.2 ∧
  (r.1.1 = None →
   ∃ modifiedNetworks ifaces changed restarts,
     r.2 = EvConvergeFileContents "/etc/network/interfaces" ifaces changed None
             :: restarts
             ++ [ EvWriteFile "/etc/resolv.conf"
                    (resolvConf (getDNSServers networks)) None;
                  EvGoGratuitiousArp modifiedNetworks errCh ] ∧
     forallb isCommandOrLog restarts = true ∧
     commands restarts = (if changed then bounceCommands modifiedNetworks else [])).
Proof.
  intros r. subst r. rewrite SetupManualNetworking_spec.
  destruct (detectMacAddresses s).1.1 as [macAddresses [e|]].
  { repeat split; [constructor|constructor|done]. }
  destruct (writeNetworkInterfaces_loop macAddresses networks [])
    as [modifiedNetworks [e|]].
  { repeat split; [constructor|constructor|done]. }
  cbv zeta.
  destruct (ConvergeFileContents _ _ s) as [[changed [e|]] m1].
  { repeat split; [repeat constructor|repeat constructor|done]. }
  pose proof (bounce_trace changed modifiedNetworks m1) as [Hc Hb].
  destruct (if changed then _ else _) as [[[] m2] restarts].
  simpl in Hc, Hb.
  destruct (commandOrLog_trace _ Hb) as (_ & _ & Hp).
  assert (∀ evs, Forall (λ e, 3 ≤ phase e ≤ 4)%nat evs →
            StronglySorted (λ e1 e2, phase e1 ≤ phase e2)%nat evs →
            StronglySorted (λ e1 e2, phase e1 ≤ phase e2)%nat
              (EvConvergeFileContents "/etc/network/interfaces"
                 (interfacesFile modifiedNetworks) changed None :: restarts ++ evs) ∧
            Forall (λ e, phase e ≤ 4)%nat
              (EvConvergeFileContents "/etc/network/interfaces"
                 (interfacesFile modifiedNetworks) changed None :: restarts ++ evs))
    as Hsorted.
  { intros evs Hevs Hss. split.
    - apply StronglySorted_cons. split.
      + apply Forall_app. split.
        * eapply Forall_impl; [exact Hp|]. intros e' ->. simpl. lia.
        * eapply Forall_impl; [exact Hevs|]. simpl. lia.
      + apply StronglySorted_app. split; [|split; [|done]].
        * intros x1 x2 Hx1 Hx2. rewrite Forall_forall in Hp, Hevs.
          rewrite (Hp _ Hx1). specialize (Hevs _ Hx2). lia.
        * clear -Hp. induction Hp as [|e' t' He' Hp' IH]; constructor; [done|].
          eapply Forall_impl; [exact Hp'|]. intros ? ->. rewrite He'. lia.
    - constructor; [simpl; lia|]. apply Forall_app. split.
      + eapply Forall_impl; [exact Hp|]. intros e' ->. lia.
      + eapply Forall_impl; [exact Hevs|]. simpl. lia. }
  destruct (WriteFile _ _ m2) as [[e|] m3]; simpl.
  - destruct (Hsorted [EvWriteFile "/etc/resolv.conf"
                         (resolvConf (getDNSServers networks)) (Some e)])
      as [Hs1 Hs2]; [repeat constructor..|].
    by repeat split.
  - destruct (Hsorted [EvWriteFile "/etc/resolv.conf"
                         (resolvConf (getDNSServers networks)) None;
                       EvGoGratuitiousArp modifiedNetworks errCh])
      as [Hs1 Hs2]; [repeat constructor; simpl; lia..|].
    repeat split; [done..|]. intros _. by do 4 eexists.
Qed.

(** C1, amended: when the map from MAC addresses to interfaces cannot be
    resolved (the device registry cannot be listed, or the address file of a
    device cannot be read), a static setup fails with that error, writes
    no file, runs nothing and leaves the machine as it was. A network
    whose MAC address is merely absent from a resolved map is no such
    failure: with the subnet arithmetic in order, the interfaces file is
    converge-written all the same. *)
Theorem SetupManualNetworking_resolution_failure (networks : Networks)
  (errCh : option Chan) (s : S) :
  (∀ e, (detectMacAddresses s).1.1.2 = Some e →
     SetupManualNetworking networks errCh s =
     (Some (WrapError (WrapError e "Detecting mac addresses")
              "Writing network interfaces"), s, [])) ∧
  (∀ macAddresses,
     (detectMacAddresses s).1.1 = (macAddresses, None) →
     Forall (λ aNet, ¬ badSubnet aNet) networks.*2 →
     ∃ changed cerr rest,
       (SetupManualNetworking networks errCh s).2 =
       EvConvergeFileContents "/etc/network/interfaces"
         (interfacesFile (resolve macAddresses <$> networks.*2)) changed cerr
       :: rest).
Proof.
  rewrite SetupManualNetworking_spec. split.
  - intros e He. destruct (detectMacAddresses s).1.1 as [macAddresses err].
    simpl in He. by subst err.
  - intros macAddresses -> Hok.
    pose proof (writeNetworkInterfaces_loop_spec macAddresses networks []) as Hloop.
    destruct (writeNetworkInterfaces_loop macAddresses networks [])
      as [modifiedNetworks [e|]].
    { apply Exists_exists in Hloop as (aNet & Hin & Hbad).
      rewrite Forall_forall in Hok. by destruct (Hok aNet Hin). }
    destruct Hloop as [-> _]. cbv zeta. simpl app.
    destruct (ConvergeFileContents _ _ s) as [[changed [e|]] m1];
      [by do 3 eexists|].
    destruct (if changed then _ else _) as [[[] m2] restarts].
    destruct (WriteFile _ _ m2) as [[e|] m3]; by do 3 eexists.
Qed.

Lemma writeNetworkInterfaces_loop_gateway (macAddresses : gmap string string)
  (networks : Networks) (acc : list customNetwork) :
  Forall (λ c, HasDefaultGateway c = true) acc →
  Forall (λ c, HasDefaultGateway c = true)
    (writeNetworkInterfaces_loop macAddresses networks acc).1.
Proof.
  revert acc. induction networks as [|[name aNet] networks IH]; intros acc Hacc;
    [done|]. simpl.
  destruct (CalculateNetworkAndBroadcast (IP aNet) (Netmask aNet))
    as [[network broadcast] [e|]]; [done|].
  apply IH, Forall_app. split; [done|]. by constructor.
Qed.

(** C2, amended: every resolved network a static setup builds has
    [HasDefaultGateway] set, whatever its gateway, the empty one included;
    and the interfaces template renders, after the loopback stanza, one
    stanza per resolved network that ends with a gateway line when the
    network has [HasDefaultGateway] set and with nothing when it has
    not. *)
Theorem HasDefaultGateway_always (macAddresses : gmap string string)
  (networks : Networks) (resolved : list customNetwork) :
  Forall (λ c, HasDefaultGateway c = true)
    (writeNetworkInterfaces_loop macAddresses networks []).1 ∧
  Execute (Must (Parse "network-interfaces" ubuntuNetworkInterfacesTemplate))
    (VSlice (customNetworkValue <$> resolved)) =
  Some (loopbackStanza +:+ String.concat "" (stanza <$> resolved)) ∧
  Forall (λ c, gatewayLine c =
               if HasDefaultGateway c
               then "    gateway " +:+ Gateway (Network c) else "") resolved.
Proof.
  split; [by apply writeNetworkInterfaces_loop_gateway|].
  split; [apply Execute_interfaces|]. by apply Forall_forall.
Qed.

(** C4: the resolver configuration a static setup writes lists the servers
    of the network designated for dns last first: for the servers a, b, c
    the lines [nameserver c], [nameserver b], [nameserver a]; without a
    designated network it has no nameserver line. *)
Theorem resolvConf_reverses_dns (networks : Networks) (s : S) :
  let servers :=
    let '(dnsNetwork, found) := DefaultNetworkFor networks "dns" in
    if found then rev (DNS dnsNetwork) else [] in
  (∃ err, (writeResolvConf networks s).2 =
          [EvWriteFile "/etc/resolv.conf" (resolvConf servers) err]) ∧
  (∀ dnsNetwork a b c,
     DefaultNetworkFor networks "dns" = (dnsNetwork, true) →
     DNS dnsNetwork = [a; b; c] →
     resolvConf servers =
     "# Generated by bosh-agent" +:+ GoStrings.nl +:+
     "nameserver " +:+ c +:+ GoStrings.nl +:+
     "nameserver " +:+ b +:+ GoStrings.nl +:+
     "nameserver " +:+ a +:+ GoStrings.nl) ∧
  (∀ dnsNetwork,
     DefaultNetworkFor networks "dns" = (dnsNetwork, false) →
     resolvConf servers = "# Generated by bosh-agent" +:+ GoStrings.nl).
Proof.
  intros servers. split; [|split].
  - rewrite writeResolvConf_run, getDNSServers_rev. fold servers. cbv zeta.
    destruct (WriteFile _ _ s) as [err m1]. by exists err.
  - intros dnsNetwork a b c Hfound Hdns. subst servers.
    rewrite Hfound, Hdns. unfold resolvConf. simpl.
    by rewrite !string_app_assoc.
  - intros dnsNetwork Hfound. subst servers. rewrite Hfound.
    unfold resolvConf. simpl. by rewrite string_app_nil_r.
Qed.


End Convergence.

(** ** The announcer, over any collaborators *)

Section Announcer.

Import Errors System GoTemplate UbuntuNetManager Observations ManagerFacts.

Context {S : Type}.
Context `{!FileSystem S, !CmdRunner S, !Clock S}.
Variable net : ubuntuNetManager.

Lemma runP_bind {A B : Type} (m : P A) (k : A → P B) (s : S) :
  (m ≫= k) s =
  match m s with
  | None => None
  | Some (a, s1, t1) =>
      match k a s1 with
      | None => None
      | Some (b, s2, t2) => Some (b, s2, t1 ++ t2)
      end
  end.
Proof. reflexivity. Qed.

Lemma runT_bind {A B : Type} (m : T A) (k : A → T B) (s : S) :
  (m ≫= k) s =
  match m s with
  | (None, s1, t1) => (None, s1, t1)
  | (Some a, s1, t1) => let '(b, s2, t2) := k a s1 in (b, s2, t1 ++ t2)
  end.
Proof. reflexivity. Qed.

(** *** The two readings of the loops agree on the runs that end *)

Lemma finished_bind {A B : Type} (p : P A) (k : A → P B) (m : T A) (k' : A → T B)
  (s : S) :
  (∀ s0, p s0 = finished (m s0)) →
  (∀ a s0, k a s0 = finished (k' a s0)) →
  (p ≫= k) s = finished ((m ≫= k') s).
Proof.
  intros Hm Hk. rewrite runP_bind, runT_bind, Hm.
  destruct (m s) as [[[a|] m1] u1]; [|done]. simpl. rewrite Hk.
  by destruct (k' a m1) as [[[b|] m2] u2].
Qed.

Lemma finished_lift {A : Type} (m : M A) (s : S) : lift m s = finished (liftT m s).
Proof. unfold lift, liftT. by destruct (m s) as [[a s1] t]. Qed.

Lemma waitForFile_agrees (fuel : nat) (path : string) (s : S) :
  waitForFile fuel path s = finished (waitForFile_upto fuel path s).
Proof.
  revert s. induction fuel as [|fuel IH]; intros s; [done|].
  simpl. apply finished_bind; [apply finished_lift|].
  intros [|] s0; [done|].
  apply finished_bind; [apply finished_lift | intros _; apply IH].
Qed.

Lemma announce_agrees (fuel : nat) (c : customNetwork) (s : S) :
  announce net fuel c s = finished (announce_upto net fuel c s).
Proof.
  unfold announce, announce_upto.
  apply finished_bind; [apply waitForFile_agrees|]. intros _ s0.
  apply finished_bind; [apply finished_lift|]. intros [[[stdout stderr] status] err] m1.
  apply finished_bind; [apply finished_lift|]. intros _ m2. apply finished_lift.
Qed.

Lemma gratuitiousArp_round_agrees (fuel : nat) (networks : list customNetwork)
  (s : S) :
  gratuitiousArp_round net fuel networks s =
  finished (gratuitiousArp_round_upto net fuel networks s).
Proof.
  revert s. induction networks as [|c networks IH]; intros s; [done|].
  simpl. apply finished_bind; [apply announce_agrees | intros _; apply IH].
Qed.

Lemma gratuitiousArp_rounds_agrees (fuel rounds : nat)
  (networks : list customNetwork) (s : S) :
  gratuitiousArp_rounds net fuel rounds networks s =
  finished (gratuitiousArp_rounds_upto net fuel rounds networks s).
Proof.
  revert s. induction rounds as [|rounds IH]; intros s; [done|].
  simpl. apply finished_bind;
    [apply gratuitiousArp_round_agrees | intros _; apply IH].
Qed.

Lemma gratuitiousArp_agrees (fuel : nat) (networks : list customNetwork)
  (errCh : option Chan) (s : S) :
  gratuitiousArp net fuel networks errCh s =
  finished (gratuitiousArp_upto net fuel networks errCh s).
Proof.
  unfold gratuitiousArp, gratuitiousArp_upto.
  apply finished_bind; [apply gratuitiousArp_rounds_agrees|].
  intros _ s0. destruct errCh; [apply finished_lift | done].
Qed.

Section Stalled.

(** *** A device entry that never appears *)

Variable absent : S → Prop.
Variable c : customNetwork.
Hypothesis absent_Sleep : ∀ d s, absent s → absent (Sleep d s).
Hypothesis absent_arping : ∀ args s, absent s → absent (RunCommand "arping" args s).2.
Hypothesis absent_device : ∀ s, absent s → FileExists (devicePath c) s = false.

Lemma commands_polls (polls : nat) (d : Duration) :
  commands (replicate polls (EvSleep d)) = [] ∧
  sends (replicate polls (EvSleep d)) = [].
Proof. induction polls as [|polls [IHc IHs]]; [done|]. by split. Qed.

(** The loops, step by step. *)
Lemma waitForFile_upto_step (fuel : nat) (path : string) (s : S) :
  waitForFile_upto (Datatypes.S fuel) path s =
  if FileExists path s then (Some tt, s, [])
  else
    let '(r, s1, t1) := waitForFile_upto fuel path (Sleep (100 * Millisecond) s) in
    (r, s1, EvSleep (100 * Millisecond) :: t1).
Proof.
  simpl. rewrite runT_bind. unfold liftT at 1, fs_FileExists.
  destruct (FileExists path s); [done|].
  rewrite runT_bind. unfold liftT, time_Sleep.
  by destruct (waitForFile_upto fuel path _) as [[[[]|] m1] u1].
Qed.

Lemma announce_upto_run (fuel : nat) (b : customNetwork) (s : S) :
  announce_upto net fuel b s =
  match waitForFile_upto fuel (devicePath b) s with
  | (None, s1, t1) => (None, s1, t1)
  | (Some _, s1, t1) =>
      let '(stdout, _, _, err, s2) :=
        RunCommand "arping" ["-c"; "1"; "-U"; "-I"; Interface b; IP (Network b)] s1 in
      (Some tt, Sleep (arpWaitInterval net) s2,
       t1 ++ EvRunCommand "arping" ["-c"; "1"; "-U"; "-I"; Interface b; IP (Network b)]
               stdout err
          :: logEvents "Ignoring arping failure: %#v" err
          ++ [EvSleep (arpWaitInterval net)])
  end.
Proof.
  unfold announce_upto. rewrite runT_bind. fold (devicePath b).
  destruct (waitForFile_upto fuel (devicePath b) s) as [[[[]|] m1] u1]; [|done].
  rewrite runT_bind. unfold liftT at 1, cmdRunner_RunCommand.
  destruct (RunCommand "arping" _ m1) as [[[[stdout stderr] status] err] m2].
  rewrite runT_bind. unfold liftT, time_Sleep. rewrite logIgnored_run.
  simpl. by rewrite ?app_nil_r.
Qed.

(** A wait, for whatever path: it sleeps, and does nothing else. *)
Lemma waitForFile_upto_sleeps (fuel : nat) (path : string) (s : S) :
  absent s →
  let r := waitForFile_upto fuel path s in
  absent r.1.2 ∧ commands r.2 = [] ∧ sends r.2 = [].
Proof.
  revert s. induction fuel as [|fuel IH]; intros s Habsent; [done|].
  rewrite waitForFile_upto_step. destruct (FileExists path s); [done|].
  specialize (IH (Sleep (100 * Millisecond) s) (absent_Sleep _ _ Habsent)).
  by destruct (waitForFile_upto fuel path _) as [[r m1] u1].
Qed.

(** The wait for the device that never appears: as many sleeps as polls. *)
Lemma waitForFile_upto_absent (fuel : nat) (s : S) :
  absent s →
  ∃ s', waitForFile_upto fuel (devicePath c) s =
        (None, s', replicate fuel (EvSleep (100 * Millisecond))) ∧ absent s'.
Proof.
  revert s. induction fuel as [|fuel IH]; intros s Habsent; [by exists s|].
  rewrite waitForFile_upto_step, absent_device by done.
  destruct (IH (Sleep (100 * Millisecond) s)) as (s' & -> & Habsent');
    [by apply absent_Sleep|].
  by exists s'.
Qed.

(** One pass of the inner loop, for whatever network: it sends nothing,
    and has announced the network when it ended and nothing when not. *)
Lemma announce_upto_any (fuel : nat) (b : customNetwork) (s : S) :
  absent s →
  let r := announce_upto net fuel b s in
  absent r.1.2 ∧ sends r.2 = [] ∧
  commands r.2 = match r.1.1 with Some _ => [arpingCommand b] | None => [] end.
Proof.
  intros Habsent. rewrite announce_upto_run.
  pose proof (waitForFile_upto_sleeps fuel (devicePath b) s Habsent) as Hwait.
  destruct (waitForFile_upto fuel _ s) as [[r m1] u1].
  cbn [fst snd] in Hwait. destruct Hwait as (Habsent1 & Hc1 & Hs1).
  destruct r as [[]|]; [|done].
  pose proof (absent_arping
    ["-c"; "1"; "-U"; "-I"; Interface b; IP (Network b)] m1 Habsent1) as Habsent2.
  destruct (RunCommand "arping" _ m1) as [[[[stdout stderr] status] err] m2].
  cbn [fst snd] in *. split; [by apply absent_Sleep|].
  rewrite <- !sends_app, !commands_app, Hc1, Hs1. by destruct err.
Qed.

Lemma announce_upto_absent (fuel : nat) (s : S) :
  absent s →
  ∃ s', announce_upto net fuel c s =
        (None, s', replicate fuel (EvSleep (100 * Millisecond))) ∧ absent s'.
Proof.
  intros Habsent. rewrite announce_upto_run.
  destruct (waitForFile_upto_absent fuel s Habsent) as (s' & -> & Habsent').
  by exists s'.
Qed.

(** A round over a list that holds the network whose device never appears
    does not end: it stops at that network at the latest. *)
Lemma gratuitiousArp_round_upto_stalls (fuel : nat)
  (before after : list customNetwork) (s : S) :
  absent s →
  ∃ s' t,
    gratuitiousArp_round_upto net fuel (before ++ c :: after) s = (None, s', t) ∧
    sends t = [] ∧
    commands t `prefix_of` (arpingCommand <$> before) ∧
    (before = [] → t = replicate fuel (EvSleep (100 * Millisecond))).
Proof.
  revert s. induction before as [|b before IH]; intros s Habsent.
  - simpl. rewrite runT_bind.
    destruct (announce_upto_absent fuel s Habsent) as (s' & -> & _).
    exists s', (replicate fuel (EvSleep (100 * Millisecond))).
    destruct (commands_polls fuel (100 * Millisecond)) as [-> ->].
    by repeat split.
  - simpl. rewrite runT_bind.
    pose proof (announce_upto_any fuel b s Habsent) as Hb.
    destruct (announce_upto net fuel b s) as [[[[]|] s1] t1];
      cbn [fst snd] in Hb; destruct Hb as (Habsent1 & Hs1 & Hc1).
    + destruct (IH s1 Habsent1) as (s2 & t2 & -> & Hs2 & Hc2 & _).
      exists s2, (t1 ++ t2). split; [done|].
      rewrite <- sends_app, commands_app, Hs1, Hs2, Hc1.
      repeat split; [|done]. by apply prefix_cons.
    + exists s1, t1. rewrite Hs1, Hc1. repeat split; [|done]. apply prefix_nil.
Qed.

(** The announcer handed such a list does not end, however many polls it
    is given: it sends nothing, and announces no network but those before
    the one whose device never appears, once each at most. *)
Lemma gratuitiousArp_upto_stalls (fuel : nat) (before after : list customNetwork)
  (errCh : option Chan) (s : S) :
  absent s →
  gratuitiousArp net fuel (before ++ c :: after) errCh s = None ∧
  ∃ s' t,
    gratuitiousArp_upto net fuel (before ++ c :: after) errCh s = (None, s', t) ∧
    sends t = [] ∧
    commands t `prefix_of` (arpingCommand <$> before) ∧
    (before = [] → t = replicate fuel (EvSleep (100 * Millisecond))).
Proof.
  intros Habsent.
  destruct (gratuitiousArp_round_upto_stalls fuel before after s Habsent)
    as (s' & t & Hround & Hfacts).
  assert (gratuitiousArp_upto net fuel (before ++ c :: after) errCh s = (None, s', t))
    as Hrun.
  { unfold gratuitiousArp_upto. rewrite runT_bind.
    change (gratuitiousArp_rounds_upto net fuel 6 (before ++ c :: after))
      with (gratuitiousArp_round_upto net fuel (before ++ c :: after)
            ≫= λ _, gratuitiousArp_rounds_upto net fuel 5 (before ++ c :: after)).
    by rewrite runT_bind, Hround. }
  split; [by rewrite gratuitiousArp_agrees, Hrun|].
  by exists s', t.
Qed.

End Stalled.

(** What is true of the machine while the announcer runs: [Inv] holds of
    the machine it starts on, survives its sleeps and its announcements,
    and wherever it holds the device entry of every network exists after
    some number of polls. *)
Variable Inv : S → Prop.
Variable networks : list customNetwork.
Hypothesis Inv_Sleep : ∀ d s, Inv s → Inv (Sleep d s).
Hypothesis Inv_arping : ∀ args s, Inv s → Inv (RunCommand "arping" args s).2.
Hypothesis Inv_device : ∀ c s, c ∈ networks → Inv s →
  ∃ polls, FileExists (devicePath c)
             (Nat.iter polls (Sleep (100 * Millisecond)) s) = true.

Lemma waitForFile_ends (path : string) (polls : nat) (s : S) :
  Inv s →
  FileExists path (Nat.iter polls (Sleep (100 * Millisecond)) s) = true →
  ends Inv (λ fuel, waitForFile fuel path) s [].
Proof.
  revert s. induction polls as [|polls IH]; intros s HInv Hexists.
  - exists 1%nat, s, []. repeat split; [|done].
    intros [|fuel'] Hfuel; [lia|]. simpl in *.
    rewrite runP_bind. unfold lift, fs_FileExists. by rewrite Hexists.
  - destruct (FileExists path s) eqn:Hnow.
    + exists 1%nat, s, []. repeat split; [|done].
      intros [|fuel'] Hfuel; [lia|]. simpl.
      rewrite runP_bind. unfold lift, fs_FileExists. by rewrite Hnow.
    + rewrite Nat.iter_succ_r in Hexists.
      destruct (IH (Sleep (100 * Millisecond) s)) as (fuel & s' & t & Hrun & HInv' & Hc & Hs);
        [by apply Inv_Sleep | done |].
      exists (Datatypes.S fuel), s', (EvSleep (100 * Millisecond) :: t).
      repeat split; [|done|by rewrite <- Hc|by rewrite <- Hs].
      intros [|fuel'] Hfuel; [lia|]. simpl.
      rewrite runP_bind. unfold lift at 1, fs_FileExists. rewrite Hnow.
      rewrite runP_bind. unfold lift, time_Sleep.
      by rewrite (Hrun fuel') by lia.
Qed.

Lemma announce_ends (c : customNetwork) (s : S) :
  c ∈ networks → Inv s →
  ends Inv (λ fuel, announce net fuel c) s [arpingCommand c].
Proof.
  intros Hc HInv. destruct (Inv_device c s Hc HInv) as [polls Hpolls].
  destruct (waitForFile_ends _ polls s HInv Hpolls)
    as (fuel & s1 & t1 & Hrun & HInv1 & Hc1 & Hs1).
  pose proof (Inv_arping
    ["-c"; "1"; "-U"; "-I"; Interface c; IP (Network c)] s1 HInv1) as HInv2.
  destruct (RunCommand "arping" ["-c"; "1"; "-U"; "-I"; Interface c; IP (Network c)] s1)
    as [[[[stdout stderr] status] err] s2] eqn:Harping.
  exists fuel, (Sleep (arpWaitInterval net) s2),
    (t1 ++ EvRunCommand "arping" ["-c"; "1"; "-U"; "-I"; Interface c; IP (Network c)]
              stdout err
        :: logEvents "Ignoring arping failure: %#v" err
        ++ [EvSleep (arpWaitInterval net)]).
  repeat split.
  - intros fuel' Hfuel. unfold announce. rewrite runP_bind.
    fold (devicePath c). rewrite (Hrun fuel' Hfuel).
    rewrite runP_bind. unfold lift at 1, cmdRunner_RunCommand. rewrite Harping.
    rewrite runP_bind. unfold lift, time_Sleep. rewrite logIgnored_run.
    simpl. by rewrite ?app_nil_r.
  - by apply Inv_Sleep.
  - rewrite commands_app, Hc1. by destruct err.
  - rewrite <- sends_app, Hs1. by destruct err.
Qed.

Lemma gratuitiousArp_round_ends (round : list customNetwork) (s : S) :
  round ⊆ networks → Inv s →
  ends Inv (λ fuel, gratuitiousArp_round net fuel round) s (arpingCommand <$> round).
Proof.
  revert s. induction round as [|c round IH]; intros s Hsub HInv.
  - by exists 0%nat, s, [].
  - destruct (announce_ends c s) as (fuel1 & s1 & t1 & Hrun1 & HInv1 & Hc1 & Hs1);
      [apply Hsub; by left | done |].
    destruct (IH s1) as (fuel2 & s2 & t2 & Hrun2 & HInv2 & Hc2 & Hs2);
      [intros x Hx; apply Hsub; by right | done |].
    exists (fuel1 `max` fuel2)%nat, s2, (t1 ++ t2). repeat split; [|done| |].
    + intros fuel' Hfuel. simpl. rewrite runP_bind.
      rewrite (Hrun1 fuel') by lia. by rewrite (Hrun2 fuel') by lia.
    + by rewrite commands_app, Hc1, Hc2.
    + by rewrite <- sends_app, Hs1, Hs2.
Qed.

Lemma gratuitiousArp_rounds_ends (rounds : nat) (s : S) :
  Inv s →
  ends Inv (λ fuel, gratuitiousArp_rounds net fuel rounds networks) s
    (concat (replicate rounds (arpingCommand <$> networks))).
Proof.
  revert s. induction rounds as [|rounds IH]; intros s HInv.
  - by exists 0%nat, s, [].
  - destruct (gratuitiousArp_round_ends networks s)
      as (fuel1 & s1 & t1 & Hrun1 & HInv1 & Hc1 & Hs1); [done..|].
    destruct (IH s1) as (fuel2 & s2 & t2 & Hrun2 & HInv2 & Hc2 & Hs2); [done|].
    exists (fuel1 `max` fuel2)%nat, s2, (t1 ++ t2). repeat split; [|done| |].
    + intros fuel' Hfuel. simpl. rewrite runP_bind.
      rewrite (Hrun1 fuel') by lia. by rewrite (Hrun2 fuel') by lia.
    + by rewrite commands_app, Hc1, Hc2.
    + by rewrite <- sends_app, Hs1, Hs2.
Qed.

(** C5, amended: handed N resolved networks whose device entries exist, or
    come to exist while it polls, the announcer ends, whatever the
    announcements return; it has then run exactly 6 N announcements, six
    rounds over the networks in the order of the list; with a channel it
    sends one value, [nil], after the last announcement, and without one
    it sends nothing. Handed a list with a network whose device entry
    never appears it does not end, however many polls it is given: it
    sends nothing, and its announcements so far are the first of those of
    the networks before that one in the list, once each at most; when that
    network is the first of the list its events so far are the sleeps of
    its polls. *)
Theorem gratuitiousArp_announces (errCh : option Chan) (s : S) :
  (Inv s →
   ∃ fuel s' t,
     (∀ fuel', (fuel ≤ fuel')%nat →
        gratuitiousArp net fuel' networks errCh s = Some (tt, s', t)) ∧
     commands t = concat (replicate 6 (arpingCommand <$> networks)) ∧
     length (commands t) = (6 * length networks)%nat ∧
     match errCh with
     | Some ch => ∃ t0, t = t0 ++ [EvSend ch None] ∧ sends t0 = [] ∧
                        commands t0 = commands t
     | None => sends t = []
     end) ∧
  (∀ (absent : S → Prop) (before after : list customNetwork) (c : customNetwork)
     (s0 : S),
     (∀ d m, absent m → absent (Sleep d m)) →
     (∀ args m, absent m → absent (RunCommand "arping" args m).2) →
     (∀ m, absent m → FileExists (devicePath c) m = false) →
     absent s0 →
     ∀ fuel,
       gratuitiousArp net fuel (before ++ c :: after) errCh s0 = None ∧
       ∃ s' t,
         gratuitiousArp_upto net fuel (before ++ c :: after) errCh s0
         = (None, s', t) ∧
         sends t = [] ∧
         commands t `prefix_of` (arpingCommand <$> before) ∧
         (before = [] → t = replicate fuel (EvSleep (100 * Millisecond)))).
Proof.
  split.
  2: { intros absent before after c s0 HSleep Harping Hdevice Habsent fuel.
       by apply (gratuitiousArp_upto_stalls absent c HSleep Harping Hdevice). }
  intros HInv.
  destruct (gratuitiousArp_rounds_ends 6 s HInv)
    as (fuel & s' & t & Hrun & _ & Hc & Hs).
  assert (length (concat (replicate 6 (arpingCommand <$> networks)))
          = (6 * length networks)%nat) as Hlen.
  { simpl. rewrite !length_app, length_fmap. simpl. lia. }
  destruct errCh as [ch|].
  - exists fuel, s', (t ++ [EvSend ch None]). repeat split.
    + intros fuel' Hfuel. unfold gratuitiousArp. rewrite runP_bind.
      by rewrite (Hrun fuel' Hfuel).
    + rewrite commands_app, Hc. simpl. by rewrite app_nil_r.
    + rewrite commands_app, Hc. simpl. by rewrite app_nil_r.
    + exists t. repeat split; [done|]. rewrite commands_app. simpl.
      by rewrite app_nil_r.
  - exists fuel, s', t. repeat split; [|done|by rewrite Hc|done].
    intros fuel' Hfuel. unfold gratuitiousArp. rewrite runP_bind.
    rewrite (Hrun fuel' Hfuel). simpl. by rewrite app_nil_r.
Qed.

End Announcer.

(** ** Paths *)

Module PathFacts.
Import GoStrings StringFacts.

Lemma length_app (s1 s2 : string) :
  String.length (s1 +:+ s2) = (String.length s1 + String.length s2)%nat.
Proof.
  induction s1 as [|c s1 IH]; [done|].
  rewrite string_app_cons. simpl. by rewrite IH.
Qed.

Lemma substring_all (s : string) : String.substring 0 (String.length s) s = s.
Proof. induction s as [|c s IH]; [done|]. simpl. by rewrite IH. Qed.

Lemma substring_app (s1 s2 : string) (n : nat) :
  String.substring (String.length s1) n (s1 +:+ s2) = String.substring 0 n s2.
Proof. induction s1 as [|c s1 IH]; [done|]. by rewrite string_app_cons. Qed.

(** A text that ends with [suffix] has it as its last characters. *)
Lemma app_suffix (pre suffix s : string) :
  pre +:+ suffix = s →
  String.substring (String.length s - String.length suffix)
    (String.length suffix) s = suffix.
Proof.
  intros <-. rewrite length_app.
  replace (String.length pre + String.length suffix - String.length suffix)%nat
    with (String.length pre) by lia.
  by rewrite substring_app, substring_all.
Qed.

Lemma splitGo_app (sep : ascii) (s1 s2 cur : string) :
  splitGo sep (s1 +:+ String sep s2) cur = splitGo sep s1 cur ++ splitGo sep s2 "".
Proof.
  revert cur. induction s1 as [|c s1 IH]; intros cur.
  - change ("" +:+ String sep s2) with (String sep s2). simpl.
    by rewrite Ascii.eqb_refl.
  - rewrite string_app_cons. simpl. destruct (Ascii.eqb c sep); by rewrite IH.
Qed.

Lemma Join_snoc (elems : list string) (x sep : string) :
  ∃ pre, Join (elems ++ [x]) sep = pre +:+ x.
Proof.
  unfold Join. induction elems as [|y elems [pre IH]].
  - by exists "".
  - exists (y +:+ sep +:+ pre). simpl.
    destruct (elems ++ [x]) eqn:Hne; [by destruct elems|].
    by rewrite IH, !string_app_assoc.
Qed.

Lemma Clean_address (dir : string) :
  ∃ pre, GoPath.Clean (dir +:+ "/address") = pre +:+ "address".
Proof.
  unfold GoPath.Clean, Split.
  change (dir +:+ "/address") with (dir +:+ String "/" "address").
  rewrite splitGo_app, fold_left_app.
  change (splitGo "/" "address" "") with ["address"]. simpl fold_left.
  set (out := fold_left _ _ _).
  change (GoPath.cleanStep ?r out "address") with ("address" :: out).
  simpl rev. destruct (Join_snoc (rev out) "address" "/") as [pre ->].
  destruct (HasPrefix _ "/").
  - exists ("/" +:+ pre). by rewrite string_app_assoc.
  - exists pre. rewrite decide_False; [done|].
    intros Hnil. apply (f_equal String.length) in Hnil.
    rewrite length_app in Hnil. simpl in Hnil. lia.
Qed.

(** The address file of a device is a file named [address]. *)
Lemma Join_address (filePath : string) :
  ∃ pre, GoPath.Join [filePath; "address"] = pre +:+ "address".
Proof.
  unfold GoPath.Join. destruct (decide (filePath = "")) as [->|Hne].
  - by exists "".
  - rewrite filter_cons_True by done.
    change (filter _ ["address"]) with ["address"].
    change (Join [filePath; "address"] "/") with (filePath +:+ "/" +:+ "address").
    apply (Clean_address filePath).
Qed.

(** It is neither of the files a static setup writes. *)
Lemma Join_address_artifact (filePath : string) :
  GoPath.Join [filePath; "address"] ≠ "/etc/network/interfaces" ∧
  GoPath.Join [filePath; "address"] ≠ "/etc/resolv.conf".
Proof.
  destruct (Join_address filePath) as [pre ->].
  split; intros Heq; apply app_suffix in Heq; vm_compute in Heq; discriminate Heq.
Qed.

End PathFacts.

(** ** The manager on the in-memory machine *)

Module FakeFacts.
Import Errors System GoTemplate UbuntuNetManager Observations Fakes.
Import ManagerFacts PathFacts.

(** *** Commands leave the disk alone *)

Lemma RunCommand_disk (cmdName : string) (args : list string) (m : Machine) :
  disk (RunCommand cmdName args m).2 = disk m.
Proof.
  simpl. unfold fakeRunCommand.
  by destruct (cmdResults m !! _) as [[stdout [e|]]|].
Qed.

Lemma restartNetworkingInterfaces_disk (networks : list customNetwork) (m : Machine) :
  disk (restartNetworkingInterfaces networks m).1.2 = disk m.
Proof.
  revert m. induction networks as [|c networks IH]; intros m; [done|].
  simpl restartNetworkingInterfaces. rewrite run_bind.
  unfold cmdRunner_RunCommand.
  pose proof (RunCommand_disk "service"
    ["network-interface"; "stop"; "INTERFACE=" +:+ Interface c] m) as H1.
  destruct (RunCommand "service" _ m) as [[[[out1 ?] ?] err1] m1].
  rewrite run_bind, logIgnored_run, run_bind.
  pose proof (RunCommand_disk "service"
    ["network-interface"; "start"; "INTERFACE=" +:+ Interface c] m1) as H2.
  destruct (RunCommand "service" _ m1) as [[[[out2 ?] ?] err2] m2].
  rewrite run_bind, logIgnored_run.
  specialize (IH m2).
  destruct (restartNetworkingInterfaces networks m2) as [[[] m3] t3].
  simpl in *. congruence.
Qed.

(** *** The map of the devices depends on the registry alone *)

Lemma detectMacAddresses_loop_ext (filePaths : list string)
  (addresses : gmap string string) (m m' : Machine) :
  (∀ filePath, files m !! GoPath.Join [filePath; "address"]
               = files m' !! GoPath.Join [filePath; "address"]) →
  (detectMacAddresses_loop filePaths addresses m).1.1 =
  (detectMacAddresses_loop filePaths addresses m').1.1.
Proof.
  intros Hfiles. revert addresses.
  induction filePaths as [|filePath filePaths IH]; intros addresses; [done|].
  simpl. rewrite !run_bind. unfold fs_ReadFileString.
  change (ReadFileString ?path ?mach) with (fakeReadFileString path mach).
  unfold fakeReadFileString. rewrite <- (Hfiles filePath).
  destruct (files m !! _) as [content|]; [|done].
  specialize (IH (<[GoStrings.Trim content GoStrings.nl := GoPath.Base filePath]> addresses)).
  destruct (detectMacAddresses_loop_reads filePaths
              (<[GoStrings.Trim content GoStrings.nl := GoPath.Base filePath]> addresses) m)
    as [r Hr].
  destruct (detectMacAddresses_loop_reads filePaths
              (<[GoStrings.Trim content GoStrings.nl := GoPath.Base filePath]> addresses) m')
    as [r' Hr'].
  rewrite Hr, Hr' in IH |- *. simpl in *. congruence.
Qed.

Lemma detectMacAddresses_ext (m m' : Machine) :
  globs m = globs m' → globErr m = globErr m' →
  (∀ filePath, files m !! GoPath.Join [filePath; "address"]
               = files m' !! GoPath.Join [filePath; "address"]) →
  (detectMacAddresses m).1.1 = (detectMacAddresses m').1.1.
Proof.
  intros Hglobs HglobErr Hfiles.
  unfold detectMacAddresses. rewrite !run_bind.
  unfold fs_Glob. change (Glob ?pat ?mach) with (fakeGlob pat mach).
  unfold fakeGlob. rewrite <- Hglobs, <- HglobErr.
  destruct (globErr m) as [e|]; [done|].
  pose proof (detectMacAddresses_loop_ext
                (default [] (globs m !! "/sys/class/net/*")) ∅ m m' Hfiles) as Hloop.
  destruct (detectMacAddresses_loop_reads
              (default [] (globs m !! "/sys/class/net/*")) ∅ m) as [r Hr].
  destruct (detectMacAddresses_loop_reads
              (default [] (globs m !! "/sys/class/net/*")) ∅ m') as [r' Hr'].
  rewrite Hr, Hr' in Hloop |- *. simpl in *. congruence.
Qed.

(** A machine that differs from another in the two files of the static
    setup at most has the same devices. *)
Lemma detectMacAddresses_artifacts (m m' : Machine) :
  globs m = globs m' → globErr m = globErr m' →
  (∀ path, path ≠ "/etc/network/interfaces" → path ≠ "/etc/resolv.conf" →
           files m !! path = files m' !! path) →
  (detectMacAddresses m).1.1 = (detectMacAddresses m').1.1.
Proof.
  intros Hglobs HglobErr Hfiles. apply detectMacAddresses_ext; [done..|].
  intros filePath. destruct (Join_address_artifact filePath). by apply Hfiles.
Qed.

(** *** A setup on a machine that holds the interfaces file already *)

Lemma SetupManualNetworking_converged (networks : Networks) (errCh : option Chan)
  (m m1 : Machine) (macAddresses : gmap string string)
  (modifiedNetworks : list customNetwork) :
  (detectMacAddresses m).1.1 = (macAddresses, None) →
  writeNetworkInterfaces_loop macAddresses networks [] = (modifiedNetworks, None) →
  globs m1 = globs m → globErr m1 = globErr m →
  (∀ path, path ≠ "/etc/network/interfaces" → path ≠ "/etc/resolv.conf" →
           files m1 !! path = files m !! path) →
  default "" (files m1 !! "/etc/network/interfaces") = interfacesFile modifiedNetworks →
  let t := (SetupManualNetworking networks errCh m1).2 in
  commands t = [] ∧
  ∀ path content changed err,
    EvConvergeFileContents path content changed err ∈ t → changed = false.
Proof.
  intros Hdetect Hloop Hglobs HglobErr Hfiles Hifaces t. subst t.
  rewrite SetupManualNetworking_spec.
  rewrite (detectMacAddresses_artifacts m1 m Hglobs HglobErr Hfiles), Hdetect, Hloop.
  cbv zeta.
  change (ConvergeFileContents ?path ?content ?mach)
    with (fakeConvergeFileContents path content mach).
  unfold fakeConvergeFileContents. rewrite decide_True by done.
  destruct (WriteFile _ _ m1) as [[e|] m3]; simpl.
  all: split; [done|]; intros * He; members He; by simplify_eq.
Qed.

(** C6: a static setup called again with the same networks, on the machine
    the first call left, runs no command at all: the convergence of the
    interfaces file reports no change, whatever the first call did and
    however it ended. *)
Theorem second_setup_restarts_nothing (networks : Networks)
  (errCh errCh' : option Chan) (m : Machine) :
  let first := SetupManualNetworking networks errCh m in
  let second := SetupManualNetworking networks errCh' first.1.2 in
  commands second.2 = [] ∧
  ∀ path content changed err,
    EvConvergeFileContents path content changed err ∈ second.2 → changed = false.
Proof.
  intros first second. subst first second.
  rewrite (SetupManualNetworking_spec networks errCh m).
  destruct (detectMacAddresses m).1.1 as [macAddresses [e|]] eqn:Hdetect.
  { cbn [fst snd]. rewrite SetupManualNetworking_spec, Hdetect.
    split; [done|]. intros * He. by members He. }
  destruct (writeNetworkInterfaces_loop macAddresses networks [])
    as [modifiedNetworks [e|]] eqn:Hloop.
  { cbn [fst snd]. rewrite SetupManualNetworking_spec, Hdetect, Hloop.
    split; [done|]. intros * He. by members He. }
  cbv zeta.
  change (ConvergeFileContents ?path ?content ?mach)
    with (fakeConvergeFileContents path content mach).
  change (WriteFile ?path ?content ?mach) with (fakeWriteFile path content mach).
  unfold fakeConvergeFileContents.
  destruct (decide (default "" (files m !! "/etc/network/interfaces")
                    = interfacesFile modifiedNetworks)) as [Hsame|Hdiff].
  - (* the file is as it should be *)
    unfold fakeWriteFile. destruct (writeErr m) as [e|]; simpl.
    + by apply (SetupManualNetworking_converged _ _ m m macAddresses modifiedNetworks).
    + apply (SetupManualNetworking_converged _ _ m _ macAddresses modifiedNetworks);
        try done; simpl.
      * intros path _ Hpath. by rewrite lookup_insert_ne.
      * by rewrite lookup_insert_ne.
  - unfold fakeWriteFile. destruct (writeErr m) as [e|] eqn:HwriteErr.
    + (* the file cannot be written, in either call *)
      cbn [fst snd]. rewrite SetupManualNetworking_spec, Hdetect, Hloop. cbv zeta.
      change (ConvergeFileContents ?path ?content ?mach)
        with (fakeConvergeFileContents path content mach).
      unfold fakeConvergeFileContents, fakeWriteFile.
      rewrite decide_False, HwriteErr by done. cbn [fst snd].
      split; [done|]. intros * He. members He. by simplify_eq.
    + (* the first call writes the file and restarts the interfaces *)
      set (m1 := setFiles _ m).
      pose proof (restartNetworkingInterfaces_disk modifiedNetworks m1) as Hdisk.
      destruct (restartNetworkingInterfaces modifiedNetworks m1) as [[[] m2] restarts].
      simpl in Hdisk. injection Hdisk as Hfiles Hglobs HglobErr HwriteErr2.
      rewrite HwriteErr2, HwriteErr. cbn [fst snd].
      apply (SetupManualNetworking_converged _ _ m _ macAddresses modifiedNetworks);
        try done; simpl; rewrite Hfiles.
      * intros path Hifaces Hresolv. by rewrite !lookup_insert_ne.
      * rewrite lookup_insert_ne by done. by rewrite lookup_insert_eq.
Qed.

(** *** A device that is not on its way never appears *)

Lemma arrive_never (d : Duration) (pending : list (string * Duration))
  (fs : gmap string string) (path : string) :
  fs !! path = None → path ∉ pending.*1 →
  (arrive d pending fs).1 !! path = None ∧ path ∉ (arrive d pending fs).2.*1.
Proof.
  intros Hfs. induction pending as [|[p due] pending IH]; intros Hnot; [done|].
  rewrite fmap_cons in Hnot. apply not_elem_of_cons in Hnot as [Hne Hnot].
  simpl in Hne. simpl. destruct (IH Hnot) as [IHfs IHnot].
  destruct (arrive d pending fs) as [fs' rest]. simpl in IHfs, IHnot.
  destruct (due <=? d); simpl.
  - split; [|done]. by rewrite lookup_insert_ne.
  - split; [done|]. by apply not_elem_of_cons.
Qed.

Lemma neverArrives_Sleep (path : string) (d : Duration) (m : Machine) :
  neverArrives path m → neverArrives path (Sleep d m).
Proof.
  intros [Hfs Hnot]. unfold neverArrives. simpl. unfold fakeSleep.
  pose proof (arrive_never d (arriving m) (files m) path Hfs Hnot) as Hnever.
  by destruct (arrive d (arriving m) (files m)).
Qed.

Lemma neverArrives_RunCommand (path cmdName : string) (args : list string)
  (m : Machine) :
  neverArrives path m → neverArrives path (RunCommand cmdName args m).2.
Proof.
  intros Hnever. simpl. unfold fakeRunCommand.
  by destruct (cmdResults m !! _) as [[stdout [e|]]|].
Qed.

Lemma neverArrives_FileExists (path : string) (m : Machine) :
  neverArrives path m → FileExists path m = false.
Proof.
  intros [Hfs _]. simpl. unfold fakeFileExists. rewrite Hfs.
  apply bool_decide_eq_false. by intros [? ?].
Qed.

(** *** Devices on their way arrive *)

Lemma arrive_keeps (d : Duration) (pending : list (string * Duration))
  (fs : gmap string string) (path : string) :
  is_Some (fs !! path) → is_Some ((arrive d pending fs).1 !! path).
Proof.
  intros Hpath. induction pending as [|[p due] pending IH]; [done|]. simpl.
  destruct (arrive d pending fs) as [fs' rest]. simpl in IH.
  destruct (due <=? d); simpl; [|done].
  apply lookup_insert_is_Some. destruct (decide (p = path)); auto.
Qed.

Lemma arrive_due (d : Duration) (pending : list (string * Duration))
  (fs : gmap string string) (path : string) (due : Duration) :
  (path, due) ∈ pending →
  is_Some ((arrive d pending fs).1 !! path) ∨
  (due > d ∧ (path, due - d) ∈ (arrive d pending fs).2).
Proof.
  induction pending as [|[p due'] pending IH]; intros Hin; [by members Hin|].
  simpl. destruct (arrive d pending fs) as [fs' rest] eqn:Harrive. simpl in IH.
  apply elem_of_cons in Hin as [[= <- <-]|Hin].
  - destruct (Z.leb_spec due d); simpl.
    + left. rewrite lookup_insert_eq. by eexists.
    + right. split; [lia|]. by left.
  - destruct (IH Hin) as [Hsome|[Hlater Hrest]].
    + left. destruct (due' <=? d); simpl; [|done].
      apply lookup_insert_is_Some. destruct (decide (p = path)); auto.
    + destruct (due' <=? d); simpl; [by right|].
      right. split; [done|]. by right.
Qed.

Lemma Sleep_keeps (d : Duration) (m : Machine) (path : string) :
  is_Some (files m !! path) → is_Some (files (Sleep d m) !! path).
Proof.
  intros Hpath. simpl. unfold fakeSleep.
  pose proof (arrive_keeps d (arriving m) (files m) path Hpath) as Hkeeps.
  by destruct (arrive d (arriving m) (files m)).
Qed.

Lemma Sleeps_keep (d : Duration) (polls : nat) (m : Machine) (path : string) :
  is_Some (files m !! path) →
  is_Some (files (Nat.iter polls (Sleep d) m) !! path).
Proof. intros Hpath. induction polls; [done|]. simpl. by apply Sleep_keeps. Qed.

(** A device due in at most [polls] sleeps exists after one more. *)
Lemma Sleeps_arrive (d : Duration) (polls : nat) (m : Machine)
  (path : string) (due : Duration) :
  0 < d → (path, due) ∈ arriving m → due ≤ Z.of_nat polls * d →
  is_Some (files (Nat.iter (Datatypes.S polls) (Sleep d) m) !! path).
Proof.
  intros Hd. revert m due. induction polls as [|polls IH]; intros m due Hin Hdue.
  - simpl. unfold fakeSleep.
    destruct (arrive_due d (arriving m) (files m) path due Hin) as [Hsome|[Hlater _]];
      [|lia].
    by destruct (arrive d (arriving m) (files m)).
  - rewrite Nat.iter_succ_r.
    pose proof (arrive_due d (arriving m) (files m) path due Hin) as Hnext.
    assert (files (Sleep d m) = (arrive d (arriving m) (files m)).1 ∧
            arriving (Sleep d m) = (arrive d (arriving m) (files m)).2) as [Hf Ha].
    { simpl. unfold fakeSleep. by destruct (arrive d (arriving m) (files m)). }
    rewrite <- Hf, <- Ha in Hnext. destruct Hnext as [Hsome|[_ Hrest]].
    + by apply Sleeps_keep.
    + apply (IH _ (due - d)); [done|lia].
Qed.

Lemma onTheirWay_Sleep (networks : list customNetwork) (d : Duration) (m : Machine) :
  onTheirWay networks m → onTheirWay networks (Sleep d m).
Proof.
  intros Hm c Hc. destruct (Hm c Hc) as [Hsome|[due Hdue]].
  - left. by apply Sleep_keeps.
  - pose proof (arrive_due d (arriving m) (files m) (devicePath c) due Hdue) as Hnext.
    simpl. unfold fakeSleep. destruct (arrive d (arriving m) (files m)).
    destruct Hnext as [Hsome|[_ Hrest]]; [by left|right; by eexists].
Qed.

Lemma onTheirWay_RunCommand (networks : list customNetwork) (cmdName : string)
  (args : list string) (m : Machine) :
  onTheirWay networks m → onTheirWay networks (RunCommand cmdName args m).2.
Proof.
  intros Hm. simpl. unfold fakeRunCommand.
  by destruct (cmdResults m !! _) as [[stdout [e|]]|].
Qed.

Lemma onTheirWay_device (networks : list customNetwork) (c : customNetwork)
  (m : Machine) :
  c ∈ networks → onTheirWay networks m →
  ∃ polls, FileExists (devicePath c)
             (Nat.iter polls (Sleep (100 * Millisecond)) m) = true.
Proof.
  intros Hc Hm. destruct (Hm c Hc) as [Hsome|[due Hdue]].
  - exists 0%nat. simpl. unfold fakeFileExists. by apply bool_decide_eq_true.
  - exists (Datatypes.S (Z.to_nat due)).
    change (FileExists ?path ?mach) with (fakeFileExists path mach).
    unfold fakeFileExists. apply bool_decide_eq_true.
    apply (Sleeps_arrive _ _ _ _ due); [done|done|].
    unfold Millisecond. lia.
Qed.

End FakeFacts.

(** ** On the machine with one device *)

Module OnTheMachine.
Import Errors System GoTemplate UbuntuNetManager Observations Fakes Examples.
Import ManagerFacts FakeFacts.

(** Against C1 as stated: the MAC address of the network matches no device
    of the machine, yet the static setup returns no error and writes both
    files, the interfaces file with a stanza that names no interface. *)
Lemma stray_mac_is_no_failure :
  let r := SetupManualNetworking [("stray", stray)] None machine in
  let resolved := mkCustomNetwork stray "" "10.0.0.0" "10.0.255.255" true in
  (detectMacAddresses machine).1.1.1 !! Mac stray = None ∧
  r.1.1 = None ∧
  writes r.2 =
  [ EvConvergeFileContents "/etc/network/interfaces"
      (interfacesFile [resolved]) true None;
    EvWriteFile "/etc/resolv.conf" (resolvConf []) None ].
Proof. vm_compute. done. Qed.

(** The amended C1 on a machine whose device registry cannot be listed. *)
Lemma unlistable_registry_fails :
  (detectMacAddresses unlistable).1.1.2 = Some (WrapError (New "glob failed")
    "Getting file list from /sys/class/net") ∧
  SetupManualNetworking [("bosh", bosh)] None unlistable =
  (Some (WrapError (WrapError (WrapError (New "glob failed")
            "Getting file list from /sys/class/net")
            "Detecting mac addresses") "Writing network interfaces"),
   unlistable, []).
Proof.
  split; [reflexivity|].
  apply (proj1 (SetupManualNetworking_resolution_failure
                  [("bosh", bosh)] None unlistable)).
  reflexivity.
Defined.

(** Against C2 as stated: the network has no gateway, and the resolved
    network the static setup builds for it has [HasDefaultGateway] set. *)
Lemma empty_gateway_has_default_gateway :
  let r := SetupManualNetworking [("private", private)] None machine in
  let resolved := mkCustomNetwork private "eth0" "172.16.4.0" "172.16.4.255" true in
  last r.2 = Some (EvGoGratuitiousArp [resolved] None) ∧
  Gateway (Network resolved) = "" ∧
  HasDefaultGateway resolved = true ∧
  ¬ (HasDefaultGateway resolved = true ↔ Gateway (Network resolved) ≠ "").
Proof.
  intros r resolved.
  split; [vm_compute; reflexivity|]. split; [reflexivity|]. split; [reflexivity|].
  intros [H _]. by apply H.
Qed.

(** C4 on the network with the servers 10.80.130.1, .2 and .3. *)
Lemma resolvConf_of_three_servers :
  DefaultNetworkFor [("bosh", bosh)] "dns" = (bosh, true) ∧
  DNS bosh = ["10.80.130.1"; "10.80.130.2"; "10.80.130.3"] ∧
  resolvConf (rev (DNS bosh)) =
  "# Generated by bosh-agent" +:+ GoStrings.nl +:+
  "nameserver 10.80.130.3" +:+ GoStrings.nl +:+
  "nameserver 10.80.130.2" +:+ GoStrings.nl +:+
  "nameserver 10.80.130.1" +:+ GoStrings.nl.
Proof.
  split; [reflexivity|]. split; [reflexivity|].
  exact (proj1 (proj2 (resolvConf_reverses_dns [("bosh", bosh)] machine))
           bosh _ _ _ eq_refl eq_refl).
Defined.

(** Against C5 as stated: eth1 has no device entry on the machine and none
    is on its way; the announcer handed the network on eth1 waits for it
    whatever the number of polls it is given, announces nothing and sends
    nothing: its events are the sleeps of its polls. *)
Lemma absent_device_never_announced :
  (¬ ∃ fuel r, gratuitiousArp manager fuel [onEth1] (Some 0%nat) machine = Some r) ∧
  ∀ fuel, ∃ s',
    gratuitiousArp_upto manager fuel [onEth1] (Some 0%nat) machine =
    (None, s', replicate fuel (EvSleep (100 * Millisecond))).
Proof.
  split.
  2: { intros fuel.
       destruct (gratuitiousArp_upto_stalls manager
                   (neverArrives (devicePath onEth1)) onEth1
                   (neverArrives_Sleep _) (λ args, neverArrives_RunCommand _ _ args)
                   (neverArrives_FileExists _) fuel [] [] (Some 0%nat) machine)
         as (_ & s' & t & Hrun & _ & _ & Ht).
       { split; [reflexivity|]. by intros ?%elem_of_nil. }
       change ([] ++ [onEth1]) with [onEth1] in Hrun.
       exists s'. by rewrite Hrun, (Ht eq_refl). }
  assert (∀ fuel, waitForFile fuel "/sys/class/net/eth1" machine = None) as Hwait.
  { induction fuel as [|fuel IH]; [done|]. simpl.
    rewrite (runP_bind (S:=Machine)). unfold lift at 1, fs_FileExists.
    change (FileExists "/sys/class/net/eth1" machine) with false.
    cbv beta iota.
    rewrite (runP_bind (S:=Machine)). unfold lift, time_Sleep.
    change (Sleep (100 * Millisecond) machine) with machine.
    by rewrite IH. }
  intros (fuel & r & Hrun). revert Hrun.
  unfold gratuitiousArp. rewrite (runP_bind (S:=Machine)).
  change (gratuitiousArp_rounds manager fuel 6 [onEth1])
    with (gratuitiousArp_round manager fuel [onEth1]
          ≫= λ _, gratuitiousArp_rounds manager fuel 5 [onEth1]).
  rewrite (runP_bind (S:=Machine)).
  change (gratuitiousArp_round manager fuel [onEth1])
    with (announce manager fuel onEth1
          ≫= λ _, gratuitiousArp_round manager fuel []).
  rewrite (runP_bind (S:=Machine)). unfold announce. rewrite (runP_bind (S:=Machine)).
  change (GoPath.Join ["/sys/class/net"; Interface onEth1])
    with "/sys/class/net/eth1".
  by rewrite Hwait.
Qed.

(** The amended C5 on the machine where eth1 appears after a quarter of a
    second: twelve announcements, eth0 before eth1 six times over, then
    one [nil] on the channel. On the machine where eth1 never appears the
    announcer does not end, sends nothing and announces eth0 once at
    most. *)
Lemma hotplug_announced :
  onTheirWay [onEth0; onEth1] hotplug ∧
  (∃ fuel s' t,
    (∀ fuel', (fuel ≤ fuel')%nat →
       gratuitiousArp manager fuel' [onEth0; onEth1] (Some 0%nat) hotplug
       = Some (tt, s', t)) ∧
    commands t = concat (replicate 6 (arpingCommand <$> [onEth0; onEth1])) ∧
    length (commands t) = 12%nat ∧
    ∃ t0, t = t0 ++ [EvSend 0%nat None] ∧ sends t0 = [] ∧ commands t0 = commands t) ∧
  neverArrives (devicePath onEth1) machine ∧
  ∀ fuel,
    gratuitiousArp manager fuel [onEth0; onEth1] (Some 0%nat) machine = None ∧
    ∃ s' t,
      gratuitiousArp_upto manager fuel [onEth0; onEth1] (Some 0%nat) machine
      = (None, s', t) ∧
      sends t = [] ∧
      commands t `prefix_of` [arpingCommand onEth0].
Proof.
  assert (onTheirWay [onEth0; onEth1] hotplug) as Hway.
  { intros c Hc. members Hc; subst c.
    - left. by eexists.
    - right. exists (250 * Millisecond). by left. }
  assert (neverArrives (devicePath onEth1) machine) as Hnever.
  { split; [reflexivity|]. by intros ?%elem_of_nil. }
  split; [exact Hway|]. split.
  - exact (proj1 (gratuitiousArp_announces manager (onTheirWay [onEth0; onEth1])
             [onEth0; onEth1]
             (λ d m, onTheirWay_Sleep _ d m)
             (λ args m, onTheirWay_RunCommand _ "arping" args m)
             (λ c m, onTheirWay_device _ c m)
             (Some 0%nat) hotplug) Hway).
  - split; [exact Hnever|]. intros fuel.
    destruct (proj2 (gratuitiousArp_announces manager (onTheirWay [onEth0; onEth1])
                [onEth0; onEth1]
                (λ d m, onTheirWay_Sleep _ d m)
                (λ args m, onTheirWay_RunCommand _ "arping" args m)
                (λ c m, onTheirWay_device _ c m)
                (Some 0%nat) hotplug)
                (neverArrives (devicePath onEth1)) [onEth0] [] onEth1 machine
                (neverArrives_Sleep _) (λ args, neverArrives_RunCommand _ _ args)
                (neverArrives_FileExists _) Hnever fuel)
      as (Hnone & s' & t & Hrun & Hsends & Hcommands & _).
    split; [exact Hnone|]. exists s', t.
    split; [exact Hrun|]. split; [exact Hsends | exact Hcommands].
Defined.

(** C8 on the machine: the interfaces file through the convergent write,
    then the resolver configuration through the plain one. *)
Lemma both_files_written :
  ∃ ifaces rerr,
    writes (SetupManualNetworking [("bosh", bosh)] None machine).2 =
    [ EvConvergeFileContents "/etc/network/interfaces" ifaces true None;
      EvWriteFile "/etc/resolv.conf"
        (resolvConf (getDNSServers [("bosh", bosh)])) rerr ].
Proof.
  eapply (proj1 (resolvConf_written_unconditionally [("bosh", bosh)] None machine)).
  reflexivity.
Defined.

(** C9 on the machine: the setup succeeds, and its events are the
    convergence, the restart of eth0, the resolver configuration and the
    start of the announcer. *)
Lemma setup_in_order :
  let r := SetupManualNetworking [("bosh", bosh)] None machine in
  r.1.1 = None ∧
  ∃ modifiedNetworks ifaces changed restarts,
    r.2 = EvConvergeFileContents "/etc/network/interfaces" ifaces changed None
            :: restarts
            ++ [ EvWriteFile "/etc/resolv.conf"
                   (resolvConf (getDNSServers [("bosh", bosh)])) None;
                 EvGoGratuitiousArp modifiedNetworks None ] ∧
    forallb isCommandOrLog restarts = true ∧
    commands restarts = (if changed then bounceCommands modifiedNetworks else []).
Proof.
  assert ((SetupManualNetworking [("bosh", bosh)] None machine).1.1 = None)
    as Hok by (vm_compute; reflexivity).
  split; [exact Hok|].
  exact (proj2 (proj2 (SetupManualNetworking_order [("bosh", bosh)] None machine)) Hok).
Defined.


End OnTheMachine.

(** ** The map of the devices *)

Section Devices.

Import Errors System GoTemplate UbuntuNetManager Observations Diagnostics.
Import ManagerFacts.

Context {S : Type}.
Context `{!FileSystem S, !CmdRunner S, !Clock S}.

Lemma detectMacAddresses_loop_error (filePaths : list string)
  (addresses : gmap string string) (s : S) :
  let r := (detectMacAddresses_loop filePaths addresses s).1.1 in
  (is_Some r.2 ↔ Exists (λ filePath, is_Some (addressFile s filePath).2) filePaths) ∧
  (∀ e, r.2 = Some e →
        ∃ before filePath after cause,
          filePaths = before ++ filePath :: after ∧
          Forall (λ filePath, (addressFile s filePath).2 = None) before ∧
          (addressFile s filePath).2 = Some cause ∧
          e = WrapError cause "Reading mac address from file").
Proof.
  revert addresses. induction filePaths as [|filePath filePaths IH]; intros addresses.
  - simpl. split; [|done]. split; [by intros [? ?]|by intros ?%Exists_nil].
  - simpl detectMacAddresses_loop. rewrite run_bind. unfold fs_ReadFileString.
    rewrite Exists_cons.
    assert ((addressFile s filePath).2 =
            (ReadFileString (GoPath.Join [filePath; "address"]) s).2) as Hfile by done.
    destruct (ReadFileString (GoPath.Join [filePath; "address"]) s)
      as [content [e|]] eqn:Hread.
    + simpl in *. split.
      * split; [|by eexists]. intros _. left. rewrite Hfile. by eexists.
      * intros ? [= <-]. by exists [], filePath, filePaths, e.
    + specialize (IH (<[GoStrings.Trim content GoStrings.nl := GoPath.Base filePath]> addresses)).
      destruct (detectMacAddresses_loop filePaths _ s) as [[r s1] t1].
      simpl in *. destruct IH as [IH1 IH2]. split.
      * rewrite IH1, Hfile. split; [by right|]. intros [[? [=]]|?]; done.
      * intros e He.
        destruct (IH2 e He) as (before & failing & after & cause & -> & Hbefore & Hcause & ->).
        exists (filePath :: before), failing, after, cause.
        repeat split; [|done]. by constructor.
Qed.

(** X1: [detectMacAddresses] fails exactly when the device registry cannot be
    listed or the address file of a listed device cannot be read. When the
    registry cannot be listed it returns the empty map and the error of the
    listing, wrapped. When it can, an error it returns is the error of the
    read of the first listed device whose address file cannot be read,
    wrapped. *)
Theorem detectMacAddresses_fails_iff (s : S) :
  let listing := Glob "/sys/class/net/*" s in
  let r := (detectMacAddresses s).1.1 in
  (is_Some r.2 ↔
   is_Some listing.2 ∨
   Exists (λ filePath, is_Some (addressFile s filePath).2) listing.1) ∧
  (∀ e, listing.2 = Some e →
        r = (∅, Some (WrapError e "Getting file list from /sys/class/net"))) ∧
  (∀ e, r.2 = Some e →
        (∃ cause, listing.2 = Some cause ∧
                  e = WrapError cause "Getting file list from /sys/class/net") ∨
        (listing.2 = None ∧
         ∃ before filePath after cause,
           listing.1 = before ++ filePath :: after ∧
           Forall (λ filePath, (addressFile s filePath).2 = None) before ∧
           (addressFile s filePath).2 = Some cause ∧
           e = WrapError cause "Reading mac address from file")).
Proof.
  intros listing r. subst listing r.
  unfold detectMacAddresses. rewrite run_bind. unfold fs_Glob.
  destruct (Glob "/sys/class/net/*" s) as [filePaths [eglob|]]; simpl.
  - split; [|split].
    + split; [intros _; left; by eexists | by eexists].
    + by intros ? [= <-].
    + intros ? [= <-]. left. by eexists.
  - pose proof (detectMacAddresses_loop_error filePaths ∅ s) as [Hiff Hwrap].
    destruct (detectMacAddresses_loop filePaths ∅ s) as [[r s1] t1]. simpl in *.
    split; [|split; [done|]].
    + rewrite Hiff. split; [by right|]. by intros [[? [=]]|?].
    + intros e He. right. split; [done|]. by apply Hwrap.
Qed.

Lemma detectMacAddresses_loop_lookup (filePaths : list string)
  (addresses result : gmap string string) (s : S) (mac : string) :
  (detectMacAddresses_loop filePaths addresses s).1.1 = (result, None) →
  result !! mac =
  match last (filter (λ filePath, macOf s filePath = mac) filePaths) with
  | Some filePath => Some (GoPath.Base filePath)
  | None => addresses !! mac
  end.
Proof.
  revert addresses. induction filePaths as [|filePath filePaths IH]; intros addresses.
  - simpl. by intros [= ->].
  - simpl detectMacAddresses_loop. rewrite run_bind. unfold fs_ReadFileString.
    destruct (ReadFileString (GoPath.Join [filePath; "address"]) s)
      as [content [e|]] eqn:Hread; [done|].
    specialize (IH (<[GoStrings.Trim content GoStrings.nl := GoPath.Base filePath]> addresses)).
    destruct (detectMacAddresses_loop filePaths _ s) as [[r s1] t1].
    simpl. intros Hr. rewrite (IH Hr). rewrite filter_cons.
    assert (macOf s filePath = GoStrings.Trim content GoStrings.nl) as ->.
    { unfold macOf, addressFile. by rewrite Hread. }
    destruct (decide (GoStrings.Trim content GoStrings.nl = mac)) as [Hmac|Hmac].
    + rewrite last_cons.
      destruct (last (filter _ filePaths)); [done|].
      by rewrite Hmac, lookup_insert_eq.
    + destruct (last (filter _ filePaths)); [done|].
      by rewrite lookup_insert_ne.
Qed.

(** X2: in the map [detectMacAddresses] returns, a MAC address stands for
    the base name of the last listed device whose address file, newlines
    trimmed, holds it, and for nothing when no listed device has it. *)
Theorem detectMacAddresses_last_device (s : S) :
  (detectMacAddresses s).1.1.2 = None →
  ∀ mac,
    (detectMacAddresses s).1.1.1 !! mac =
    GoPath.Base <$>
      last (filter (λ filePath, macOf s filePath = mac)
              (Glob "/sys/class/net/*" s).1).
Proof.
  unfold detectMacAddresses. rewrite run_bind. unfold fs_Glob.
  destruct (Glob "/sys/class/net/*" s) as [filePaths [eglob|]]; [done|].
  pose proof (λ result, detectMacAddresses_loop_lookup filePaths ∅ result s) as Hloop.
  destruct (detectMacAddresses_loop filePaths ∅ s) as [[[result err] s1] t1].
  simpl in *. intros -> mac. rewrite (Hloop result mac eq_refl).
  destruct (last _); [done|]. by rewrite lookup_empty.
Qed.

End Devices.

(** ** How the two operations end *)

Section Outcomes.

Import Errors System GoTemplate UbuntuNetManager Observations Diagnostics.
Import StringFacts ManagerFacts.

Context {S : Type}.
Context `{!FileSystem S, !CmdRunner S, !Clock S}.
Context `{!NetworkCalculator, !NetworksMethods}.

Lemma resolve_Network (macAddresses : gmap string string) (aNet : Settings.Network) :
  Network (resolve macAddresses aNet) = aNet.
Proof.
  unfold resolve. by destruct (CalculateNetworkAndBroadcast _ _) as [[? ?] ?].
Qed.

(** The loop over the networks stops at the first one whose subnet
    arithmetic fails, with the networks before it resolved. *)
Lemma writeNetworkInterfaces_loop_first_bad (macAddresses : gmap string string)
  (networks : Networks) (acc : list customNetwork) :
  Exists badSubnet networks.*2 →
  ∃ before aNet after e,
    networks.*2 = before ++ aNet :: after ∧
    Forall (λ aNet, ¬ badSubnet aNet) before ∧
    (CalculateNetworkAndBroadcast (IP aNet) (Netmask aNet)).2 = Some e ∧
    writeNetworkInterfaces_loop macAddresses networks acc =
    (acc ++ (resolve macAddresses <$> before),
     Some (WrapError e "Calculating network and broadcast")).
Proof.
  revert acc. induction networks as [|[name aNet] networks IH]; intros acc Hbad.
  { by apply Exists_nil in Hbad. }
  rewrite fmap_cons. rewrite fmap_cons in Hbad. cbn [snd] in *.
  cbn [writeNetworkInterfaces_loop].
  destruct (CalculateNetworkAndBroadcast (IP aNet) (Netmask aNet))
    as [[network broadcast] [e|]] eqn:Hcalc.
  - exists [], aNet, networks.*2, e. rewrite Hcalc, app_nil_r. by repeat split.
  - apply Exists_cons in Hbad as [Hhere|Hbad].
    { unfold badSubnet in Hhere. rewrite Hcalc in Hhere. by destruct Hhere. }
    destruct (IH (acc ++ [mkCustomNetwork aNet
                (default "" (macAddresses !! Mac aNet)) network broadcast true]) Hbad)
      as (before & bad & after & e & Hsplit & Hbefore & He & ->).
    exists (aNet :: before), bad, after, e. split; [|split; [|split; [done|]]].
    + by rewrite Hsplit.
    + constructor; [|done]. unfold badSubnet. rewrite Hcalc. by intros [? ?].
    + rewrite <- app_assoc. simpl. unfold resolve at 2. by rewrite Hcalc.
Qed.

Lemma writeNetworkInterfaces_loop_ok (macAddresses : gmap string string)
  (networks : Networks) :
  Forall (λ aNet, ¬ badSubnet aNet) networks.*2 →
  writeNetworkInterfaces_loop macAddresses networks [] =
  (resolve macAddresses <$> networks.*2, None).
Proof.
  intros Hok.
  pose proof (writeNetworkInterfaces_loop_spec macAddresses networks []) as Hloop.
  destruct (writeNetworkInterfaces_loop macAddresses networks []) as [resolved [e|]].
  - apply Exists_exists in Hloop as (aNet & Hin & Hbad).
    rewrite Forall_forall in Hok. by destruct (Hok aNet Hin).
  - by destruct Hloop as [-> _].
Qed.

(** X3: when the subnet arithmetic fails for a network, a static setup whose
    device map was resolved fails with the error of the first such network
    in the list, wrapped; it writes no file, runs no command, starts no
    announcer and leaves the machine as it was. *)
Theorem SetupManualNetworking_bad_subnet (networks : Networks)
  (errCh : option Chan) (s : S) :
  (detectMacAddresses s).1.1.2 = None →
  Exists badSubnet networks.*2 →
  ∃ before aNet after e,
    networks.*2 = before ++ aNet :: after ∧
    Forall (λ aNet, ¬ badSubnet aNet) before ∧
    (CalculateNetworkAndBroadcast (IP aNet) (Netmask aNet)).2 = Some e ∧
    SetupManualNetworking networks errCh s =
    (Some (WrapError (WrapError e "Calculating network and broadcast")
             "Writing network interfaces"), s, []).
Proof.
  intros Hdetect Hbad. rewrite SetupManualNetworking_spec.
  destruct (detectMacAddresses s).1.1 as [macAddresses err]. simpl in Hdetect.
  subst err.
  destruct (writeNetworkInterfaces_loop_first_bad macAddresses networks [] Hbad)
    as (before & aNet & after & e & Hsplit & Hbefore & He & ->).
  by exists before, aNet, after, e.
Qed.

(** X4: an error of a static setup is one of four: the error of the device
    map, of the subnet arithmetic, of the write of the interfaces file or of
    the write of the resolver configuration, each wrapped twice with the
    step it comes from. No error comes from a template or from a
    command. *)
Theorem SetupManualNetworking_errors (networks : Networks)
  (errCh : option Chan) (s : S) (err : error) :
  (SetupManualNetworking networks errCh s).1.1 = Some err →
  ∃ cause,
    err = WrapError (WrapError cause "Detecting mac addresses")
            "Writing network interfaces" ∨
    err = WrapError (WrapError cause "Calculating network and broadcast")
            "Writing network interfaces" ∨
    err = WrapError (WrapError cause "Writing to /etc/network/interfaces")
            "Writing network interfaces" ∨
    err = WrapError (WrapError cause "Writing to /etc/resolv.conf")
            "Writing resolv.conf".
Proof.
  rewrite SetupManualNetworking_spec.
  destruct (detectMacAddresses s).1.1 as [macAddresses [e|]].
  { intros [= <-]. exists e. by left. }
  destruct (decide (Exists badSubnet networks.*2)) as [Hbad|Hok].
  { destruct (writeNetworkInterfaces_loop_first_bad macAddresses networks [] Hbad)
      as (before & aNet & after & e & _ & _ & _ & ->).
    intros [= <-]. exists e. right. by left. }
  apply not_Exists_Forall in Hok; [|intros aNet; apply _].
  rewrite writeNetworkInterfaces_loop_ok by done. cbv zeta.
  destruct (ConvergeFileContents _ _ s) as [[changed [e|]] m1].
  { intros [= <-]. exists e. right. right. by left. }
  destruct (if changed then _ else _) as [[[] m2] restarts].
  destruct (WriteFile _ _ m2) as [[e|] m3]; [|done].
  intros [= <-]. exists e. by repeat right.
Qed.

Lemma commandOrLog_started (t : list Event) :
  forallb isCommandOrLog t = true → started t = [].
Proof.
  induction t as [|e t IH]; [done|]. simpl.
  intros [He Ht]%andb_true_iff. destruct e; try discriminate He; by apply IH.
Qed.

Lemma started_app (t1 t2 : list Event) : started (t1 ++ t2) = started t1 ++ started t2.
Proof. unfold started. by rewrite omap_app. Qed.

(** X5: a static setup starts the announcer exactly when it returns no
    error, and then once, as its last event, with the channel it was given
    and one resolved network for each network of the list, in the order of
    the list. *)
Theorem announcer_started_on_success (networks : Networks)
  (errCh : option Chan) (s : S) :
  let r := SetupManualNetworking networks errCh s in
  match r.1.1 with
  | None =>
      ∃ resolved before,
        r.2 = before ++ [EvGoGratuitiousArp resolved errCh] ∧
        started before = [] ∧
        Network <$> resolved = networks.*2
  | Some _ => started r.2 = []
  end.
Proof.
  intros r. subst r. rewrite SetupManualNetworking_spec.
  destruct (detectMacAddresses s).1.1 as [macAddresses [e|]]; [done|].
  destruct (decide (Exists badSubnet networks.*2)) as [Hbad|Hok].
  { by destruct (writeNetworkInterfaces_loop_first_bad macAddresses networks [] Hbad)
      as (before & aNet & after & e & _ & _ & _ & ->). }
  apply not_Exists_Forall in Hok; [|intros aNet; apply _].
  rewrite writeNetworkInterfaces_loop_ok by done. cbv zeta.
  destruct (ConvergeFileContents _ _ s) as [[changed [e|]] m1]; [done|].
  pose proof (bounce_trace changed (resolve macAddresses <$> networks.*2) m1)
    as [_ Hrestarts].
  destruct (if changed then _ else _) as [[[] m2] restarts].
  simpl in Hrestarts. apply commandOrLog_started in Hrestarts.
  destruct (WriteFile _ _ m2) as [[e|] m3]; simpl.
  - change (started (?ev :: ?t)) with (started t).
    by rewrite started_app, Hrestarts.
  - eexists _, (_ :: restarts ++ [_]). split; [|split].
    + simpl. f_equal. by rewrite <- app_assoc.
    + change (started (?ev :: ?t)) with (started t).
      by rewrite started_app, Hrestarts.
    + rewrite <- list_fmap_compose. rewrite <- (list_fmap_id networks.*2) at 2.
      apply list_fmap_ext. intros ? aNet _. apply resolve_Network.
Qed.

(** X6: when the convergent write of the interfaces file fails, a static
    setup returns that error, wrapped, and does nothing more: it restarts no
    interface, does not write the resolver configuration and starts no
    announcer. *)
Theorem interfaces_write_failure_stops (networks : Networks)
  (errCh : option Chan) (s s1 : S) (macAddresses : gmap string string)
  (changed : bool) (e : error) :
  (detectMacAddresses s).1.1 = (macAddresses, None) →
  Forall (λ aNet, ¬ badSubnet aNet) networks.*2 →
  ConvergeFileContents "/etc/network/interfaces"
    (interfacesFile (resolve macAddresses <$> networks.*2)) s
  = (changed, Some e, s1) →
  SetupManualNetworking networks errCh s =
  (Some (WrapError (WrapError e "Writing to /etc/network/interfaces")
           "Writing network interfaces"),
   s1,
   [EvConvergeFileContents "/etc/network/interfaces"
      (interfacesFile (resolve macAddresses <$> networks.*2)) changed (Some e)]).
Proof.
  intros Hdetect Hok Hconverge.
  rewrite SetupManualNetworking_spec, Hdetect.
  rewrite writeNetworkInterfaces_loop_ok by done. cbv zeta.
  by rewrite Hconverge.
Qed.

Lemma logged_app (t1 t2 : list Event) : logged (t1 ++ t2) = logged t1 ++ logged t2.
Proof. unfold logged. by rewrite omap_app. Qed.

Lemma failed_app (t1 t2 : list Event) : failed (t1 ++ t2) = failed t1 ++ failed t2.
Proof. unfold failed. by rewrite omap_app. Qed.

(** A best-effort command and its log line. *)
Lemma logged_bestEffort (cmdName : string) (args : list string) (stdout format : string)
  (err : option error) (t : list Event) :
  logged t = failed t →
  logged (EvRunCommand cmdName args stdout err :: logEvents format err ++ t) =
  failed (EvRunCommand cmdName args stdout err :: logEvents format err ++ t).
Proof. intros Ht. destruct err; simpl; unfold logged, failed in *; simpl; by rewrite Ht. Qed.

Lemma restartNetworkingInterfaces_logged (networks : list customNetwork) (s : S) :
  logged (restartNetworkingInterfaces networks s).2 =
  failed (restartNetworkingInterfaces networks s).2.
Proof.
  revert s. induction networks as [|c networks IH]; intros s; [done|].
  simpl restartNetworkingInterfaces. rewrite run_bind.
  unfold cmdRunner_RunCommand.
  destruct (RunCommand "service" _ s) as [[[[out1 ?] ?] err1] m1].
  rewrite run_bind, logIgnored_run, run_bind.
  destruct (RunCommand "service" _ m1) as [[[[out2 ?] ?] err2] m2].
  rewrite run_bind, logIgnored_run.
  specialize (IH m2).
  destruct (restartNetworkingInterfaces networks m2) as [[[] m3] t3].
  simpl in IH. simpl snd.
  change ([?ev] ++ ?t) with (ev :: t).
  apply logged_bestEffort. by apply logged_bestEffort.
Qed.

(** X7: the two operations log every error of a command, once and in the
    order of the commands, and log nothing else: the errors logged are the
    errors the commands returned. *)
Theorem failures_are_logged (networks : Networks) (errCh : option Chan) (s : S) :
  logged (SetupManualNetworking networks errCh s).2 =
    failed (SetupManualNetworking networks errCh s).2 ∧
  logged (SetupDhcp networks s).2 = failed (SetupDhcp networks s).2.
Proof.
  split.
  - rewrite SetupManualNetworking_spec.
    destruct (detectMacAddresses s).1.1 as [macAddresses [e|]]; [done|].
    destruct (writeNetworkInterfaces_loop macAddresses networks [])
      as [resolved [e|]]; [done|].
    cbv zeta.
    destruct (ConvergeFileContents _ _ s) as [[changed [e|]] m1]; [done|].
    assert (logged (if changed then restartNetworkingInterfaces resolved m1
                    else (tt, m1, [])).2
            = failed (if changed then restartNetworkingInterfaces resolved m1
                      else (tt, m1, [])).2) as Hrestarts.
    { destruct changed; [apply restartNetworkingInterfaces_logged | done]. }
    destruct (if changed then _ else _) as [[[] m2] restarts]. simpl in Hrestarts.
    destruct (WriteFile _ _ m2) as [[e|] m3]; simpl snd;
      change (logged (?ev :: ?t)) with (logged t);
      change (failed (?ev :: ?t)) with (failed t);
      by rewrite logged_app, failed_app, Hrestarts.
  - rewrite SetupDhcp_run. cbv zeta.
    destruct (ConvergeFileContents _ _ s) as [[changed [e|]] m1]; [done|].
    destruct changed; [|done].
    rewrite restartNetworkArguments_run.
    destruct (RunCommand "ifup" ["--version"] m1) as [[[[stdout ?] ?] perr] m2].
    destruct (RunCommand "ifdown" _ m2) as [[[[down ?] ?] downErr] m3].
    destruct (RunCommand "ifup" _ m3) as [[[[up ?] ?] upErr] m4].
    simpl snd.
    change (logged (EvConvergeFileContents ?p ?c ?b ?e :: ?t)) with (logged t).
    change (failed (EvConvergeFileContents ?p ?c ?b ?e :: ?t)) with (failed t).
    change ((?ev :: ?l) ++ ?t) with (ev :: l ++ t).
    apply logged_bestEffort. apply logged_bestEffort.
    rewrite <- (app_nil_r (logEvents _ upErr)). by apply logged_bestEffort.
Qed.

(** X8: the DHCP client configuration [SetupDhcp] converge-writes ends with
    one prepend line that lists the servers of the network designated for
    dns last first, separated by a comma and a space: for the servers a, b,
    c the list [c, b, a]; without a designated network the list is empty. *)
Theorem SetupDhcp_prepends_servers (networks : Networks) (s : S) :
  let servers :=
    let '(dnsNetwork, found) := DefaultNetworkFor networks "dns" in
    if found then rev (DNS dnsNetwork) else [] in
  let content :=
    dhcpPreamble +:+ GoStrings.Join servers ", " +:+ ";" +:+ GoStrings.nl in
  (∃ path changed cerr rest,
     (SetupDhcp networks s).2 =
     EvConvergeFileContents path content changed cerr :: rest) ∧
  (∀ dnsNetwork a b c,
     DefaultNetworkFor networks "dns" = (dnsNetwork, true) →
     DNS dnsNetwork = [a; b; c] →
     content =
     dhcpPreamble +:+ c +:+ ", " +:+ b +:+ ", " +:+ a +:+ ";" +:+ GoStrings.nl) ∧
  (∀ dnsNetwork,
     DefaultNetworkFor networks "dns" = (dnsNetwork, false) →
     content = dhcpPreamble +:+ ";" +:+ GoStrings.nl).
Proof.
  intros servers content. split; [|split].
  - rewrite SetupDhcp_run. cbv zeta. unfold dhcpConfig.
    rewrite getDNSServers_rev. fold servers. fold content.
    destruct (ConvergeFileContents _ content s) as [[changed [e|]] m1];
      [by do 4 eexists|].
    destruct changed; [|by do 4 eexists].
    destruct (restartNetworkArguments m1) as [[args m2] probe].
    destruct (RunCommand "ifdown" args m2) as [[[[down ?] ?] downErr] m3].
    destruct (RunCommand "ifup" args m3) as [[[[up ?] ?] upErr] m4].
    by do 4 eexists.
  - intros dnsNetwork a b c Hfound Hdns. subst content servers.
    rewrite Hfound, Hdns. simpl. by rewrite !string_app_assoc.
  - intros dnsNetwork Hfound. subst content servers. by rewrite Hfound.
Qed.

(** X9: when the write of the resolver configuration fails, a static setup
    returns that error, wrapped, after its earlier steps have taken place:
    the interfaces file has been converged and, if that reported a change,
    the interfaces have been restarted. It starts no announcer. *)
Theorem resolvConf_write_failure_is_late (networks : Networks)
  (errCh : option Chan) (s s1 : S) (macAddresses : gmap string string)
  (changed : bool) (e : error) :
  (detectMacAddresses s).1.1 = (macAddresses, None) →
  Forall (λ aNet, ¬ badSubnet aNet) networks.*2 →
  ConvergeFileContents "/etc/network/interfaces"
    (interfacesFile (resolve macAddresses <$> networks.*2)) s
  = (changed, None, s1) →
  (WriteFile "/etc/resolv.conf" (resolvConf (getDNSServers networks))
     (if changed
      then restartNetworkingInterfaces (resolve macAddresses <$> networks.*2) s1
      else (tt, s1, [])).1.2).1 = Some e →
  let r := SetupManualNetworking networks errCh s in
  r.1.1 = Some (WrapError (WrapError e "Writing to /etc/resolv.conf")
                  "Writing resolv.conf") ∧
  writes r.2 =
    [ EvConvergeFileContents "/etc/network/interfaces"
        (interfacesFile (resolve macAddresses <$> networks.*2)) changed None;
      EvWriteFile "/etc/resolv.conf" (resolvConf (getDNSServers networks))
        (Some e) ] ∧
  commands r.2 =
    (if changed then bounceCommands (resolve macAddresses <$> networks.*2)
     else []) ∧
  started r.2 = [].
Proof.
  intros Hdetect Hok Hconverge Hwrite r. subst r.
  rewrite SetupManualNetworking_spec, Hdetect.
  rewrite writeNetworkInterfaces_loop_ok by done. cbv zeta.
  rewrite Hconverge.
  pose proof (bounce_trace changed (resolve macAddresses <$> networks.*2) s1)
    as [Hcommands Hbounce].
  destruct (if changed then _ else _) as [[[] s2] restarts].
  cbn [fst snd] in Hwrite, Hcommands, Hbounce.
  destruct (WriteFile _ _ s2) as [rerr s3]. cbn [fst] in Hwrite. subst rerr.
  destruct (commandOrLog_trace _ Hbounce) as (Hwrites & _ & _).
  pose proof (commandOrLog_started _ Hbounce) as Hstarted.
  cbn [fst snd].
  split; [reflexivity|]. split; [|split].
  - change (writes (?ev :: ?t)) with (ev :: writes t) at 1.
    by rewrite writes_app, Hwrites.
  - change (commands (?ev :: ?t)) with (commands t) at 1.
    rewrite commands_app, Hcommands. apply app_nil_r.
  - change (started (?ev :: ?t)) with (started t) at 1.
    by rewrite started_app, Hstarted.
Qed.

End Outcomes.

(** ** Runs of the announcer that end *)

Section FinishedRuns.

Import Errors System GoTemplate UbuntuNetManager Observations Diagnostics.
Import ManagerFacts.

Context {S : Type}.
Context `{!FileSystem S, !CmdRunner S, !Clock S}.
Variable net : ubuntuNetManager.

Lemma runP_bind_Some {A B : Type} (m : P A) (k : A → P B) (s : S)
  (r : B * S * list Event) :
  (m ≫= k) s = Some r →
  ∃ a s1 t1 b s2 t2,
    m s = Some (a, s1, t1) ∧ k a s1 = Some (b, s2, t2) ∧ r = (b, s2, t1 ++ t2).
Proof.
  rewrite (runP_bind (S:=S)).
  destruct (m s) as [[[a s1] t1]|]; [|done].
  destruct (k a s1) as [[[b s2] t2]|] eqn:Hk; [|done].
  intros [= <-]. by exists a, s1, t1, b, s2, t2.
Qed.

Lemma announces_app (t1 t2 : list Event) (cmds1 cmds2 : list (list string)) :
  announces t1 cmds1 → announces t2 cmds2 → announces (t1 ++ t2) (cmds1 ++ cmds2).
Proof.
  intros (Hc1 & Hs1 & Hw1 & Hg1 & Hl1) (Hc2 & Hs2 & Hw2 & Hg2 & Hl2).
  unfold announces.
  rewrite commands_app, <- sends_app, writes_app.
  unfold started, logged, failed in *. rewrite !omap_app.
  by rewrite Hc1, Hc2, Hs1, Hs2, Hw1, Hw2, Hg1, Hg2, Hl1, Hl2.
Qed.

Lemma waitForFile_finished (fuel : nat) (path : string) (s s' : S) (t : list Event) :
  waitForFile fuel path s = Some (tt, s', t) → announces t [].
Proof.
  revert s t. induction fuel as [|fuel IH]; intros s t; [done|]. simpl.
  intros (exists_ & s1 & t1 & [] & s2 & t2 & Hexists & Hrest & [= -> ->])%runP_bind_Some.
  unfold lift, fs_FileExists in Hexists. injection Hexists as <- <- <-.
  destruct (FileExists path s).
  - injection Hrest as <- <-. by repeat split.
  - apply runP_bind_Some in Hrest
      as ([] & s3 & t3 & [] & s4 & t4 & Hsleep & Hwait & [= -> ->]).
    unfold lift, time_Sleep in Hsleep. injection Hsleep as <- <-.
    apply IH in Hwait. simpl.
    destruct Hwait as (Hc & Hs & Hw & Hg & Hl). by repeat split.
Qed.

Lemma announce_finished (fuel : nat) (c : customNetwork) (s s' : S) (t : list Event) :
  announce net fuel c s = Some (tt, s', t) → announces t [arpingCommand c].
Proof.
  unfold announce.
  intros ([] & s1 & t1 & [] & s2 & t2 & Hwait & Hrest & [= -> ->])%runP_bind_Some.
  apply waitForFile_finished in Hwait.
  apply runP_bind_Some in Hrest
    as ([[[stdout stderr] status] err] & s3 & t3 & [] & s4 & t4 & Harping & Hrest & [= -> ->]).
  unfold lift, cmdRunner_RunCommand in Harping.
  destruct (RunCommand "arping" _ s1) as [[[[stdout' ?] ?] err'] m1].
  injection Harping as <- <- <- <- <- <-.
  apply runP_bind_Some in Hrest
    as ([] & s5 & t5 & [] & s6 & t6 & Hlog & Hsleep & [= -> ->]).
  unfold lift in Hlog, Hsleep. rewrite logIgnored_run in Hlog.
  injection Hlog as <- <-. unfold time_Sleep in Hsleep. injection Hsleep as <- <-.
  apply (announces_app _ _ [] [arpingCommand c]); [done|].
  by destruct stdout', err'.
Qed.

Lemma gratuitiousArp_round_finished (fuel : nat) (networks : list customNetwork)
  (s s' : S) (t : list Event) :
  gratuitiousArp_round net fuel networks s = Some (tt, s', t) →
  announces t (arpingCommand <$> networks).
Proof.
  revert s t. induction networks as [|c networks IH]; intros s t.
  - simpl. intros [= <- <-]. by repeat split.
  - simpl.
    intros ([] & s1 & t1 & [] & s2 & t2 & Hfirst & Hrest & [= -> ->])%runP_bind_Some.
    apply announce_finished in Hfirst. apply IH in Hrest.
    by apply (announces_app _ _ [arpingCommand c]).
Qed.

Lemma gratuitiousArp_rounds_finished (fuel rounds : nat)
  (networks : list customNetwork) (s s' : S) (t : list Event) :
  gratuitiousArp_rounds net fuel rounds networks s = Some (tt, s', t) →
  announces t (concat (replicate rounds (arpingCommand <$> networks))).
Proof.
  revert s t. induction rounds as [|rounds IH]; intros s t.
  - simpl. intros [= <- <-]. by repeat split.
  - simpl.
    intros ([] & s1 & t1 & [] & s2 & t2 & Hfirst & Hrest & [= -> ->])%runP_bind_Some.
    apply gratuitiousArp_round_finished in Hfirst. apply IH in Hrest.
    by apply announces_app.
Qed.

(** X10: a run of the announcer that ends, on whatever machine, has run the
    announcements of six rounds over the networks in the order of the list
    and no other command; it has written no file and started no goroutine;
    it has logged the errors of its announcements and nothing else; and it
    has sent [nil] once on the channel it was given, as its last event, or
    nothing without a channel. *)
Theorem gratuitiousArp_finished (fuel : nat) (networks : list customNetwork)
  (errCh : option Chan) (s s' : S) (t : list Event) :
  gratuitiousArp net fuel networks errCh s = Some (tt, s', t) →
  commands t = concat (replicate 6 (arpingCommand <$> networks)) ∧
  writes t = [] ∧ started t = [] ∧ logged t = failed t ∧
  match errCh with
  | Some ch => ∃ before, t = before ++ [EvSend ch None] ∧ sends before = []
  | None => sends t = []
  end.
Proof.
  unfold gratuitiousArp.
  intros ([] & s1 & t1 & [] & s2 & t2 & Hrounds & Hsend & [= -> ->])%runP_bind_Some.
  apply gratuitiousArp_rounds_finished in Hrounds
    as (Hc & Hs & Hw & Hg & Hl).
  destruct errCh as [ch|].
  - unfold lift, chan_send in Hsend. injection Hsend as <- <-.
    split; [rewrite commands_app, Hc; apply app_nil_r|].
    split; [rewrite writes_app, Hw; reflexivity|].
    unfold started, logged, failed in *. rewrite !omap_app.
    split; [rewrite Hg; reflexivity|].
    split; [rewrite Hl; reflexivity|]. by exists t1.
  - injection Hsend as <- <-. by rewrite app_nil_r.
Qed.

(** X11: for a network resolved to the empty interface name the announcer
    waits for the device registry itself, since joining the registry path
    with the empty name gives the registry path: where the registry exists
    it announces at once, with the empty name for the interface. *)
Theorem announce_unresolved (fuel : nat) (c : customNetwork) (s : S) :
  Interface c = "" →
  FileExists "/sys/class/net" s = true →
  announce net (Datatypes.S fuel) c s =
  let '(stdout, _, _, err, s1) :=
    RunCommand "arping" ["-c"; "1"; "-U"; "-I"; ""; IP (Network c)] s in
  Some (tt, Sleep (arpWaitInterval net) s1,
        EvRunCommand "arping" ["-c"; "1"; "-U"; "-I"; ""; IP (Network c)] stdout err
        :: logEvents "Ignoring arping failure: %#v" err
        ++ [EvSleep (arpWaitInterval net)]).
Proof.
  intros Hiface Hexists. unfold announce. rewrite Hiface.
  change (GoPath.Join ["/sys/class/net"; ""]) with "/sys/class/net".
  rewrite (runP_bind (S:=S)). simpl waitForFile.
  rewrite (runP_bind (S:=S)). unfold lift at 1, fs_FileExists. rewrite Hexists.
  cbv beta iota. change ((mret tt : P unit) s) with (Some (tt, s, @nil Event)).
  cbv beta iota.
  rewrite (runP_bind (S:=S)). unfold lift at 1, cmdRunner_RunCommand.
  destruct (RunCommand "arping" _ s) as [[[[stdout ?] ?] err] m1].
  rewrite (runP_bind (S:=S)). unfold lift, time_Sleep. rewrite logIgnored_run.
  simpl. by rewrite ?app_nil_r.
Qed.

End FinishedRuns.

(** ** What the operations leave on the in-memory machine *)

Module DiskFacts.
Import Errors System GoTemplate UbuntuNetManager Observations Diagnostics Fakes.
Import StringFacts ManagerFacts PathFacts FakeFacts.

Lemma interfacesFile_nonempty (resolved : list customNetwork) :
  interfacesFile resolved ≠ "".
Proof.
  intros Hempty. apply (f_equal String.length) in Hempty.
  unfold interfacesFile in Hempty. rewrite length_app in Hempty.
  vm_compute (String.length loopbackStanza) in Hempty. simpl in Hempty. lia.
Qed.

Lemma resolvConf_nonempty (servers : list string) : resolvConf servers ≠ "".
Proof.
  intros Hempty. apply (f_equal String.length) in Hempty.
  unfold resolvConf in Hempty. rewrite length_app in Hempty.
  simpl in Hempty. lia.
Qed.

Lemma dhcpConfig_nonempty (servers : list string) : dhcpConfig servers ≠ "".
Proof.
  intros Hempty. apply (f_equal String.length) in Hempty.
  unfold dhcpConfig in Hempty. rewrite length_app in Hempty.
  vm_compute (String.length dhcpPreamble) in Hempty. simpl in Hempty. lia.
Qed.

Lemma default_nonempty (o : option string) (content : string) :
  default "" o = content → content ≠ "" → o = Some content.
Proof. destruct o; simpl; congruence. Qed.

(** The convergent write leaves every other file alone, and the file with
    the content when it returns no error. *)
Lemma ConvergeFileContents_leaves (path content : string) (m : Machine) :
  let '(changed, err, m1) := ConvergeFileContents path content m in
  globs m1 = globs m ∧ globErr m1 = globErr m ∧ writeErr m1 = writeErr m ∧
  availableCmds m1 = availableCmds m ∧
  (∀ other, other ≠ path → files m1 !! other = files m !! other) ∧
  (err = None → default "" (files m1 !! path) = content) ∧
  (is_Some err → m1 = m ∧ changed = false ∧ err = writeErr m ∧
                 default "" (files m !! path) ≠ content) ∧
  (changed = false → m1 = m).
Proof.
  simpl. unfold fakeConvergeFileContents, fakeWriteFile.
  destruct (decide (default "" (files m !! path) = content)) as [Hsame|Hdiff].
  { repeat split; try done; by intros [? ?]. }
  destruct (writeErr m) as [e|] eqn:HwriteErr; simpl.
  - repeat split; try done; by intros [? ?].
  - repeat split; try done; try (by intros [? ?]).
    + intros other Hother. by rewrite lookup_insert_ne.
    + intros _. by rewrite lookup_insert_eq.
Qed.

Lemma WriteFile_leaves (path content : string) (m : Machine) :
  let '(err, m1) := WriteFile path content m in
  globs m1 = globs m ∧ globErr m1 = globErr m ∧ writeErr m1 = writeErr m ∧
  availableCmds m1 = availableCmds m ∧
  (∀ other, other ≠ path → files m1 !! other = files m !! other) ∧
  (err = None → files m1 !! path = Some content).
Proof.
  simpl. unfold fakeWriteFile. destruct (writeErr m) as [e|] eqn:HwriteErr; simpl.
  - by repeat split.
  - repeat split; try done.
    + intros other Hother. by rewrite lookup_insert_ne.
    + intros _. by rewrite lookup_insert_eq.
Qed.

Lemma RunCommand_available (cmdName : string) (args : list string) (m : Machine) :
  availableCmds (RunCommand cmdName args m).2 = availableCmds m.
Proof.
  simpl. unfold fakeRunCommand.
  by destruct (cmdResults m !! _) as [[stdout [e|]]|].
Qed.

Lemma bounce_disk (changed : bool) (resolved : list customNetwork) (m : Machine) :
  disk (if changed then restartNetworkingInterfaces resolved m
        else (tt, m, [])).1.2 = disk m.
Proof. destruct changed; [apply restartNetworkingInterfaces_disk | done]. Qed.

(** What a static setup leaves: the registry as it was, every file but its
    two as it was, and after a call without error its two files with the
    texts it rendered. *)
Lemma SetupManualNetworking_leaves (networks : Networks) (errCh : option Chan)
  (m : Machine) :
  let r := SetupManualNetworking networks errCh m in
  globs r.1.2 = globs m ∧ globErr r.1.2 = globErr m ∧
  (∀ other, other ≠ "/etc/network/interfaces" → other ≠ "/etc/resolv.conf" →
            files r.1.2 !! other = files m !! other) ∧
  (r.1.1 = None →
   ∃ macAddresses,
     (detectMacAddresses m).1.1 = (macAddresses, None) ∧
     files r.1.2 !! "/etc/network/interfaces" =
       Some (interfacesFile (resolve macAddresses <$> networks.*2)) ∧
     files r.1.2 !! "/etc/resolv.conf" =
       Some (resolvConf (getDNSServers networks))).
Proof.
  intros r. subst r. rewrite SetupManualNetworking_spec.
  destruct (detectMacAddresses m).1.1 as [macAddresses [e|]]; [done|].
  pose proof (writeNetworkInterfaces_loop_spec macAddresses networks []) as Hloop.
  destruct (writeNetworkInterfaces_loop macAddresses networks [])
    as [resolved [e|]]; [done|].
  destruct Hloop as [-> _]. simpl app. cbv zeta.
  pose proof (ConvergeFileContents_leaves "/etc/network/interfaces"
    (interfacesFile (resolve macAddresses <$> networks.*2)) m) as Hconverge.
  destruct (ConvergeFileContents _ _ m) as [[changed cerr] m1].
  destruct Hconverge as (Hg1 & Hge1 & Hwe1 & _ & Hf1 & Hi1 & _).
  destruct cerr as [e|].
  { simpl. repeat split; try done. intros other Hother _. by apply Hf1. }
  pose proof (bounce_disk changed (resolve macAddresses <$> networks.*2) m1) as Hdisk.
  destruct (if changed then _ else _) as [[[] m2] restarts].
  simpl in Hdisk. injection Hdisk as Hf2 Hg2 Hge2 Hwe2.
  pose proof (WriteFile_leaves "/etc/resolv.conf"
    (resolvConf (getDNSServers networks)) m2) as Hwrite.
  destruct (WriteFile _ _ m2) as [rerr m3].
  destruct Hwrite as (Hg3 & Hge3 & _ & _ & Hf3 & Hr3).
  assert (globs m3 = globs m ∧ globErr m3 = globErr m ∧
          ∀ other, other ≠ "/etc/network/interfaces" → other ≠ "/etc/resolv.conf" →
                   files m3 !! other = files m !! other) as (? & ? & ?).
  { repeat split; [congruence..|].
    intros other Hifaces Hresolv. rewrite Hf3, Hf2 by done. by apply Hf1. }
  destruct rerr as [e|]; simpl; repeat split; try done.
  intros _. exists macAddresses. repeat split.
  - rewrite Hf3, Hf2 by done.
    apply default_nonempty; [by apply Hi1 | apply interfacesFile_nonempty].
  - by apply Hr3.
Qed.

(** X12: after a static setup that returned no error on the in-memory
    machine, the interfaces file holds the text rendered for the resolved
    networks and the resolver configuration the text rendered for the
    servers; whether it returned an error or not, no other file has
    changed. *)
Theorem static_setup_converges (networks : Networks) (errCh : option Chan)
  (m : Machine) :
  let r := SetupManualNetworking networks errCh m in
  (∀ other, other ≠ "/etc/network/interfaces" → other ≠ "/etc/resolv.conf" →
            files r.1.2 !! other = files m !! other) ∧
  (r.1.1 = None →
   ∃ macAddresses,
     (detectMacAddresses m).1.1 = (macAddresses, None) ∧
     files r.1.2 !! "/etc/network/interfaces" =
       Some (interfacesFile (resolve macAddresses <$> networks.*2)) ∧
     files r.1.2 !! "/etc/resolv.conf" =
       Some (resolvConf (getDNSServers networks))).
Proof.
  intros r. destruct (SetupManualNetworking_leaves networks errCh m)
    as (_ & _ & Hfiles & Hdone). by split.
Qed.

(** X13: a static setup does not disturb what it reads: on the machine it
    leaves, [detectMacAddresses] returns what it returned before the call,
    map and error. *)
Theorem static_setup_keeps_devices (networks : Networks) (errCh : option Chan)
  (m : Machine) :
  (detectMacAddresses (SetupManualNetworking networks errCh m).1.2).1.1 =
  (detectMacAddresses m).1.1.
Proof.
  destruct (SetupManualNetworking_leaves networks errCh m)
    as (Hglobs & HglobErr & Hfiles & _).
  by apply detectMacAddresses_artifacts.
Qed.

(** What a DHCP setup leaves: the registry and the installed commands as
    they were, every file but the client configuration as it was, and after
    a call without error the client configuration with the text rendered. *)
Lemma SetupDhcp_leaves (networks : Networks) (m : Machine) :
  let r := SetupDhcp networks m in
  let path := if CommandExists "dhclient3" m
              then "/etc/dhcp3/dhclient.conf" else "/etc/dhcp/dhclient.conf" in
  globs r.1.2 = globs m ∧ globErr r.1.2 = globErr m ∧
  writeErr r.1.2 = writeErr m ∧ availableCmds r.1.2 = availableCmds m ∧
  (∀ other, other ≠ path → files r.1.2 !! other = files m !! other) ∧
  (r.1.1 = None →
   files r.1.2 !! path = Some (dhcpConfig (getDNSServers networks))) ∧
  (is_Some r.1.1 → r.1.2 = m ∧ commands r.2 = []).
Proof.
  intros r path. subst r. rewrite SetupDhcp_run. cbv zeta. fold path.
  pose proof (ConvergeFileContents_leaves path
    (dhcpConfig (getDNSServers networks)) m) as Hconverge.
  destruct (ConvergeFileContents path _ m) as [[changed cerr] m1].
  destruct Hconverge as (Hg1 & Hge1 & Hwe1 & Ha1 & Hf1 & Hi1 & He1 & _).
  destruct cerr as [e|].
  { destruct He1 as (-> & _); [done|]. by repeat split. }
  assert (files m1 !! path = Some (dhcpConfig (getDNSServers networks))) as Hpath.
  { apply default_nonempty; [by apply Hi1 | apply dhcpConfig_nonempty]. }
  destruct changed.
  2: { simpl. repeat split; try done; by intros [? ?]. }
  rewrite restartNetworkArguments_run.
  pose proof (RunCommand_disk "ifup" ["--version"] m1) as Hd2.
  pose proof (RunCommand_available "ifup" ["--version"] m1) as Ha2.
  destruct (RunCommand "ifup" ["--version"] m1) as [[[[stdout ?] ?] perr] m2].
  set (args := if GoRegexp.MatchString ifupVersion07Regex stdout then _ else _).
  pose proof (RunCommand_disk "ifdown" args m2) as Hd3.
  pose proof (RunCommand_available "ifdown" args m2) as Ha3.
  destruct (RunCommand "ifdown" args m2) as [[[[down ?] ?] downErr] m3].
  pose proof (RunCommand_disk "ifup" args m3) as Hd4.
  pose proof (RunCommand_available "ifup" args m3) as Ha4.
  destruct (RunCommand "ifup" args m3) as [[[[up ?] ?] upErr] m4].
  simpl in *.
  injection Hd2 as Hf2 Hg2 Hge2 Hwe2. injection Hd3 as Hf3 Hg3 Hge3 Hwe3.
  injection Hd4 as Hf4 Hg4 Hge4 Hwe4.
  repeat split; try congruence; try (by exfalso; eapply is_Some_None).
  intros other Hother. rewrite Hf4, Hf3, Hf2. by apply Hf1.
Qed.

(** X14: after a DHCP setup that returned no error on the in-memory
    machine, the DHCP client configuration, at the path chosen by the
    presence of [dhclient3], holds the text rendered for the servers;
    whether it returned an error or not, no other file has changed. *)
Theorem dhcp_setup_converges (networks : Networks) (m : Machine) :
  let r := SetupDhcp networks m in
  let path := if CommandExists "dhclient3" m
              then "/etc/dhcp3/dhclient.conf" else "/etc/dhcp/dhclient.conf" in
  (∀ other, other ≠ path → files r.1.2 !! other = files m !! other) ∧
  (r.1.1 = None →
   files r.1.2 !! path = Some (dhcpConfig (getDNSServers networks))).
Proof.
  intros r path.
  destruct (SetupDhcp_leaves networks m) as (_ & _ & _ & _ & Hfiles & Hdone & _).
  by split.
Qed.

(** X15: a DHCP setup called again with the same networks, on the machine
    the first call left, returns what the first call returned, runs no
    command (so it does not bounce the interfaces a second time) and leaves
    the disk as the first call left it. *)
Theorem second_dhcp_setup_bounces_nothing (networks : Networks) (m : Machine) :
  let first := SetupDhcp networks m in
  let second := SetupDhcp networks first.1.2 in
  second.1.1 = first.1.1 ∧ commands second.2 = [] ∧
  disk second.1.2 = disk first.1.2.
Proof.
  intros first second.
  destruct (SetupDhcp_leaves networks m)
    as (_ & _ & Hwe & Hav & _ & Hdone & Hfailed).
  fold first in Hwe, Hav, Hdone, Hfailed. cbv zeta in Hdone.
  assert (CommandExists "dhclient3" first.1.2 = CommandExists "dhclient3" m) as Hexists.
  { change (CommandExists ?c ?mach) with (fakeCommandExists c mach).
    unfold fakeCommandExists. by rewrite Hav. }
  destruct (first.1.1) as [e|] eqn:Hfirst.
  - (* the first call failed and changed nothing: the second fails alike *)
    destruct Hfailed as [Hm Hnone]; [by eexists|].
    subst second. rewrite Hm. fold first. rewrite Hfirst, Hm.
    split; [reflexivity|]. split; [exact Hnone | reflexivity].
  - (* the first call left the file as the second wants it *)
    subst second. rewrite SetupDhcp_run. cbv zeta. rewrite Hexists.
    specialize (Hdone eq_refl).
    change (ConvergeFileContents ?p ?content ?mach)
      with (fakeConvergeFileContents p content mach).
    unfold fakeConvergeFileContents. rewrite Hdone.
    rewrite decide_True by reflexivity.
    split; [reflexivity|]. split; reflexivity.
Qed.

End DiskFacts.

(** ** The further properties on the machines of the examples *)

Module Diagnosed.
Import Errors System GoTemplate UbuntuNetManager Observations Diagnostics Fakes Examples.
Import ManagerFacts FakeFacts.

(** X1 on the machine whose second device has no address file: the
    listing succeeds, the read for eth0 succeeds, and the error is the one
    of the read for eth1, wrapped. *)
Lemma missing_address_file_fails :
  (detectMacAddresses addressless).1.1.2 =
    Some (WrapError (New "File not found") "Reading mac address from file") ∧
  ((∃ cause, (Glob "/sys/class/net/*" addressless).2 = Some cause ∧
             WrapError (New "File not found") "Reading mac address from file" =
             WrapError cause "Getting file list from /sys/class/net") ∨
   ((Glob "/sys/class/net/*" addressless).2 = None ∧
    ∃ before filePath after cause,
      (Glob "/sys/class/net/*" addressless).1 = before ++ filePath :: after ∧
      Forall (λ filePath, (addressFile addressless filePath).2 = None) before ∧
      (addressFile addressless filePath).2 = Some cause ∧
      WrapError (New "File not found") "Reading mac address from file" =
      WrapError cause "Reading mac address from file")).
Proof.
  split; [vm_compute; reflexivity|].
  apply (proj2 (proj2 (detectMacAddresses_fails_iff addressless))).
  vm_compute. reflexivity.
Defined.

(** X2 on the machine: the address of the network stands for eth0, the
    last, and only, device that has it. *)
Lemma eth0_is_last_device :
  (detectMacAddresses machine).1.1.2 = None ∧
  (detectMacAddresses machine).1.1.1 !! Mac bosh =
    GoPath.Base <$>
      last (filter (λ filePath, macOf machine filePath = Mac bosh)
              (Glob "/sys/class/net/*" machine).1) ∧
  (detectMacAddresses machine).1.1.1 !! Mac bosh = Some "eth0".
Proof.
  split; [reflexivity|]. split; [|vm_compute; reflexivity].
  apply (detectMacAddresses_last_device machine). reflexivity.
Defined.

(** X3 on the machine: the second network has an address that is no
    dotted quad, and the setup fails on it without an event. *)
Lemma malformed_address_fails :
  (detectMacAddresses machine).1.1.2 = None ∧
  Exists badSubnet [("bosh", bosh); ("malformed", malformed)].*2 ∧
  ∃ before aNet after e,
    [("bosh", bosh); ("malformed", malformed)].*2 = before ++ aNet :: after ∧
    Forall (λ aNet, ¬ badSubnet aNet) before ∧
    (CalculateNetworkAndBroadcast (IP aNet) (Netmask aNet)).2 = Some e ∧
    SetupManualNetworking [("bosh", bosh); ("malformed", malformed)] None machine =
    (Some (WrapError (WrapError e "Calculating network and broadcast")
             "Writing network interfaces"), machine, []).
Proof.
  assert (Exists badSubnet [("bosh", bosh); ("malformed", malformed)].*2) as Hbad.
  { apply Exists_cons_tl, Exists_cons_hd. by eexists. }
  split; [reflexivity|]. split; [exact Hbad|].
  apply (SetupManualNetworking_bad_subnet
           [("bosh", bosh); ("malformed", malformed)] None machine);
    [reflexivity | exact Hbad].
Defined.

(** X4 on the read-only machine: the setup fails, with one of the four
    errors. *)
Lemma read_only_error_is_wrapped :
  ∃ err,
    (SetupManualNetworking [("bosh", bosh)] None readOnly).1.1 = Some err ∧
    ∃ cause,
      err = WrapError (WrapError cause "Detecting mac addresses")
              "Writing network interfaces" ∨
      err = WrapError (WrapError cause "Calculating network and broadcast")
              "Writing network interfaces" ∨
      err = WrapError (WrapError cause "Writing to /etc/network/interfaces")
              "Writing network interfaces" ∨
      err = WrapError (WrapError cause "Writing to /etc/resolv.conf")
              "Writing resolv.conf".
Proof.
  eexists. split; [vm_compute; reflexivity|].
  apply (SetupManualNetworking_errors [("bosh", bosh)] None readOnly).
  vm_compute. reflexivity.
Defined.

(** X6 on the read-only machine: the one event of the setup is the failed
    convergence. *)
Lemma read_only_stops_at_interfaces :
  (detectMacAddresses readOnly).1.1 = (devices, None) ∧
  Forall (λ aNet, ¬ badSubnet aNet) [("bosh", bosh)].*2 ∧
  SetupManualNetworking [("bosh", bosh)] None readOnly =
  (Some (WrapError (WrapError (New "read-only file system")
           "Writing to /etc/network/interfaces") "Writing network interfaces"),
   readOnly,
   [EvConvergeFileContents "/etc/network/interfaces"
      (interfacesFile (resolve devices <$> [("bosh", bosh)].*2)) false
      (Some (New "read-only file system"))]).
Proof.
  assert (Forall (λ aNet, ¬ badSubnet aNet) [("bosh", bosh)].*2) as Hok.
  { repeat constructor. by intros [? ?]. }
  split; [vm_compute; reflexivity|]. split; [exact Hok|].
  apply (interfaces_write_failure_stops [("bosh", bosh)] None readOnly readOnly
           devices false (New "read-only file system"));
    [vm_compute; reflexivity | exact Hok | vm_compute; reflexivity].
Defined.

(** X7 on the machine with the failing [ifdown]: its error is logged, and
    no other. *)
Lemma flaky_ifdown_is_logged :
  failed (SetupDhcp [("bosh", bosh)] flaky).2 = [New "exit status 1"] ∧
  logged (SetupDhcp [("bosh", bosh)] flaky).2 = [New "exit status 1"].
Proof.
  split; [vm_compute; reflexivity|].
  rewrite (proj2 (failures_are_logged [("bosh", bosh)] None flaky)).
  vm_compute. reflexivity.
Defined.

(** X9 on the read-only machine whose interfaces file is as it should be:
    the convergence reports no change and no error, and the setup fails at
    the resolver configuration. *)
Lemma settled_fails_at_resolvConf :
  let r := SetupManualNetworking [("bosh", bosh)] None settled in
  r.1.1 = Some (WrapError (WrapError (New "read-only file system")
                  "Writing to /etc/resolv.conf") "Writing resolv.conf") ∧
  writes r.2 =
    [ EvConvergeFileContents "/etc/network/interfaces"
        (interfacesFile (resolve devices <$> [("bosh", bosh)].*2)) false None;
      EvWriteFile "/etc/resolv.conf" (resolvConf (getDNSServers [("bosh", bosh)]))
        (Some (New "read-only file system")) ] ∧
  commands r.2 = [] ∧
  started r.2 = [].
Proof.
  apply (resolvConf_write_failure_is_late [("bosh", bosh)] None settled settled
           devices false (New "read-only file system")).
  - vm_compute. reflexivity.
  - repeat constructor. by intros [? ?].
  - vm_compute. reflexivity.
  - vm_compute. reflexivity.
Defined.

(** X10 on the machine: the announcer handed the network on eth0 ends, with
    six announcements and one [nil] on the channel. *)
Lemma eth0_announced_six_times :
  ∃ s' t,
    gratuitiousArp manager 1 [onEth0] (Some 0%nat) machine = Some (tt, s', t) ∧
    commands t = concat (replicate 6 (arpingCommand <$> [onEth0])) ∧
    writes t = [] ∧ started t = [] ∧ logged t = failed t ∧
    ∃ before, t = before ++ [EvSend 0%nat None] ∧ sends before = [].
Proof.
  eexists. eexists. split; [vm_compute; reflexivity|].
  eapply (gratuitiousArp_finished manager 1 [onEth0] (Some 0%nat) machine).
  vm_compute. reflexivity.
Defined.

(** X11 on the machine with an entry for the registry: the network whose
    MAC address no device has is announced at once, on no interface. *)
Lemma unresolved_is_announced :
  Interface unresolved = "" ∧
  FileExists "/sys/class/net" withRegistry = true ∧
  announce manager 1 unresolved withRegistry =
  let '(stdout, _, _, err, s1) :=
    RunCommand "arping" ["-c"; "1"; "-U"; "-I"; ""; IP (Network unresolved)]
      withRegistry in
  Some (tt, Sleep (arpWaitInterval manager) s1,
        EvRunCommand "arping" ["-c"; "1"; "-U"; "-I"; ""; IP (Network unresolved)]
          stdout err
        :: logEvents "Ignoring arping failure: %#v" err
        ++ [EvSleep (arpWaitInterval manager)]).
Proof.
  split; [reflexivity|]. split; [reflexivity|].
  apply (announce_unresolved manager 0 unresolved withRegistry); reflexivity.
Defined.

End Diagnosed.
